(** * RenovaFlow: the project store and its HTTP handlers

    A shallow embedding of [server.ts] (the SQLite schema and the Express
    route handlers that read and write it) and of the billing auto-advance
    of [src/App.tsx], followed by the properties of the lifecycle engine and
    of the collection replacement protocol.

    Conventions of the embedding.
    - A table is the list of its rows in rowid order: [INSERT] appends,
      [DELETE] filters, [UPDATE] maps, [SELECT ... WHERE] filters and
      [.get] takes the first row of the selection.
    - TEXT values are [string]; a column that the typed client may leave out
      ([?] in [src/types.ts], or absent from the interface) is an
      [option string], [None] being SQL NULL.  The status of a project is
      such a column too: POST and PUT bind [req.body.status] as it comes,
      and a property that is missing is bound as NULL.  A request property
      is an [option] exactly where the handler tests it against [undefined]
      or for falsiness.
    - A client handler reaches the server through a URL it builds by putting
      an id into a path.  What the URL parser of the browser and the router
      of Express make of a path is not under [src/]: the model fixes it for
      the ids that a path carries unchanged and takes it as a parameter for
      the others.
    - The connection is the one [new Database("renovaflow.db")] opens:
      better-sqlite3 enforces foreign keys on every connection unless told
      otherwise, and [server.ts] never turns them off, so the
      [FOREIGN KEY ... ON DELETE CASCADE] clauses of the schema are in force.
    - External document sync, logging and the file system are outside the
      store and are not modelled. *)

From Stdlib Require Import String Ascii List Bool ZArith Lia.
Import ListNotations.
Open Scope string_scope.

Set Implicit Arguments.

(** ** src/types.ts *)

Module ProjectStatus.
Definition Estimate     : string := "見積".
Definition Order        : string := "発注".
Definition Construction : string := "施工".
Definition Billing      : string := "請求".
Definition PaymentIn    : string := "入金".
Definition PaymentOut   : string := "支払い".
Definition Cancelled    : string := "キャンセル案件".

(** The union type [ProjectStatus]. *)
Definition all : list string :=
  [Estimate; Order; Construction; Billing; PaymentIn; PaymentOut; Cancelled].

Definition is_status (s : string) : bool :=
  existsb (String.eqb s) all.
End ProjectStatus.

(** [status === s] for a status that may be NULL. *)
Definition status_is (status : option string) (s : string) : bool :=
  match status with
  | Some v => v =? s
  | None => false
  end.

(** A stored status that is one of the seven; NULL is none of them. *)
Definition valid_status (status : option string) : bool :=
  match status with
  | Some v => ProjectStatus.is_status v
  | None => false
  end.

(** ** The schema of [db.exec] *)

Module User.
Record row := {
  id : string;
  email : string;
  password : string;
  name : string;
  role : string;
  remarks : option string;
  isActive : bool          (* INTEGER DEFAULT 1 *)
}.
End User.

Module Project.
(** Every column of [projects] that a request body carries.  [status] is
    [TEXT] with no [NOT NULL]: a body without the property stores NULL. *)
Record fields := {
  status : option string;
  estimateDate : string;
  orderDate : option string;
  constructionStartDate : option string;
  completionDate : string;
  paymentDate : option string;
  title : string;
  propertyName : option string;
  estimateRemarks : option string;
  orderRemarks : option string;
  constructionRemarks : option string;
  billingRemarks : option string;
  paymentRemarks : option string;
  outboundPaymentRemarks : option string;
  customerName : string;
  customerZipCode : string;
  customerAddress : string;
  customerTel : string;
  customerEmail : string
}.

(** [paymentMethod] is a column no statement of [server.ts] writes. *)
Record row := {
  id : string;
  cols : fields;
  paymentMethod : option string
}.

Definition set_status (v : string) (f : fields) : fields :=
  {| status := Some v; estimateDate := estimateDate f; orderDate := orderDate f;
     constructionStartDate := constructionStartDate f;
     completionDate := completionDate f; paymentDate := paymentDate f;
     title := title f; propertyName := propertyName f;
     estimateRemarks := estimateRemarks f; orderRemarks := orderRemarks f;
     constructionRemarks := constructionRemarks f;
     billingRemarks := billingRemarks f; paymentRemarks := paymentRemarks f;
     outboundPaymentRemarks := outboundPaymentRemarks f;
     customerName := customerName f; customerZipCode := customerZipCode f;
     customerAddress := customerAddress f; customerTel := customerTel f;
     customerEmail := customerEmail f |}.

Definition set_estimateRemarks (v : string) (f : fields) : fields :=
  {| status := status f; estimateDate := estimateDate f; orderDate := orderDate f;
     constructionStartDate := constructionStartDate f;
     completionDate := completionDate f; paymentDate := paymentDate f;
     title := title f; propertyName := propertyName f;
     estimateRemarks := Some v; orderRemarks := orderRemarks f;
     constructionRemarks := constructionRemarks f;
     billingRemarks := billingRemarks f; paymentRemarks := paymentRemarks f;
     outboundPaymentRemarks := outboundPaymentRemarks f;
     customerName := customerName f; customerZipCode := customerZipCode f;
     customerAddress := customerAddress f; customerTel := customerTel f;
     customerEmail := customerEmail f |}.

Definition set_orderRemarks (v : string) (f : fields) : fields :=
  {| status := status f; estimateDate := estimateDate f; orderDate := orderDate f;
     constructionStartDate := constructionStartDate f;
     completionDate := completionDate f; paymentDate := paymentDate f;
     title := title f; propertyName := propertyName f;
     estimateRemarks := estimateRemarks f; orderRemarks := Some v;
     constructionRemarks := constructionRemarks f;
     billingRemarks := billingRemarks f; paymentRemarks := paymentRemarks f;
     outboundPaymentRemarks := outboundPaymentRemarks f;
     customerName := customerName f; customerZipCode := customerZipCode f;
     customerAddress := customerAddress f; customerTel := customerTel f;
     customerEmail := customerEmail f |}.

Definition set_constructionRemarks (v : string) (f : fields) : fields :=
  {| status := status f; estimateDate := estimateDate f; orderDate := orderDate f;
     constructionStartDate := constructionStartDate f;
     completionDate := completionDate f; paymentDate := paymentDate f;
     title := title f; propertyName := propertyName f;
     estimateRemarks := estimateRemarks f; orderRemarks := orderRemarks f;
     constructionRemarks := Some v;
     billingRemarks := billingRemarks f; paymentRemarks := paymentRemarks f;
     outboundPaymentRemarks := outboundPaymentRemarks f;
     customerName := customerName f; customerZipCode := customerZipCode f;
     customerAddress := customerAddress f; customerTel := customerTel f;
     customerEmail := customerEmail f |}.

Definition set_billingRemarks (v : string) (f : fields) : fields :=
  {| status := status f; estimateDate := estimateDate f; orderDate := orderDate f;
     constructionStartDate := constructionStartDate f;
     completionDate := completionDate f; paymentDate := paymentDate f;
     title := title f; propertyName := propertyName f;
     estimateRemarks := estimateRemarks f; orderRemarks := orderRemarks f;
     constructionRemarks := constructionRemarks f;
     billingRemarks := Some v; paymentRemarks := paymentRemarks f;
     outboundPaymentRemarks := outboundPaymentRemarks f;
     customerName := customerName f; customerZipCode := customerZipCode f;
     customerAddress := customerAddress f; customerTel := customerTel f;
     customerEmail := customerEmail f |}.

Definition set_paymentRemarks (v : string) (f : fields) : fields :=
  {| status := status f; estimateDate := estimateDate f; orderDate := orderDate f;
     constructionStartDate := constructionStartDate f;
     completionDate := completionDate f; paymentDate := paymentDate f;
     title := title f; propertyName := propertyName f;
     estimateRemarks := estimateRemarks f; orderRemarks := orderRemarks f;
     constructionRemarks := constructionRemarks f;
     billingRemarks := billingRemarks f; paymentRemarks := Some v;
     outboundPaymentRemarks := outboundPaymentRemarks f;
     customerName := customerName f; customerZipCode := customerZipCode f;
     customerAddress := customerAddress f; customerTel := customerTel f;
     customerEmail := customerEmail f |}.

Definition set_outboundPaymentRemarks (v : string) (f : fields) : fields :=
  {| status := status f; estimateDate := estimateDate f; orderDate := orderDate f;
     constructionStartDate := constructionStartDate f;
     completionDate := completionDate f; paymentDate := paymentDate f;
     title := title f; propertyName := propertyName f;
     estimateRemarks := estimateRemarks f; orderRemarks := orderRemarks f;
     constructionRemarks := constructionRemarks f;
     billingRemarks := billingRemarks f; paymentRemarks := paymentRemarks f;
     outboundPaymentRemarks := Some v;
     customerName := customerName f; customerZipCode := customerZipCode f;
     customerAddress := customerAddress f; customerTel := customerTel f;
     customerEmail := customerEmail f |}.

(** [UPDATE projects SET col = ? WHERE id = ?] acts on the row. *)
Definition update_cols (g : fields -> fields) (r : row) : row :=
  {| id := id r; cols := g (cols r); paymentMethod := paymentMethod r |}.
End Project.

Module ConstructionStaff.
Record fields := {
  name : string;
  zipCode : string;
  address : string;
  tel : string;
  email : string
}.
Record row := { id : string; projectId : string; cols : fields }.
End ConstructionStaff.

Module BillingItem.
Record fields := {
  name : string;
  amount : Z;
  expectedPaymentDate : string
}.
Record row := {
  id : string;
  projectId : string;
  cols : fields;
  isBilled : bool;         (* INTEGER DEFAULT 0 *)
  isPaid : bool            (* INTEGER DEFAULT 0 *)
}.
Definition set_isBilled (v : bool) (r : row) : row :=
  {| id := id r; projectId := projectId r; cols := cols r;
     isBilled := v; isPaid := isPaid r |}.
Definition set_isPaid (v : bool) (r : row) : row :=
  {| id := id r; projectId := projectId r; cols := cols r;
     isBilled := isBilled r; isPaid := v |}.
End BillingItem.

Module OutboundPayment.
Record fields := {
  recipient : string;
  amount : Z;
  expectedDate : string
}.
Record row := {
  id : string;
  projectId : string;
  cols : fields;
  isPaid : bool            (* INTEGER DEFAULT 0 *)
}.
Definition set_isPaid (v : bool) (r : row) : row :=
  {| id := id r; projectId := projectId r; cols := cols r; isPaid := v |}.
End OutboundPayment.

Module ProjectFile.
Record row := { id : string; projectId : string; name : string; url : string }.
End ProjectFile.

(** The database [db]: one list of rows per table. *)
Record Db := {
  users : list User.row;
  projects : list Project.row;
  construction_staff : list ConstructionStaff.row;
  billing_items : list BillingItem.row;
  outbound_payments : list OutboundPayment.row;
  files : list ProjectFile.row
}.

Definition with_users v (d : Db) : Db :=
  {| users := v; projects := projects d;
     construction_staff := construction_staff d;
     billing_items := billing_items d;
     outbound_payments := outbound_payments d; files := files d |}.

Definition with_projects v (d : Db) : Db :=
  {| users := users d; projects := v;
     construction_staff := construction_staff d;
     billing_items := billing_items d;
     outbound_payments := outbound_payments d; files := files d |}.

Definition with_construction_staff v (d : Db) : Db :=
  {| users := users d; projects := projects d;
     construction_staff := v;
     billing_items := billing_items d;
     outbound_payments := outbound_payments d; files := files d |}.

Definition with_billing_items v (d : Db) : Db :=
  {| users := users d; projects := projects d;
     construction_staff := construction_staff d;
     billing_items := v;
     outbound_payments := outbound_payments d; files := files d |}.

Definition with_outbound_payments v (d : Db) : Db :=
  {| users := users d; projects := projects d;
     construction_staff := construction_staff d;
     billing_items := billing_items d;
     outbound_payments := v; files := files d |}.

Definition with_files v (d : Db) : Db :=
  {| users := users d; projects := projects d;
     construction_staff := construction_staff d;
     billing_items := billing_items d;
     outbound_payments := outbound_payments d; files := v |}.

(** ** The store: statements, constraints and transactions *)

(** What a statement throws when a constraint of the schema fails. *)
Inductive SqliteError :=
| UniqueConstraint (column : string)
| ForeignKeyConstraint.

(** [error.message] *)
Definition message (e : SqliteError) : string :=
  match e with
  | UniqueConstraint column => "UNIQUE constraint failed: " ++ column
  | ForeignKeyConstraint => "FOREIGN KEY constraint failed"
  end.

(** A prepared statement [.run]: it either changes the database and
    returns, or throws and leaves the database as it found it.  Several
    statements in a row keep the changes of those that ran before the one
    that threw. *)
Definition Stmt (A : Type) : Type := Db -> Db * (SqliteError + A).

Definition ret {A} (a : A) : Stmt A := fun d => (d, inr a).

Definition throw {A} (e : SqliteError) : Stmt A := fun d => (d, inl e).

Definition bind {A B} (m : Stmt A) (k : A -> Stmt B) : Stmt B :=
  fun d =>
    match m d with
    | (d1, inr a) => k a d1
    | (d1, inl e) => (d1, inl e)
    end.

Notation "x <- m ;; k" := (bind m (fun x => k))
  (at level 61, m at next level, right associativity).
Notation "m ;;; k" := (bind m (fun _ => k))
  (at level 61, right associativity).

(** [db.transaction(fn)()]: BEGIN, run [fn], COMMIT; when [fn] throws,
    ROLLBACK to the database as it was at BEGIN and rethrow. *)
Definition db_transaction {A} (fn : Stmt A) : Stmt A :=
  fun d =>
    match fn d with
    | (d1, inr a) => (d1, inr a)
    | (_, inl e) => (d, inl e)
    end.

(** [for (const x of xs) body(x)] *)
Fixpoint for_of {X} (xs : list X) (body : X -> Stmt unit) : Stmt unit :=
  match xs with
  | [] => ret tt
  | x :: rest => body x ;;; for_of rest body
  end.

Section Table.
Variable R : Type.

(** [SELECT * FROM t WHERE c].all() *)
Definition select_all (c : R -> bool) (t : list R) : list R := filter c t.

(** [SELECT * FROM t WHERE c].get() *)
Definition select_get (c : R -> bool) (t : list R) : option R :=
  hd_error (filter c t).

(** [UPDATE t SET ... WHERE c] *)
Definition update_where (c : R -> bool) (f : R -> R) (t : list R) : list R :=
  map (fun r => if c r then f r else r) t.

(** [DELETE FROM t WHERE c] *)
Definition delete_where (c : R -> bool) (t : list R) : list R :=
  filter (fun r => negb (c r)) t.
End Table.

(** The parent key of every [FOREIGN KEY(projectId) REFERENCES projects(id)]. *)
Definition project_exists (projectId : string) (d : Db) : bool :=
  existsb (fun p => Project.id p =? projectId) (projects d).

(** [INSERT INTO users]: [id] is the primary key, [email] is UNIQUE. *)
Definition insertUser (r : User.row) : Stmt unit :=
  fun d =>
    if existsb (fun u => User.id u =? User.id r) (users d)
    then throw (UniqueConstraint "users.id") d
    else if existsb (fun u => User.email u =? User.email r) (users d)
    then throw (UniqueConstraint "users.email") d
    else (with_users (users d ++ [r]) d, inr tt).

(** [INSERT INTO projects] *)
Definition insertProject (r : Project.row) : Stmt unit :=
  fun d =>
    if existsb (fun p => Project.id p =? Project.id r) (projects d)
    then throw (UniqueConstraint "projects.id") d
    else (with_projects (projects d ++ [r]) d, inr tt).

(** [INSERT INTO construction_staff] *)
Definition insertStaff (r : ConstructionStaff.row) : Stmt unit :=
  fun d =>
    if existsb (fun x => ConstructionStaff.id x =? ConstructionStaff.id r)
               (construction_staff d)
    then throw (UniqueConstraint "construction_staff.id") d
    else if negb (project_exists (ConstructionStaff.projectId r) d)
    then throw ForeignKeyConstraint d
    else (with_construction_staff (construction_staff d ++ [r]) d, inr tt).

(** [INSERT INTO billing_items] *)
Definition insertBilling (r : BillingItem.row) : Stmt unit :=
  fun d =>
    if existsb (fun x => BillingItem.id x =? BillingItem.id r) (billing_items d)
    then throw (UniqueConstraint "billing_items.id") d
    else if negb (project_exists (BillingItem.projectId r) d)
    then throw ForeignKeyConstraint d
    else (with_billing_items (billing_items d ++ [r]) d, inr tt).

(** [INSERT INTO outbound_payments] *)
Definition insertOutbound (r : OutboundPayment.row) : Stmt unit :=
  fun d =>
    if existsb (fun x => OutboundPayment.id x =? OutboundPayment.id r)
               (outbound_payments d)
    then throw (UniqueConstraint "outbound_payments.id") d
    else if negb (project_exists (OutboundPayment.projectId r) d)
    then throw ForeignKeyConstraint d
    else (with_outbound_payments (outbound_payments d ++ [r]) d, inr tt).

(** [INSERT INTO files] *)
Definition insertFile (r : ProjectFile.row) : Stmt unit :=
  fun d =>
    if existsb (fun x => ProjectFile.id x =? ProjectFile.id r) (files d)
    then throw (UniqueConstraint "files.id") d
    else if negb (project_exists (ProjectFile.projectId r) d)
    then throw ForeignKeyConstraint d
    else (with_files (files d ++ [r]) d, inr tt).

(** [UPDATE projects SET ... WHERE id = ?] *)
Definition update_project (id : string) (g : Project.fields -> Project.fields)
  : Stmt unit :=
  fun d =>
    (with_projects
       (update_where (fun p => Project.id p =? id) (Project.update_cols g)
                     (projects d)) d,
     inr tt).

(** [DELETE FROM construction_staff WHERE projectId = ?] *)
Definition deleteStaff (projectId : string) : Stmt unit :=
  fun d =>
    (with_construction_staff
       (delete_where (fun x => ConstructionStaff.projectId x =? projectId)
                     (construction_staff d)) d,
     inr tt).

(** [DELETE FROM billing_items WHERE projectId = ?] *)
Definition deleteBilling (projectId : string) : Stmt unit :=
  fun d =>
    (with_billing_items
       (delete_where (fun x => BillingItem.projectId x =? projectId)
                     (billing_items d)) d,
     inr tt).

(** [DELETE FROM outbound_payments WHERE projectId = ?] *)
Definition deleteOutbound (projectId : string) : Stmt unit :=
  fun d =>
    (with_outbound_payments
       (delete_where (fun x => OutboundPayment.projectId x =? projectId)
                     (outbound_payments d)) d,
     inr tt).

(** [DELETE FROM projects WHERE id = ?]: each project row that goes takes
    with it, by [ON DELETE CASCADE], the rows of the four child tables whose
    [projectId] is its id.  When no project row matches, nothing is
    deleted. *)
Definition delete_project_row (id : string) : Stmt unit :=
  fun d =>
    if project_exists id d then
      ({| users := users d;
          projects := delete_where (fun p => Project.id p =? id) (projects d);
          construction_staff :=
            delete_where (fun x => ConstructionStaff.projectId x =? id)
                         (construction_staff d);
          billing_items :=
            delete_where (fun x => BillingItem.projectId x =? id)
                         (billing_items d);
          outbound_payments :=
            delete_where (fun x => OutboundPayment.projectId x =? id)
                         (outbound_payments d);
          files :=
            delete_where (fun x => ProjectFile.projectId x =? id) (files d) |},
       inr tt)
    else (d, inr tt).

(** The database after [db.exec], the migrations and the seed of the
    first start. *)
Definition initial_db : Db :=
  {| users := [ {| User.id := "1"; User.email := "admin@example.com";
                   User.password := "password123"; User.name := "管理者";
                   User.role := "admin"; User.remarks := None;
                   User.isActive := true |} ];
     projects := []; construction_staff := []; billing_items := [];
     outbound_payments := []; files := [] |}.

(** ** Requests and replies *)

(** A project as the GET handlers inline it: the row with its children;
    [files] only on the fetch of one project. *)
Record ProjectJson := {
  json_project : Project.row;
  json_constructionStaff : list ConstructionStaff.row;
  json_billingItems : list BillingItem.row;
  json_outboundPayments : list OutboundPayment.row;
  json_files : option (list ProjectFile.row)
}.

(** The JSON a handler sends back. *)
Inductive Body :=
| Success                                   (* { success: true } *)
| Error (msg : string)                      (* { error: msg } *)
| LoginBody (id email name role : string)
| ProjectBody (p : ProjectJson)
| ProjectsBody (l : list ProjectJson)
| FileBody (id name url : string)
| UsersBody (l : list (string * string * string * string * option string * bool)).

(** How a handler ends: [res.status(code).json(body)] ([res.json] is code
    200), or an exception that no [try] of the handler catches. *)
Inductive Reply :=
| Json (code : nat) (body : Body)
| Uncaught (e : SqliteError).

(** [res.ok] of the client's [fetch]. *)
Definition ok (r : Reply) : bool :=
  match r with
  | Json code _ => (200 <=? code)%nat && (code <=? 299)%nat
  | Uncaught _ => false
  end.

Module Req.
(** The elements of [constructionStaff], [billingItems] and
    [outboundPayments] in a request body.  [I] is the type of the [id]
    property: a [string] on POST, where it is bound as it comes, and an
    [option string] on PUT, where it is tested for falsiness.  The flags
    are the truthiness of the properties. *)
Record staff (I : Type) := { staff_id : I; staff_cols : ConstructionStaff.fields }.

Record bill (I : Type) := {
  bill_id : I;
  bill_cols : BillingItem.fields;
  bill_isBilled : bool;
  bill_isPaid : bool
}.

Record payment (I : Type) := {
  payment_id : I;
  payment_cols : OutboundPayment.fields;
  payment_isPaid : bool
}.

(** The body of POST and PUT [/api/projects]; a collection is [None] when
    the property is missing or is not an array. *)
Record project (I : Type) := {
  cols : Project.fields;
  constructionStaff : option (list (staff I));
  billingItems : option (list (bill I));
  outboundPayments : option (list (payment I))
}.

(** The body of PATCH [/api/projects/:id]; [None] is [undefined]. *)
Record project_patch := {
  status : option string;
  estimateRemarks : option string;
  orderRemarks : option string;
  constructionRemarks : option string;
  billingRemarks : option string;
  paymentRemarks : option string;
  outboundPaymentRemarks : option string
}.

(** The body of PATCH [/api/billing_items/:id]. *)
Record bill_patch := { isBilled : option bool; isPaid : option bool }.

(** The body of POST [/api/users]. *)
Record user := {
  id : string;
  email : string;
  password : string;
  name : string;
  role : string;
  remarks : option string
}.

(** The body of PUT [/api/users/:id]. *)
Record user_put := {
  put_email : option string;
  put_password : option string;
  put_name : option string;
  put_role : option string;
  put_remarks : option string;
  put_isActive : option bool
}.
End Req.

(** [x || Date.now().toString() + Math.random()]: the id of the row when
    it is truthy, else the next identifier drawn from the clock and the
    random source.  [fresh n] is the value of the [n]-th draw of a
    request. *)
Definition or_fresh (fresh : nat -> string) (n : nat) (id : option string)
  : string * nat :=
  match id with
  | Some s => if s =? "" then (fresh n, S n) else (s, n)
  | None => (fresh n, S n)
  end.

(** [Array.isArray(xs)] guards every loop over a collection. *)
Definition array_or_empty {X} (xs : option (list X)) : list X :=
  match xs with
  | Some l => l
  | None => []
  end.

(** ** server.ts: the route handlers *)

(** POST /api/login *)
Definition post_login (email password : string) (d : Db) : Db * Reply :=
  match select_get (fun u => (User.email u =? email) && (User.password u =? password))
                   (users d) with
  | Some user =>
      if negb (User.isActive user)
      then (d, Json 403 (Error "Account is deactivated"))
      else (d, Json 200 (LoginBody (User.id user) (User.email user)
                                   (User.name user) (User.role user)))
  | None => (d, Json 401 (Error "Invalid credentials"))
  end.

Definition staff_of (projectId : string) (d : Db) : list ConstructionStaff.row :=
  select_all (fun x => ConstructionStaff.projectId x =? projectId)
             (construction_staff d).

Definition billing_of (projectId : string) (d : Db) : list BillingItem.row :=
  select_all (fun x => BillingItem.projectId x =? projectId) (billing_items d).

Definition outbound_of (projectId : string) (d : Db) : list OutboundPayment.row :=
  select_all (fun x => OutboundPayment.projectId x =? projectId)
             (outbound_payments d).

Definition files_of (projectId : string) (d : Db) : list ProjectFile.row :=
  select_all (fun x => ProjectFile.projectId x =? projectId) (files d).

(** GET /api/projects *)
Definition get_projects (d : Db) : Db * Reply :=
  (d, Json 200 (ProjectsBody
        (map (fun p =>
                {| json_project := p;
                   json_constructionStaff := staff_of (Project.id p) d;
                   json_billingItems := billing_of (Project.id p) d;
                   json_outboundPayments := outbound_of (Project.id p) d;
                   json_files := None |})
             (projects d)))).

(** POST /api/projects *)
Definition post_projects (id : string) (body : Req.project string) (d : Db) : Db * Reply :=
  let transaction :=
    db_transaction (
      insertProject {| Project.id := id; Project.cols := Req.cols body;
                       Project.paymentMethod := None |} ;;;
      for_of (array_or_empty (Req.constructionStaff body)) (fun staff =>
        insertStaff {| ConstructionStaff.id := Req.staff_id staff;
                       ConstructionStaff.projectId := id;
                       ConstructionStaff.cols := Req.staff_cols staff |}) ;;;
      for_of (array_or_empty (Req.billingItems body)) (fun bill =>
        insertBilling {| BillingItem.id := Req.bill_id bill;
                         BillingItem.projectId := id;
                         BillingItem.cols := Req.bill_cols bill;
                         BillingItem.isBilled := false;
                         BillingItem.isPaid := false |}) ;;;
      for_of (array_or_empty (Req.outboundPayments body)) (fun payment =>
        insertOutbound {| OutboundPayment.id := Req.payment_id payment;
                          OutboundPayment.projectId := id;
                          OutboundPayment.cols := Req.payment_cols payment;
                          OutboundPayment.isPaid := false |})) in
  match transaction d with
  | (d1, inr _) => (d1, Json 200 Success)
  | (d1, inl error) => (d1, Json 500 (Error (message error)))
  end.

(** GET /api/projects/:id *)
Definition get_project (id : string) (d : Db) : Db * Reply :=
  match select_get (fun p => Project.id p =? id) (projects d) with
  | None => (d, Json 404 (Error "Project not found"))
  | Some project =>
      (d, Json 200 (ProjectBody
             {| json_project := project;
                json_constructionStaff := staff_of id d;
                json_billingItems := billing_of id d;
                json_outboundPayments := outbound_of id d;
                json_files := Some (files_of id d) |}))
  end.

(** [if (v !== undefined) stmt(v)] *)
Definition when_defined {X} (v : option X) (stmt : X -> Stmt unit) : Stmt unit :=
  match v with
  | Some x => stmt x
  | None => ret tt
  end.

(** The statements of PATCH /api/projects/:id, in their order. *)
Definition patch_project_stmts (id : string) (body : Req.project_patch) : Stmt unit :=
  when_defined (Req.status body)
    (fun v => update_project id (Project.set_status v)) ;;;
  when_defined (Req.estimateRemarks body)
    (fun v => update_project id (Project.set_estimateRemarks v)) ;;;
  when_defined (Req.orderRemarks body)
    (fun v => update_project id (Project.set_orderRemarks v)) ;;;
  when_defined (Req.constructionRemarks body)
    (fun v => update_project id (Project.set_constructionRemarks v)) ;;;
  when_defined (Req.billingRemarks body)
    (fun v => update_project id (Project.set_billingRemarks v)) ;;;
  when_defined (Req.paymentRemarks body)
    (fun v => update_project id (Project.set_paymentRemarks v)) ;;;
  when_defined (Req.outboundPaymentRemarks body)
    (fun v => update_project id (Project.set_outboundPaymentRemarks v)).

(** What a handler with no [try] of its own does with its statements. *)
Definition reply_success (m : Stmt unit) (d : Db) : Db * Reply :=
  match m d with
  | (d1, inr _) => (d1, Json 200 Success)
  | (d1, inl e) => (d1, Uncaught e)
  end.

(** PATCH /api/projects/:id *)
Definition patch_project (id : string) (body : Req.project_patch) (d : Db)
  : Db * Reply :=
  reply_success (patch_project_stmts id body) d.

(** [UPDATE billing_items SET isBilled = ? WHERE id = ?] and its twin. *)
Definition update_billing (id : string) (g : BillingItem.row -> BillingItem.row)
  : Stmt unit :=
  fun d =>
    (with_billing_items
       (update_where (fun x => BillingItem.id x =? id) g (billing_items d)) d,
     inr tt).

(** [UPDATE outbound_payments SET isPaid = ? WHERE id = ?] *)
Definition update_outbound (id : string) (g : OutboundPayment.row -> OutboundPayment.row)
  : Stmt unit :=
  fun d =>
    (with_outbound_payments
       (update_where (fun x => OutboundPayment.id x =? id) g (outbound_payments d)) d,
     inr tt).

(** PATCH /api/billing_items/:id *)
Definition patch_billing_item (id : string) (body : Req.bill_patch) (d : Db)
  : Db * Reply :=
  reply_success (
    when_defined (Req.isBilled body)
      (fun isBilled => update_billing id
         (BillingItem.set_isBilled (if isBilled then true else false))) ;;;
    when_defined (Req.isPaid body)
      (fun isPaid => update_billing id
         (BillingItem.set_isPaid (if isPaid then true else false)))) d.

(** PATCH /api/outbound_payments/:id *)
Definition patch_outbound_payment (id : string) (isPaid : option bool) (d : Db)
  : Db * Reply :=
  reply_success (
    when_defined isPaid
      (fun isPaid => update_outbound id
         (OutboundPayment.set_isPaid (if isPaid then true else false)))) d.

(** The three loops of the PUT transaction.  Each threads the number of
    identifiers drawn so far. *)
Fixpoint put_staff_loop (fresh : nat -> string) (n : nat) (projectId : string)
         (l : list (Req.staff (option string))) : Stmt nat :=
  match l with
  | [] => ret n
  | staff :: rest =>
      let '(id, n1) := or_fresh fresh n (Req.staff_id staff) in
      insertStaff {| ConstructionStaff.id := id;
                     ConstructionStaff.projectId := projectId;
                     ConstructionStaff.cols := Req.staff_cols staff |} ;;;
      put_staff_loop fresh n1 projectId rest
  end.

Fixpoint put_billing_loop (fresh : nat -> string) (n : nat) (projectId : string)
         (l : list (Req.bill (option string))) : Stmt nat :=
  match l with
  | [] => ret n
  | bill :: rest =>
      let '(id, n1) := or_fresh fresh n (Req.bill_id bill) in
      insertBilling {| BillingItem.id := id;
                       BillingItem.projectId := projectId;
                       BillingItem.cols := Req.bill_cols bill;
                       BillingItem.isBilled :=
                         if Req.bill_isBilled bill then true else false;
                       BillingItem.isPaid :=
                         if Req.bill_isPaid bill then true else false |} ;;;
      put_billing_loop fresh n1 projectId rest
  end.

Fixpoint put_outbound_loop (fresh : nat -> string) (n : nat) (projectId : string)
         (l : list (Req.payment (option string))) : Stmt nat :=
  match l with
  | [] => ret n
  | payment :: rest =>
      let '(id, n1) := or_fresh fresh n (Req.payment_id payment) in
      insertOutbound {| OutboundPayment.id := id;
                        OutboundPayment.projectId := projectId;
                        OutboundPayment.cols := Req.payment_cols payment;
                        OutboundPayment.isPaid :=
                          if Req.payment_isPaid payment then true else false |} ;;;
      put_outbound_loop fresh n1 projectId rest
  end.

(** The function handed to [db.transaction] by PUT /api/projects/:id. *)
Definition put_project_fn (fresh : nat -> string) (projectId : string)
           (body : Req.project (option string)) : Stmt nat :=
  update_project projectId (fun _ => Req.cols body) ;;;
  deleteStaff projectId ;;;
  n1 <- put_staff_loop fresh 0 projectId
          (array_or_empty (Req.constructionStaff body)) ;;
  deleteBilling projectId ;;;
  n2 <- put_billing_loop fresh n1 projectId
          (array_or_empty (Req.billingItems body)) ;;
  deleteOutbound projectId ;;;
  put_outbound_loop fresh n2 projectId
          (array_or_empty (Req.outboundPayments body)).

(** PUT /api/projects/:id *)
Definition put_project (fresh : nat -> string) (projectId : string)
           (body : Req.project (option string)) (d : Db) : Db * Reply :=
  let transaction := db_transaction (put_project_fn fresh projectId body) in
  match transaction d with
  | (d1, inr _) => (d1, Json 200 Success)
  | (d1, inl error) => (d1, Json 500 (Error (message error)))
  end.

(** DELETE /api/projects/:id *)
Definition delete_project (id : string) (d : Db) : Db * Reply :=
  reply_success (delete_project_row id) d.

(** POST /api/projects/:id/files.  [file] is [req.file] as multer leaves
    it: the original name and the name under [uploads/]; [now] is
    [Date.now().toString()]. *)
Definition post_file (projectId : string) (file : option (string * string))
           (now : string) (d : Db) : Db * Reply :=
  match file with
  | None => (d, Json 400 (Error "No file uploaded"))
  | Some (originalname, filename) =>
      let fileId := now in
      let fileUrl := "/uploads/" ++ filename in
      match insertFile {| ProjectFile.id := fileId;
                          ProjectFile.projectId := projectId;
                          ProjectFile.name := originalname;
                          ProjectFile.url := fileUrl |} d with
      | (d1, inr _) => (d1, Json 200 (FileBody fileId originalname fileUrl))
      | (d1, inl e) => (d1, Uncaught e)
      end
  end.

(** DELETE /api/files/:id *)
Definition delete_file (id : string) (d : Db) : Db * Reply :=
  match select_get (fun x => ProjectFile.id x =? id) (files d) with
  | Some _ =>
      (with_files (delete_where (fun x => ProjectFile.id x =? id) (files d)) d,
       Json 200 Success)
  | None => (d, Json 200 Success)
  end.

(** GET /api/users *)
Definition get_users (d : Db) : Db * Reply :=
  (d, Json 200 (UsersBody
        (map (fun u => (User.id u, User.email u, User.name u, User.role u,
                        User.remarks u, User.isActive u))
             (users d)))).

(** POST /api/users *)
Definition post_users (body : Req.user) (d : Db) : Db * Reply :=
  match insertUser {| User.id := Req.id body; User.email := Req.email body;
                      User.password := Req.password body;
                      User.name := Req.name body; User.role := Req.role body;
                      User.remarks := Req.remarks body;
                      User.isActive := true |} d with
  | (d1, inr _) => (d1, Json 200 Success)
  | (d1, inl _) => (d1, Json 400 (Error "Email already exists"))
  end.

Definition or_else {X} (v : option X) (old : X) : X :=
  match v with
  | Some x => x
  | None => old
  end.

(** The [UPDATE users SET ... WHERE id = ?] that PUT /api/users/:id
    assembles from the properties that are defined. *)
Definition apply_user_put (body : Req.user_put) (u : User.row) : User.row :=
  {| User.id := User.id u;
     User.email := or_else (Req.put_email body) (User.email u);
     User.password := or_else (Req.put_password body) (User.password u);
     User.name := or_else (Req.put_name body) (User.name u);
     User.role := or_else (Req.put_role body) (User.role u);
     User.remarks := match Req.put_remarks body with
                     | Some r => Some r
                     | None => User.remarks u
                     end;
     User.isActive := match Req.put_isActive body with
                      | Some b => if b then true else false
                      | None => User.isActive u
                      end |}.

Definition no_updates (body : Req.user_put) : bool :=
  match Req.put_email body, Req.put_password body, Req.put_name body,
        Req.put_role body, Req.put_remarks body, Req.put_isActive body with
  | None, None, None, None, None, None => true
  | _, _, _, _, _, _ => false
  end.

(** PUT /api/users/:id.  The assembled UPDATE throws when it would give
    the row an email that another row holds. *)
Definition put_users (id : string) (body : Req.user_put) (d : Db) : Db * Reply :=
  if no_updates body then (d, Json 200 Success)
  else
    let clash :=
      match Req.put_email body with
      | Some e =>
          existsb (fun u => User.id u =? id) (users d)
          && existsb (fun u => negb (User.id u =? id) && (User.email u =? e))
                     (users d)
      | None => false
      end in
    if clash then (d, Uncaught (UniqueConstraint "users.email"))
    else (with_users (update_where (fun u => User.id u =? id)
                                   (apply_user_put body) (users d)) d,
          Json 200 Success).

(** DELETE /api/users/:id *)
Definition delete_users (id : string) (d : Db) : Db * Reply :=
  (with_users (delete_where (fun u => User.id u =? id) (users d)) d,
   Json 200 Success).

(** The routes of [app] that touch the store. *)
Inductive Request :=
| POST_login (email password : string)
| GET_projects
| POST_projects (id : string) (body : Req.project string)
| GET_project (id : string)
| PATCH_project (id : string) (body : Req.project_patch)
| PATCH_billing_item (id : string) (body : Req.bill_patch)
| PATCH_outbound_payment (id : string) (isPaid : option bool)
| PUT_project (id : string) (body : Req.project (option string))
              (fresh : nat -> string)
| DELETE_project (id : string)
| POST_file (projectId : string) (file : option (string * string)) (now : string)
| DELETE_file (id : string)
| GET_users
| POST_users (body : Req.user)
| PUT_users (id : string) (body : Req.user_put)
| DELETE_users (id : string).

Definition handle (r : Request) (d : Db) : Db * Reply :=
  match r with
  | POST_login email password => post_login email password d
  | GET_projects => get_projects d
  | POST_projects id body => post_projects id body d
  | GET_project id => get_project id d
  | PATCH_project id body => patch_project id body d
  | PATCH_billing_item id body => patch_billing_item id body d
  | PATCH_outbound_payment id isPaid => patch_outbound_payment id isPaid d
  | PUT_project id body fresh => put_project fresh id body d
  | DELETE_project id => delete_project id d
  | POST_file projectId file now => post_file projectId file now d
  | DELETE_file id => delete_file id d
  | GET_users => get_users d
  | POST_users body => post_users body d
  | PUT_users id body => put_users id body d
  | DELETE_users id => delete_users id d
  end.

(** The store after a sequence of requests, served one after another. *)
Fixpoint serve (rs : list Request) (d : Db) : Db :=
  match rs with
  | [] => d
  | r :: rest => serve rest (fst (handle r d))
  end.

(** ** The path of a client request *)

(** The characters of a string. *)
Fixpoint chars (s : string) : list ascii :=
  match s with
  | EmptyString => []
  | String c rest => c :: chars rest
  end.

(** The characters a URL path carries as they are: the letters, the
    digits, and the hyphen, the dot, the underscore and the tilde. *)
Definition unreserved (c : ascii) : bool :=
  let n := nat_of_ascii c in
  ((48 <=? n) && (n <=? 57))%nat
  || ((65 <=? n) && (n <=? 90))%nat
  || ((97 <=? n) && (n <=? 122))%nat
  || (n =? 45)%nat || (n =? 46)%nat || (n =? 95)%nat || (n =? 126)%nat.

(** An id that a path built as the client builds it, the id put after the
    last slash with no encoding, carries to [req.params.id] as it is: it is
    not empty, it is not a dot segment, and it holds unreserved characters
    only (so no slash, question mark, hash, percent sign or backslash). *)
Definition plain_id (id : string) : bool :=
  negb (id =? "") && negb (id =? ".") && negb (id =? "..")
  && forallb unreserved (chars id).

(** A server that finds no route for a path: Express answers 404 and no
    handler runs.  Of such a reply the client reads [res.ok] only; the
    text stands for the page Express writes. *)
Definition not_found (id : string) (r : Request) (d : Db) : Db * Reply :=
  (d, Json 404 (Error "Not Found")).

Section Client.

(** What the server does with a request whose path holds an id that is not
    plain: the path may reach no route, the route meant with another id, or
    another route.  The URL parser and the router decide, and they are not
    under [src/]. *)
Variable off_route : string -> Request -> Db -> Db * Reply.

(** [fetch] of a path that ends in [id]: [r] is the request the client
    means. *)
Definition fetch (id : string) (r : Request) (d : Db) : Db * Reply :=
  if plain_id id then handle r d else off_route id r d.

(** ** src/App.tsx: the handlers of [ProjectDetail] that drive the lifecycle *)

(** [JSON.stringify({ status: newStatus })] as the server reads it. *)
Definition status_body (newStatus : string) : Req.project_patch :=
  {| Req.status := Some newStatus;
     Req.estimateRemarks := None; Req.orderRemarks := None;
     Req.constructionRemarks := None; Req.billingRemarks := None;
     Req.paymentRemarks := None; Req.outboundPaymentRemarks := None |}.

(** [handleStatusUpdate]: the PATCH; what follows it ([onRefresh],
    [onBack], [fetchProject]) only reads the store. *)
Definition handleStatusUpdate (projectId newStatus : string) (d : Db) : Db :=
  fst (fetch projectId (PATCH_project projectId (status_body newStatus)) d).

(** [handleBillingItemUpdate] *)
Definition handleBillingItemUpdate (projectId itemId : string)
           (updates : Req.bill_patch) (d : Db) : Db :=
  let (d1, res) := fetch itemId (PATCH_billing_item itemId updates) d in
  if ok res then
    let (d2, updatedProjectRes) := fetch projectId (GET_project projectId) d1 in
    if ok updatedProjectRes then
      match updatedProjectRes with
      | Json _ (ProjectBody updatedProject) =>
          match Req.isBilled updates with
          | Some _ =>
              let allBilled :=
                forallb BillingItem.isBilled (json_billingItems updatedProject) in
              if allBilled
                 && status_is
                      (Project.status (Project.cols (json_project updatedProject)))
                      ProjectStatus.Billing
              then handleStatusUpdate projectId ProjectStatus.PaymentIn d2
              else d2
          | None => d2
          end
      | _ => d2
      end
    else d2
  else d1.

(** ** src/App.tsx: [UserManagement] *)

(** [JSON.stringify({ isActive: !user.isActive })] as the server reads it. *)
Definition active_body (isActive : bool) : Req.user_put :=
  {| Req.put_email := None; Req.put_password := None; Req.put_name := None;
     Req.put_role := None; Req.put_remarks := None;
     Req.put_isActive := Some isActive |}.

(** [handleToggleActive]: [user] is a row of the list GET /api/users
    returned; what follows the PUT only reads the store. *)
Definition handleToggleActive (user_id : string) (user_isActive : bool) (d : Db)
  : Db :=
  fst (fetch user_id (PUT_users user_id (active_body (negb user_isActive))) d).

End Client.

(** ** What the properties speak about *)

(** The status of the project a fetch by [id] returns. *)
Definition project_status (id : string) (d : Db) : option string :=
  match select_get (fun p => Project.id p =? id) (projects d) with
  | Some p => Project.status (Project.cols p)
  | None => None
  end.

(** [itemId] names an unbilled item of project [projectId], and every other
    item of that project is billed. *)
Definition last_unbilled (projectId itemId : string) (d : Db) : bool :=
  existsb (fun b => (BillingItem.id b =? itemId)
                    && (BillingItem.projectId b =? projectId)
                    && negb (BillingItem.isBilled b)) (billing_items d)
  && forallb (fun b => implb ((BillingItem.projectId b =? projectId)
                              && negb (BillingItem.id b =? itemId))
                             (BillingItem.isBilled b)) (billing_items d).

(** Every stored status is one of the seven of [ProjectStatus]. *)
Definition statuses_ok (d : Db) : bool :=
  forallb (fun p => valid_status (Project.status (Project.cols p))) (projects d).

(** The status a request writes is one of the seven: a create and a full
    replace carry a status and it is one of the seven; a patch that carries
    a status carries one of the seven. *)
Definition request_status_ok (r : Request) : bool :=
  match r with
  | POST_projects _ body => valid_status (Project.status (Req.cols body))
  | PUT_project _ body _ => valid_status (Project.status (Req.cols body))
  | PATCH_project _ body =>
      match Req.status body with
      | Some v => ProjectStatus.is_status v
      | None => true
      end
  | _ => true
  end.

(** The flags of the billing item and of the outbound payment a lookup by
    [id] finds. *)
Definition billed_flag (id : string) (d : Db) : option bool :=
  option_map BillingItem.isBilled
             (select_get (fun b => BillingItem.id b =? id) (billing_items d)).

Definition paid_flag (id : string) (d : Db) : option bool :=
  option_map BillingItem.isPaid
             (select_get (fun b => BillingItem.id b =? id) (billing_items d)).

Definition outbound_paid_flag (id : string) (d : Db) : option bool :=
  option_map OutboundPayment.isPaid
             (select_get (fun b => OutboundPayment.id b =? id) (outbound_payments d)).

(** The primary keys of the two tables that carry flags. *)
Definition flag_keys_unique (d : Db) : Prop :=
  NoDup (map BillingItem.id (billing_items d))
  /\ NoDup (map OutboundPayment.id (outbound_payments d)).

(** The project of the billing item, and of the outbound payment, a
    lookup by [id] finds. *)
Definition billing_project (id : string) (d : Db) : option string :=
  option_map BillingItem.projectId
             (select_get (fun b => BillingItem.id b =? id) (billing_items d)).

Definition outbound_project (id : string) (d : Db) : option string :=
  option_map OutboundPayment.projectId
             (select_get (fun b => OutboundPayment.id b =? id) (outbound_payments d)).

(** [r] is a full replace of the project [owner]. *)
Definition replaces (owner : option string) (r : Request) : bool :=
  match r, owner with
  | PUT_project projectId _ _, Some p => p =? projectId
  | _, _ => false
  end.

(** The requests that can take the billed flag of item [id] from true to
    false in store [d]: the flag patch addressed to [id] whose body has
    [isBilled] false, and the full replace of the project of the item. *)
Definition unsets_billed (id : string) (d : Db) (r : Request) : bool :=
  match r with
  | PATCH_billing_item id' body =>
      (id' =? id) && match Req.isBilled body with
                     | Some false => true
                     | _ => false
                     end
  | _ => replaces (billing_project id d) r
  end.

(** The same for the paid flag of a billing item. *)
Definition unsets_paid (id : string) (d : Db) (r : Request) : bool :=
  match r with
  | PATCH_billing_item id' body =>
      (id' =? id) && match Req.isPaid body with
                     | Some false => true
                     | _ => false
                     end
  | _ => replaces (billing_project id d) r
  end.

(** The same for the paid flag of an outbound payment. *)
Definition unsets_outbound_paid (id : string) (d : Db) (r : Request) : bool :=
  match r with
  | PATCH_outbound_payment id' isPaid =>
      (id' =? id) && match isPaid with
                     | Some false => true
                     | _ => false
                     end
  | _ => replaces (outbound_project id d) r
  end.

(** The rows the PUT loops insert, as a function of the request alone:
    each supplied row in order, keeping its id when it has one and taking
    the next drawn identifier when it lacks one. *)
Fixpoint staff_rows (fresh : nat -> string) (n : nat) (projectId : string)
         (l : list (Req.staff (option string))) : list ConstructionStaff.row :=
  match l with
  | [] => []
  | s :: rest =>
      {| ConstructionStaff.id := fst (or_fresh fresh n (Req.staff_id s));
         ConstructionStaff.projectId := projectId;
         ConstructionStaff.cols := Req.staff_cols s |}
      :: staff_rows fresh (snd (or_fresh fresh n (Req.staff_id s))) projectId rest
  end.

Fixpoint billing_rows (fresh : nat -> string) (n : nat) (projectId : string)
         (l : list (Req.bill (option string))) : list BillingItem.row :=
  match l with
  | [] => []
  | b :: rest =>
      {| BillingItem.id := fst (or_fresh fresh n (Req.bill_id b));
         BillingItem.projectId := projectId;
         BillingItem.cols := Req.bill_cols b;
         BillingItem.isBilled := Req.bill_isBilled b;
         BillingItem.isPaid := Req.bill_isPaid b |}
      :: billing_rows fresh (snd (or_fresh fresh n (Req.bill_id b))) projectId rest
  end.

Fixpoint outbound_rows (fresh : nat -> string) (n : nat) (projectId : string)
         (l : list (Req.payment (option string))) : list OutboundPayment.row :=
  match l with
  | [] => []
  | p :: rest =>
      {| OutboundPayment.id := fst (or_fresh fresh n (Req.payment_id p));
         OutboundPayment.projectId := projectId;
         OutboundPayment.cols := Req.payment_cols p;
         OutboundPayment.isPaid := Req.payment_isPaid p |}
      :: outbound_rows fresh (snd (or_fresh fresh n (Req.payment_id p))) projectId rest
  end.

(** The number of identifiers drawn once the rows with ids [ids] are done. *)
Fixpoint drawn (fresh : nat -> string) (n : nat) (ids : list (option string)) : nat :=
  match ids with
  | [] => n
  | i :: rest => drawn fresh (snd (or_fresh fresh n i)) rest
  end.

(** The setter a property of the patch body stands for. *)
Definition opt_set {X} (v : option X) (set : X -> Project.fields -> Project.fields)
  : Project.fields -> Project.fields :=
  match v with
  | Some x => set x
  | None => fun f => f
  end.

(** The columns of a project row after the statements of the patch. *)
Definition patch_cols (body : Req.project_patch) (f : Project.fields) : Project.fields :=
  opt_set (Req.outboundPaymentRemarks body) Project.set_outboundPaymentRemarks
  (opt_set (Req.paymentRemarks body) Project.set_paymentRemarks
  (opt_set (Req.billingRemarks body) Project.set_billingRemarks
  (opt_set (Req.constructionRemarks body) Project.set_constructionRemarks
  (opt_set (Req.orderRemarks body) Project.set_orderRemarks
  (opt_set (Req.estimateRemarks body) Project.set_estimateRemarks
  (opt_set (Req.status body) Project.set_status f)))))).

(** ** Sample stores *)

Definition sample_cols_of (status : option string) : Project.fields :=
  {| Project.status := status;
     Project.estimateDate := "2024-04-01"; Project.orderDate := None;
     Project.constructionStartDate := None;
     Project.completionDate := "2024-06-30"; Project.paymentDate := None;
     Project.title := "Kitchen"; Project.propertyName := None;
     Project.estimateRemarks := None; Project.orderRemarks := None;
     Project.constructionRemarks := None; Project.billingRemarks := None;
     Project.paymentRemarks := None; Project.outboundPaymentRemarks := None;
     Project.customerName := "Sato"; Project.customerZipCode := "100-0001";
     Project.customerAddress := "Tokyo"; Project.customerTel := "03-0000-0000";
     Project.customerEmail := "sato@example.com" |}.

Definition sample_cols (status : string) : Project.fields :=
  sample_cols_of (Some status).

Definition sample_project (id status : string) : Project.row :=
  {| Project.id := id; Project.cols := sample_cols status;
     Project.paymentMethod := None |}.

Definition sample_staff_cols (name : string) : ConstructionStaff.fields :=
  {| ConstructionStaff.name := name; ConstructionStaff.zipCode := "";
     ConstructionStaff.address := ""; ConstructionStaff.tel := "";
     ConstructionStaff.email := "" |}.

Definition sample_staff (id projectId : string) : ConstructionStaff.row :=
  {| ConstructionStaff.id := id; ConstructionStaff.projectId := projectId;
     ConstructionStaff.cols := sample_staff_cols id |}.

Definition sample_bill_cols : BillingItem.fields :=
  {| BillingItem.name := "deposit"; BillingItem.amount := 100000%Z;
     BillingItem.expectedPaymentDate := "2024-07-31" |}.

Definition sample_bill (id projectId : string) (isBilled isPaid : bool)
  : BillingItem.row :=
  {| BillingItem.id := id; BillingItem.projectId := projectId;
     BillingItem.cols := sample_bill_cols;
     BillingItem.isBilled := isBilled; BillingItem.isPaid := isPaid |}.

Definition sample_payment_cols : OutboundPayment.fields :=
  {| OutboundPayment.recipient := "plumber"; OutboundPayment.amount := 30000%Z;
     OutboundPayment.expectedDate := "2024-08-31" |}.

Definition sample_payment (id projectId : string) (isPaid : bool)
  : OutboundPayment.row :=
  {| OutboundPayment.id := id; OutboundPayment.projectId := projectId;
     OutboundPayment.cols := sample_payment_cols;
     OutboundPayment.isPaid := isPaid |}.

(** Project P1 with two staff, two billing items of which B1 is billed, an
    outbound payment and a file. *)
Definition sample_db (status : string) : Db :=
  {| users := users initial_db;
     projects := [sample_project "P1" status];
     construction_staff := [sample_staff "S1" "P1"; sample_staff "S2" "P1"];
     billing_items := [sample_bill "B1" "P1" true false;
                       sample_bill "B2" "P1" false false];
     outbound_payments := [sample_payment "O1" "P1" true];
     files := [ {| ProjectFile.id := "F1"; ProjectFile.projectId := "P1";
                   ProjectFile.name := "plan.pdf";
                   ProjectFile.url := "/uploads/1-plan.pdf" |} ] |}.

Definition no_remarks (status : option string) : Req.project_patch :=
  {| Req.status := status;
     Req.estimateRemarks := None; Req.orderRemarks := None;
     Req.constructionRemarks := None; Req.billingRemarks := None;
     Req.paymentRemarks := None; Req.outboundPaymentRemarks := None |}.

(** The billing row after the statements of PATCH /api/billing_items/:id. *)
Definition patch_bill (body : Req.bill_patch) (r : BillingItem.row) : BillingItem.row :=
  let r1 := match Req.isBilled body with
            | Some v => BillingItem.set_isBilled v r
            | None => r
            end in
  match Req.isPaid body with
  | Some v => BillingItem.set_isPaid v r1
  | None => r1
  end.

(** The store a full replace describes: the project row overwritten, the
    children of the project deleted and the rows of the body appended. *)
Definition put_project_result (fresh : nat -> string) (projectId : string)
           (body : Req.project (option string)) (d : Db) : Db :=
  let staff := array_or_empty (Req.constructionStaff body) in
  let billing := array_or_empty (Req.billingItems body) in
  let outbound := array_or_empty (Req.outboundPayments body) in
  let n1 := drawn fresh 0 (map (@Req.staff_id _) staff) in
  let n2 := drawn fresh n1 (map (@Req.bill_id _) billing) in
  {| users := users d;
     projects :=
       update_where (fun p => Project.id p =? projectId)
                    (Project.update_cols (fun _ => Req.cols body)) (projects d);
     construction_staff :=
       delete_where (fun x => ConstructionStaff.projectId x =? projectId)
                    (construction_staff d)
       ++ staff_rows fresh 0 projectId staff;
     billing_items :=
       delete_where (fun x => BillingItem.projectId x =? projectId)
                    (billing_items d)
       ++ billing_rows fresh n1 projectId billing;
     outbound_payments :=
       delete_where (fun x => OutboundPayment.projectId x =? projectId)
                    (outbound_payments d)
       ++ outbound_rows fresh n2 projectId outbound;
     files := files d |}.

(** The errors a statement of the full replace can throw: the primary key
    of one of the three child tables, or the foreign key to the project. *)
Definition put_errors : list SqliteError :=
  [ UniqueConstraint "construction_staff.id"; UniqueConstraint "billing_items.id";
    UniqueConstraint "outbound_payments.id"; ForeignKeyConstraint ].

(** A full-replace body with all three collections present. *)
Definition put_body (cols : Project.fields)
           (staff : list (Req.staff (option string)))
           (billing : list (Req.bill (option string)))
           (outbound : list (Req.payment (option string)))
  : Req.project (option string) :=
  {| Req.cols := cols; Req.constructionStaff := Some staff;
     Req.billingItems := Some billing; Req.outboundPayments := Some outbound |}.

(** The rows POST /api/projects inserts for the collections of its body. *)
Definition post_staff_row (id : string) (staff : Req.staff string)
  : ConstructionStaff.row :=
  {| ConstructionStaff.id := Req.staff_id staff;
     ConstructionStaff.projectId := id;
     ConstructionStaff.cols := Req.staff_cols staff |}.

Definition post_bill_row (id : string) (bill : Req.bill string) : BillingItem.row :=
  {| BillingItem.id := Req.bill_id bill; BillingItem.projectId := id;
     BillingItem.cols := Req.bill_cols bill;
     BillingItem.isBilled := false; BillingItem.isPaid := false |}.

Definition post_payment_row (id : string) (payment : Req.payment string)
  : OutboundPayment.row :=
  {| OutboundPayment.id := Req.payment_id payment;
     OutboundPayment.projectId := id;
     OutboundPayment.cols := Req.payment_cols payment;
     OutboundPayment.isPaid := false |}.

(** The store a successful POST /api/projects leaves. *)
Definition post_projects_result (id : string) (body : Req.project string) (d : Db)
  : Db :=
  {| users := users d;
     projects := projects d ++ [ {| Project.id := id; Project.cols := Req.cols body;
                                    Project.paymentMethod := None |} ];
     construction_staff :=
       construction_staff d
       ++ map (post_staff_row id) (array_or_empty (Req.constructionStaff body));
     billing_items :=
       billing_items d
       ++ map (post_bill_row id) (array_or_empty (Req.billingItems body));
     outbound_payments :=
       outbound_payments d
       ++ map (post_payment_row id) (array_or_empty (Req.outboundPayments body));
     files := files d |}.

(** A generator of identifiers for the examples. *)
Definition sample_fresh (n : nat) : string :=
  match n with
  | 0 => "17000000000000.11"
  | 1 => "17000000000000.22"
  | _ => "17000000000010.33"
  end.

(** The tables of projects, billing items and outbound payments agree. *)
Definition same_core (d d' : Db) : Prop :=
  projects d' = projects d
  /\ billing_items d' = billing_items d
  /\ outbound_payments d' = outbound_payments d.

(** ** The constraints of the schema, as properties of a store *)

(** [FOREIGN KEY(projectId) REFERENCES projects(id)], on the four child
    tables: every child row names a stored project. *)
Definition references_ok (d : Db) : bool :=
  forallb (fun x => project_exists (ConstructionStaff.projectId x) d)
          (construction_staff d)
  && forallb (fun x => project_exists (BillingItem.projectId x) d)
             (billing_items d)
  && forallb (fun x => project_exists (OutboundPayment.projectId x) d)
             (outbound_payments d)
  && forallb (fun x => project_exists (ProjectFile.projectId x) d) (files d).


(** The project row a fetch by [id] finds. *)
Definition project_row (id : string) (d : Db) : option Project.row :=
  select_get (fun p => Project.id p =? id) (projects d).

(** What POST /api/login answers for a stored user [u] and a password. *)
Definition login_reply (u : User.row) (password : string) : Reply :=
  if negb (User.password u =? password)
  then Json 401 (Error "Invalid credentials")
  else if User.isActive u
       then Json 200 (LoginBody (User.id u) (User.email u) (User.name u) (User.role u))
       else Json 403 (Error "Account is deactivated").

(** ** server.ts: the folder name of [createSharePointFolder] and
    [uploadFileToSharePoint] *)

(** The character class of the regular expression: backslash, slash,
    colon, asterisk, question mark, double quote, the two angle brackets
    and the bar. *)
Definition forbidden (c : ascii) : bool :=
  existsb (Ascii.eqb c)
          [ "\"%char; "/"%char; ":"%char; "*"%char; "?"%char;
            ascii_of_nat 34; "<"%char; ">"%char; "|"%char ].

(** [sanitizedFolderName]: every character of the class replaced by an
    underscore. *)
Fixpoint sanitizedFolderName (folderName : string) : string :=
  match folderName with
  | EmptyString => EmptyString
  | String c rest =>
      String (if forbidden c then "_"%char else c) (sanitizedFolderName rest)
  end.

(** ** src/App.tsx: [formatNumber] of the project form *)

(** [\d] and [\w] *)
Definition is_digit (c : ascii) : bool :=
  (48 <=? nat_of_ascii c)%nat && (nat_of_ascii c <=? 57)%nat.

Definition is_word (c : ascii) : bool :=
  is_digit c
  || ((65 <=? nat_of_ascii c)%nat && (nat_of_ascii c <=? 90)%nat)
  || ((97 <=? nat_of_ascii c)%nat && (nat_of_ascii c <=? 122)%nat)
  || (nat_of_ascii c =? 95)%nat.

(** [val.replace(/,/g, '')] *)
Fixpoint strip_commas (val : string) : string :=
  match val with
  | EmptyString => EmptyString
  | String c rest =>
      if Ascii.eqb c ","%char then strip_commas rest
      else String c (strip_commas rest)
  end.

(** The number of digits a string starts with. *)
Fixpoint digit_run (s : string) : nat :=
  match s with
  | EmptyString => 0
  | String c rest => if is_digit c then S (digit_run rest) else 0
  end.

(** [(?=(\d{3})+(?!\d))]: from here on come three digits, any number of
    times and at least once, and then no digit. *)
Definition lookahead (s : string) : bool :=
  (0 <? digit_run s)%nat && (digit_run s mod 3 =? 0)%nat.

(** [\B]: the characters on the two sides are both word characters or
    both not; the start and the end of the string count as not. *)
Definition non_boundary (before after : option ascii) : bool :=
  Bool.eqb (match before with Some c => is_word c | None => false end)
           (match after with Some c => is_word c | None => false end).

(** [num.replace(/\B(?=(\d{3})+(?!\d))/g, ',')]: a comma goes in at every
    position where the pattern matches the empty string.  [before] is the
    character left of the position the function stands at. *)
Fixpoint insert_commas (before : option ascii) (num : string) : string :=
  match num with
  | EmptyString => EmptyString
  | String c rest =>
      if non_boundary before (Some c) && lookahead num
      then String ","%char (String c (insert_commas (Some c) rest))
      else String c (insert_commas (Some c) rest)
  end.

Section FormatNumber.
(** [isNaN(Number(num))] of the JavaScript engine. *)
Variable is_nan : string -> bool.

(** [formatNumber] *)
Definition formatNumber (val : string) : string :=
  let num := strip_commas val in
  if is_nan num then val else insert_commas None num.
End FormatNumber.

(** Digits in groups of three counted from the right, a comma between
    the groups. *)
Fixpoint group3 (s : string) : string :=
  match s with
  | EmptyString => EmptyString
  | String c rest =>
      if (0 <? String.length rest)%nat && (String.length rest mod 3 =? 0)%nat
      then String c (String ","%char (group3 rest))
      else String c (group3 rest)
  end.

Definition all_digits (s : string) : bool := forallb is_digit (chars s).

(** ** src/App.tsx: the tabs of [ProjectList] *)

Definition tab_all : string := "全て".

(** [statuses] *)
Definition statuses : list string := tab_all :: ProjectStatus.all.

(** [filteredProjects] *)
Definition filteredProjects (activeTab : string) (projects : list Project.row)
  : list Project.row :=
  if activeTab =? tab_all then projects
  else filter (fun p => status_is (Project.status (Project.cols p)) activeTab)
              projects.

(** The count a tab shows beside its name. *)
Definition tab_count (status : string) (projects : list Project.row) : nat :=
  if status =? tab_all then List.length projects
  else List.length
         (filter (fun p => status_is (Project.status (Project.cols p)) status)
                 projects).

(** ** src/App.tsx: the staff rows of [ProjectForm] *)

(** [addStaff]; [now] is [Date.now().toString()]. *)
Definition addStaff (now : string) (constructionStaff : list (Req.staff string))
  : list (Req.staff string) :=
  constructionStaff
  ++ [ {| Req.staff_id := now;
          Req.staff_cols :=
            {| ConstructionStaff.name := ""; ConstructionStaff.zipCode := "";
               ConstructionStaff.address := ""; ConstructionStaff.tel := "";
               ConstructionStaff.email := "" |} |} ].

(** [removeStaff] *)
Definition removeStaff (id : string) (constructionStaff : list (Req.staff string))
  : list (Req.staff string) :=
  filter (fun s => negb (Req.staff_id s =? id)) constructionStaff.

(** ** Facts about tables *)

Unset Implicit Arguments.

Section TableFacts.
Variable R : Type.
Implicit Types (c : R -> bool) (t : list R).

Lemma filter_all c t :
  (forall r, In r t -> c r = true) -> filter c t = t.
Proof.
  induction t as [|r t IH]; intros H; simpl; [reflexivity|].
  rewrite (H r (or_introl eq_refl)). f_equal. apply IH.
  intros x Hx. apply H. now right.
Qed.

Lemma filter_none c t :
  (forall r, In r t -> c r = false) -> filter c t = [].
Proof.
  induction t as [|r t IH]; intros H; simpl; [reflexivity|].
  rewrite (H r (or_introl eq_refl)). apply IH.
  intros x Hx. apply H. now right.
Qed.

Lemma select_delete_same c t : select_all c (delete_where c t) = [].
Proof.
  unfold select_all, delete_where. apply filter_none.
  intros r Hr. apply filter_In in Hr. destruct Hr as [_ Hr].
  now apply negb_true_iff in Hr.
Qed.

Lemma existsb_false_all c t :
  existsb c t = false -> forall r, In r t -> c r = false.
Proof.
  intros H r Hr. destruct (c r) eqn:E; [|reflexivity].
  assert (existsb c t = true) by (apply existsb_exists; eauto). congruence.
Qed.

Lemma update_where_none c (f : R -> R) t :
  existsb c t = false -> update_where c f t = t.
Proof.
  intros H. unfold update_where.
  rewrite <- (map_id t) at 2. apply map_ext_in.
  intros r Hr. now rewrite (existsb_false_all _ _ H r Hr).
Qed.

Lemma delete_where_none c t :
  existsb c t = false -> delete_where c t = t.
Proof.
  intros H. unfold delete_where. apply filter_all.
  intros r Hr. now rewrite (existsb_false_all _ _ H r Hr).
Qed.

Lemma update_where_id c (f : R -> R) t :
  (forall r, f r = r) -> update_where c f t = t.
Proof.
  intros H. unfold update_where.
  rewrite <- (map_id t) at 2. apply map_ext.
  intros r. destruct (c r); auto.
Qed.

Lemma update_where_twice c (f g : R -> R) t :
  (forall r, c (g r) = c r) ->
  update_where c f (update_where c g t) = update_where c (fun r => f (g r)) t.
Proof.
  intros H. unfold update_where. rewrite map_map. apply map_ext.
  intros r. destruct (c r) eqn:E; [now rewrite H, E | now rewrite E].
Qed.

(** A selection commutes with an update that does not touch the column
    selected on. *)
Lemma filter_update_where c c' (f : R -> R) t :
  (forall r, c (f r) = c r) ->
  filter c (update_where c' f t) = update_where c' f (filter c t).
Proof.
  intros H. unfold update_where.
  induction t as [|r t IH]; simpl; [reflexivity|].
  destruct (c' r) eqn:E'; rewrite ?H; destruct (c r); simpl;
    rewrite ?E', IH; reflexivity.
Qed.

Lemma select_get_update c c' (f : R -> R) t :
  (forall r, c (f r) = c r) ->
  select_get c (update_where c' f t)
  = option_map (fun r => if c' r then f r else r) (select_get c t).
Proof.
  intros H. unfold select_get. rewrite (filter_update_where _ _ _ _ H).
  now destruct (filter c t).
Qed.

Lemma select_get_some c t r :
  select_get c t = Some r -> In r t /\ c r = true.
Proof.
  unfold select_get. intros H.
  destruct (filter c t) as [|x l] eqn:E; [discriminate|].
  injection H as ->. apply filter_In. rewrite E. now left.
Qed.

Lemma select_get_none c t :
  select_get c t = None <-> existsb c t = false.
Proof.
  unfold select_get. split; intros H.
  - destruct (existsb c t) eqn:E; [|reflexivity].
    apply existsb_exists in E. destruct E as (r & Hr & Hc).
    assert (In r (filter c t)) as Hin by (apply filter_In; auto).
    destruct (filter c t); [destruct Hin | discriminate].
  - rewrite (filter_none c t (existsb_false_all _ _ H)). reflexivity.
Qed.

Lemma select_get_exists c t :
  existsb c t = true -> exists r, select_get c t = Some r.
Proof.
  intros H. destruct (select_get c t) eqn:E; [eauto|].
  apply select_get_none in E. congruence.
Qed.

End TableFacts.

Lemma with_projects_same d : with_projects (projects d) d = d.
Proof. now destruct d. Qed.

Lemma update_cols_id r : Project.update_cols (fun f => f) r = r.
Proof. now destruct r. Qed.

(** ** PATCH /api/projects/:id as one update *)

Lemma when_defined_update {X} id (v : option X) set d :
  when_defined v (fun x => update_project id (set x)) d
  = update_project id (opt_set v set) d.
Proof.
  destruct v; simpl; [reflexivity|].
  unfold ret, update_project.
  rewrite update_where_id by apply update_cols_id.
  now rewrite with_projects_same.
Qed.

Lemma when_defined_update_then {X} id (v : option X) set (k : Stmt unit) d :
  (when_defined v (fun x => update_project id (set x)) ;;; k) d
  = k (fst (update_project id (opt_set v set) d)).
Proof.
  unfold bind. rewrite when_defined_update. reflexivity.
Qed.

Lemma update_project_fst_twice id g h d :
  fst (update_project id h (fst (update_project id g d)))
  = fst (update_project id (fun f => h (g f)) d).
Proof.
  unfold update_project; simpl.
  rewrite update_where_twice by reflexivity. reflexivity.
Qed.

Lemma patch_project_stmts_run id body d :
  patch_project_stmts id body d = update_project id (patch_cols body) d.
Proof.
  unfold patch_project_stmts, patch_cols.
  rewrite !when_defined_update_then, when_defined_update.
  rewrite (surjective_pairing (update_project _ _ (fst _))).
  rewrite !update_project_fst_twice.
  reflexivity.
Qed.

Lemma patch_cols_status body f :
  Project.status (patch_cols body f)
  = match Req.status body with
    | Some v => Some v
    | None => Project.status f
    end.
Proof.
  unfold patch_cols.
  destruct (Req.outboundPaymentRemarks body), (Req.paymentRemarks body),
    (Req.billingRemarks body), (Req.constructionRemarks body),
    (Req.orderRemarks body), (Req.estimateRemarks body), (Req.status body);
    reflexivity.
Qed.

Lemma project_exists_get id d :
  project_exists id d = true ->
  exists p, select_get (fun p => Project.id p =? id) (projects d) = Some p.
Proof. apply select_get_exists. Qed.

(** The status a fetch reports after [UPDATE projects ... WHERE id = id']. *)
Lemma project_status_update id id' g d :
  project_status id (fst (update_project id' g d))
  = match select_get (fun p => Project.id p =? id) (projects d) with
    | Some p => Project.status (if Project.id p =? id' then g (Project.cols p)
                                else Project.cols p)
    | None => None
    end.
Proof.
  unfold project_status, update_project; simpl.
  rewrite select_get_update by reflexivity.
  destruct (select_get _ (projects d)) as [p|]; simpl; [|reflexivity].
  now destruct (Project.id p =? id').
Qed.

Lemma patch_project_run id body d :
  patch_project id body d
  = (fst (update_project id (patch_cols body) d), Json 200 Success).
Proof.
  unfold patch_project, reply_success.
  now rewrite patch_project_stmts_run.
Qed.

Lemma with_billing_items_same d : with_billing_items (billing_items d) d = d.
Proof. now destruct d. Qed.

Lemma patch_billing_item_run id body d :
  patch_billing_item id body d
  = (with_billing_items
       (update_where (fun x => BillingItem.id x =? id) (patch_bill body)
                     (billing_items d)) d,
     Json 200 Success).
Proof.
  unfold patch_billing_item, reply_success, bind, when_defined, patch_bill.
  destruct (Req.isBilled body) as [[|]|], (Req.isPaid body) as [[|]|];
    unfold update_billing, ret; simpl;
    rewrite ?update_where_twice by reflexivity;
    try reflexivity.
  rewrite update_where_id by reflexivity.
  now rewrite with_billing_items_same.
Qed.

(** ** The lifecycle engine *)

(** C6. For every stored project, whatever its current status, and every
    target status, PATCH /api/projects/:id with that status answers with
    success and leaves the project with the target status: no adjacency or
    ordering check stands in the way. *)
Theorem advance_sets_any_status :
  forall (d : Db) (id target : string) (body : Req.project_patch),
    project_exists id d = true ->
    Req.status body = Some target ->
    snd (patch_project id body d) = Json 200 Success
    /\ project_status id (fst (patch_project id body d)) = Some target.
Proof.
  intros d id target body Hex Hst.
  rewrite patch_project_run. split; [reflexivity|]. cbn [fst].
  rewrite project_status_update.
  destruct (project_exists_get _ _ Hex) as [p Hp]. rewrite Hp. simpl.
  apply select_get_some in Hp. destruct Hp as [_ Hid]. rewrite Hid.
  now rewrite patch_cols_status, Hst.
Qed.

(** From [Payment-Out] straight back to [Estimate]. *)
Lemma advance_sets_any_status_witness :
  project_exists "P1" (sample_db ProjectStatus.PaymentOut) = true
  /\ snd (patch_project "P1" (no_remarks (Some ProjectStatus.Estimate))
                        (sample_db ProjectStatus.PaymentOut))
     = Json 200 Success
  /\ project_status "P1"
       (fst (patch_project "P1" (no_remarks (Some ProjectStatus.Estimate))
                           (sample_db ProjectStatus.PaymentOut)))
     = Some ProjectStatus.Estimate.
Proof.
  split; [reflexivity|].
  apply (advance_sets_any_status (sample_db ProjectStatus.PaymentOut) "P1"
           ProjectStatus.Estimate (no_remarks (Some ProjectStatus.Estimate)));
    reflexivity.
Defined.

(** C9, as stated, fails: a patch addressed to an identifier the store
    does not hold is answered with the success reply, so the caller is
    told of no absence. *)
Lemma patch_missing_project_not_reported :
  ~ (forall (d : Db) (id : string) (body : Req.project_patch),
        project_exists id d = false ->
        ok (snd (patch_project id body d)) = false).
Proof.
  intros H.
  specialize (H initial_db "P404" (no_remarks (Some ProjectStatus.Order)) eq_refl).
  discriminate H.
Qed.

(** C9, amended. A partial-field patch addressed to a project identifier
    that the store does not hold changes nothing in the store and is
    answered with the same success reply as any other patch. *)
Theorem patch_missing_project_is_silent :
  forall (d : Db) (id : string) (body : Req.project_patch),
    project_exists id d = false ->
    patch_project id body d = (d, Json 200 Success).
Proof.
  intros d id body Hno.
  unfold patch_project, reply_success.
  rewrite patch_project_stmts_run. unfold update_project.
  rewrite update_where_none by exact Hno.
  now rewrite with_projects_same.
Qed.

Lemma patch_missing_project_is_silent_witness :
  project_exists "P404" initial_db = false
  /\ patch_project "P404" (no_remarks (Some ProjectStatus.Order)) initial_db
     = (initial_db, Json 200 Success).
Proof.
  split; [reflexivity|].
  apply patch_missing_project_is_silent. reflexivity.
Defined.

(** ** Deletion *)

(** C5. Deleting a stored project removes its staff, billing items,
    outbound payments and file registry rows, and a fetch of the identifier
    afterwards answers 404. *)
Theorem delete_project_cascades :
  forall (d : Db) (id : string),
    project_exists id d = true ->
    let d' := fst (delete_project id d) in
    snd (delete_project id d) = Json 200 Success
    /\ staff_of id d' = []
    /\ billing_of id d' = []
    /\ outbound_of id d' = []
    /\ files_of id d' = []
    /\ project_exists id d' = false
    /\ snd (get_project id d') = Json 404 (Error "Project not found").
Proof.
  intros d id Hex d'. subst d'.
  unfold delete_project, reply_success, delete_project_row.
  rewrite Hex. simpl.
  unfold staff_of, billing_of, outbound_of, files_of; simpl.
  rewrite !select_delete_same.
  assert (select_get (fun p => Project.id p =? id)
            (delete_where (fun p => Project.id p =? id) (projects d)) = None)
    as Hnone.
  { unfold select_get. fold (select_all (fun p => Project.id p =? id)
      (delete_where (fun p => Project.id p =? id) (projects d))).
    now rewrite select_delete_same. }
  repeat split.
  - unfold project_exists; simpl. now apply select_get_none.
  - unfold get_project; simpl. now rewrite Hnone.
Qed.

Lemma delete_project_cascades_witness :
  project_exists "P1" (sample_db ProjectStatus.Billing) = true
  /\ staff_of "P1" (fst (delete_project "P1" (sample_db ProjectStatus.Billing))) = []
  /\ snd (get_project "P1" (fst (delete_project "P1" (sample_db ProjectStatus.Billing))))
     = Json 404 (Error "Project not found").
Proof.
  split; [reflexivity|].
  pose proof (delete_project_cascades (sample_db ProjectStatus.Billing) "P1" eq_refl)
    as H.
  split; [apply H | apply H].
Defined.

(** ** Users *)

(** C8. Creating a user whose email a stored user already has is rejected
    with 400 and the conflict message, and the store, the existing user
    included, is left as it was. *)
Theorem duplicate_email_is_conflict :
  forall (d : Db) (body : Req.user),
    existsb (fun u => User.email u =? Req.email body) (users d) = true ->
    post_users body d = (d, Json 400 (Error "Email already exists")).
Proof.
  intros d body Hdup. unfold post_users, insertUser; simpl.
  rewrite Hdup.
  now destruct (existsb (fun u => User.id u =? Req.id body) (users d)).
Qed.

Lemma duplicate_email_is_conflict_witness :
  post_users {| Req.id := "2"; Req.email := "admin@example.com";
                Req.password := "x"; Req.name := "Other"; Req.role := "staff";
                Req.remarks := None |} initial_db
  = (initial_db, Json 400 (Error "Email already exists")).
Proof.
  apply duplicate_email_is_conflict. reflexivity.
Defined.

(** ** Auto-advance on full billing *)

Lemma patch_bill_isBilled body r :
  Req.isBilled body = Some true ->
  BillingItem.isBilled (patch_bill body r) = true.
Proof.
  intros H. unfold patch_bill. rewrite H. now destruct (Req.isPaid body).
Qed.

(** Once the last unbilled item is patched, the fetch sees every item of
    the project billed. *)
Lemma all_billed_after_patch projectId itemId body d :
  Req.isBilled body = Some true ->
  last_unbilled projectId itemId d = true ->
  forallb BillingItem.isBilled
    (billing_of projectId (fst (patch_billing_item itemId body d))) = true.
Proof.
  intros Hb Hlast. rewrite patch_billing_item_run. cbn [fst].
  unfold billing_of, select_all; simpl.
  apply andb_true_iff in Hlast. destruct Hlast as [_ Hothers].
  rewrite forallb_forall in Hothers.
  apply forallb_forall. intros r' Hr'.
  apply filter_In in Hr'. destruct Hr' as [Hin Hpid].
  unfold update_where in Hin. apply in_map_iff in Hin.
  destruct Hin as (r & Hr & Hin). specialize (Hothers r Hin).
  destruct (BillingItem.id r =? itemId) eqn:Eid; subst r'.
  - now apply patch_bill_isBilled.
  - now rewrite Hpid in Hothers.
Qed.

(** C1, as stated, fails, in two ways.  Setting the billed flag of the
    last unbilled item of a project in [Billing] through
    PATCH /api/billing_items/:id does not make the status [Payment-In]: the
    server writes the flag and nothing else, and P1 is still in [Billing].
    And the client, which does advance, puts the item id into the path as
    it is: for the item of id B/2 the path names no route, the item is not
    patched and the project stays in [Billing]. *)
Lemma billed_flag_patch_does_not_advance :
  ~ (forall (d : Db) (projectId itemId : string) (body : Req.bill_patch),
        Req.isBilled body = Some true ->
        project_status projectId d = Some ProjectStatus.Billing ->
        last_unbilled projectId itemId d = true ->
        project_status projectId (fst (handle (PATCH_billing_item itemId body) d))
        = Some ProjectStatus.PaymentIn)
  /\ ~ (forall (d : Db) (projectId itemId : string) (updates : Req.bill_patch),
           Req.isBilled updates = Some true ->
           project_status projectId d = Some ProjectStatus.Billing ->
           last_unbilled projectId itemId d = true ->
           project_status projectId
             (handleBillingItemUpdate not_found projectId itemId updates d)
           = Some ProjectStatus.PaymentIn).
Proof.
  split; intros H.
  - specialize (H (sample_db ProjectStatus.Billing) "P1" "B2"
                  {| Req.isBilled := Some true; Req.isPaid := None |}
                  eq_refl eq_refl eq_refl).
    vm_compute in H. discriminate H.
  - specialize (H (with_billing_items [sample_bill "B1" "P1" true false;
                                       sample_bill "B/2" "P1" false false]
                                      (sample_db ProjectStatus.Billing))
                  "P1" "B/2"
                  {| Req.isBilled := Some true; Req.isPaid := None |}
                  eq_refl eq_refl eq_refl).
    vm_compute in H. discriminate H.
Qed.

(** C1, amended. The advance is the work of the client:
    [handleBillingItemUpdate], called with ids that a path carries as they
    are and with the billed flag set, leaves a project that was in
    [Billing] with this item its last unbilled one in [Payment-In], and a
    project in any other status in the status it had.  The PATCH of the
    billing item itself never touches the table of projects. *)
Theorem billing_auto_advance :
  forall (off_route : string -> Request -> Db -> Db * Reply)
         (d : Db) (projectId itemId : string) (updates : Req.bill_patch),
    plain_id projectId = true ->
    plain_id itemId = true ->
    Req.isBilled updates = Some true ->
    (project_status projectId d = Some ProjectStatus.Billing ->
     last_unbilled projectId itemId d = true ->
     project_status projectId
       (handleBillingItemUpdate off_route projectId itemId updates d)
     = Some ProjectStatus.PaymentIn)
    /\ (project_status projectId d <> Some ProjectStatus.Billing ->
        project_status projectId
          (handleBillingItemUpdate off_route projectId itemId updates d)
        = project_status projectId d)
    /\ projects (fst (handle (PATCH_billing_item itemId updates) d)) = projects d.
Proof.
  intros off_route d projectId itemId updates Hpp Hpi Hb.
  pose proof (all_billed_after_patch projectId itemId updates d Hb) as Hall.
  unfold handleBillingItemUpdate, handleStatusUpdate, fetch, handle.
  rewrite Hpp, Hpi.
  rewrite patch_billing_item_run in *. cbn [fst] in Hall.
  cbn [ok Nat.leb andb].
  unfold get_project. cbn [projects with_billing_items].
  unfold project_status at 1 3 5.
  destruct (select_get (fun p => Project.id p =? projectId) (projects d))
    as [p|] eqn:Hp; cbn [ok Nat.leb andb json_billingItems json_project];
    rewrite ?Hb.
  - split; [|split; [|reflexivity]].
    + intros Hst Hlast.
      rewrite (Hall Hlast), Hst. cbn [andb status_is]. rewrite String.eqb_refl.
      rewrite patch_project_run. cbn [fst].
      rewrite project_status_update. cbn [projects with_billing_items].
      rewrite Hp.
      apply select_get_some in Hp. destruct Hp as [_ Hid]. now rewrite Hid.
    + intros Hst.
      assert (status_is (Project.status (Project.cols p)) ProjectStatus.Billing
              = false) as Hne.
      { destruct (Project.status (Project.cols p)) as [s|]; [|reflexivity].
        apply String.eqb_neq. intros E. apply Hst. now rewrite E. }
      rewrite Hne, andb_false_r.
      unfold project_status. cbn [projects with_billing_items]. now rewrite Hp.
  - split; [discriminate|]. split; [|reflexivity]. intros _.
    unfold project_status. cbn [projects with_billing_items]. now rewrite Hp.
Qed.

(** The end-to-end run of the lifecycle: with B1 billed and B2 not, the
    client's update of B2 moves P1 from [Billing] to [Payment-In]; in
    [Construction] the same update leaves the status alone. *)
Lemma billing_auto_advance_witness :
  project_status "P1"
    (handleBillingItemUpdate not_found "P1" "B2"
       {| Req.isBilled := Some true; Req.isPaid := None |}
       (sample_db ProjectStatus.Billing))
  = Some ProjectStatus.PaymentIn
  /\ project_status "P1"
       (handleBillingItemUpdate not_found "P1" "B2"
          {| Req.isBilled := Some true; Req.isPaid := None |}
          (sample_db ProjectStatus.Construction))
     = Some ProjectStatus.Construction.
Proof.
  split.
  - apply (proj1 (billing_auto_advance not_found
                    (sample_db ProjectStatus.Billing) "P1" "B2"
                    {| Req.isBilled := Some true; Req.isPaid := None |}
                    eq_refl eq_refl eq_refl)); reflexivity.
  - apply (proj1 (proj2 (billing_auto_advance not_found
                           (sample_db ProjectStatus.Construction) "P1" "B2"
                           {| Req.isBilled := Some true; Req.isPaid := None |}
                           eq_refl eq_refl eq_refl))).
    discriminate.
Defined.

(** ** The collection replacement protocol *)

Lemma bool_ite (b : bool) : (if b then true else false) = b.
Proof. now destruct b. Qed.

Lemma insertStaff_ok r d d1 :
  insertStaff r d = (d1, inr tt) ->
  d1 = with_construction_staff (construction_staff d ++ [r]) d
  /\ existsb (fun x => ConstructionStaff.id x =? ConstructionStaff.id r)
             (construction_staff d) = false.
Proof.
  unfold insertStaff.
  destruct (existsb _ (construction_staff d)); [discriminate|].
  destruct (negb _); [discriminate|].
  intros H. injection H as <-. auto.
Qed.

Lemma insertBilling_ok r d d1 :
  insertBilling r d = (d1, inr tt) ->
  d1 = with_billing_items (billing_items d ++ [r]) d
  /\ existsb (fun x => BillingItem.id x =? BillingItem.id r)
             (billing_items d) = false.
Proof.
  unfold insertBilling.
  destruct (existsb _ (billing_items d)); [discriminate|].
  destruct (negb _); [discriminate|].
  intros H. injection H as <-. auto.
Qed.

Lemma insertOutbound_ok r d d1 :
  insertOutbound r d = (d1, inr tt) ->
  d1 = with_outbound_payments (outbound_payments d ++ [r]) d
  /\ existsb (fun x => OutboundPayment.id x =? OutboundPayment.id r)
             (outbound_payments d) = false.
Proof.
  unfold insertOutbound.
  destruct (existsb _ (outbound_payments d)); [discriminate|].
  destruct (negb _); [discriminate|].
  intros H. injection H as <-. auto.
Qed.

(** A loop that returns has appended, in order, the rows the request
    describes, and nothing else has moved. *)
Lemma put_staff_loop_ok fresh projectId l :
  forall n d d1 n1,
    put_staff_loop fresh n projectId l d = (d1, inr n1) ->
    d1 = with_construction_staff
           (construction_staff d ++ staff_rows fresh n projectId l) d
    /\ n1 = drawn fresh n (map (@Req.staff_id _) l).
Proof.
  induction l as [|s rest IH]; intros n d d1 n1 H; simpl in *.
  - injection H as <- <-. rewrite app_nil_r. now destruct d.
  - destruct (or_fresh fresh n (Req.staff_id s)) as [i n'] eqn:E.
    unfold bind in H.
    destruct (insertStaff _ d) as [d2 [e|[]]] eqn:Ei; [discriminate|].
    apply insertStaff_ok in Ei. destruct Ei as [-> _].
    apply IH in H. destruct H as [-> ->]. simpl.
    now rewrite <- app_assoc.
Qed.

Lemma put_billing_loop_ok fresh projectId l :
  forall n d d1 n1,
    put_billing_loop fresh n projectId l d = (d1, inr n1) ->
    d1 = with_billing_items
           (billing_items d ++ billing_rows fresh n projectId l) d
    /\ n1 = drawn fresh n (map (@Req.bill_id _) l).
Proof.
  induction l as [|s rest IH]; intros n d d1 n1 H; simpl in *.
  - injection H as <- <-. rewrite app_nil_r. now destruct d.
  - destruct (or_fresh fresh n (Req.bill_id s)) as [i n'] eqn:E.
    unfold bind in H.
    destruct (insertBilling _ d) as [d2 [e|[]]] eqn:Ei; [discriminate|].
    apply insertBilling_ok in Ei. destruct Ei as [-> _].
    apply IH in H. destruct H as [-> ->]. simpl.
    now rewrite <- app_assoc, !bool_ite.
Qed.

Lemma put_outbound_loop_ok fresh projectId l :
  forall n d d1 n1,
    put_outbound_loop fresh n projectId l d = (d1, inr n1) ->
    d1 = with_outbound_payments
           (outbound_payments d ++ outbound_rows fresh n projectId l) d
    /\ n1 = drawn fresh n (map (@Req.payment_id _) l).
Proof.
  induction l as [|s rest IH]; intros n d d1 n1 H; simpl in *.
  - injection H as <- <-. rewrite app_nil_r. now destruct d.
  - destruct (or_fresh fresh n (Req.payment_id s)) as [i n'] eqn:E.
    unfold bind in H.
    destruct (insertOutbound _ d) as [d2 [e|[]]] eqn:Ei; [discriminate|].
    apply insertOutbound_ok in Ei. destruct Ei as [-> _].
    apply IH in H. destruct H as [-> ->]. simpl.
    now rewrite <- app_assoc, bool_ite.
Qed.

Lemma put_project_fn_ok fresh projectId body d d1 n :
  put_project_fn fresh projectId body d = (d1, inr n) ->
  d1 = put_project_result fresh projectId body d.
Proof.
  unfold put_project_fn, bind, update_project, deleteStaff; cbn [fst snd].
  destruct (put_staff_loop _ _ _ _ _) as [dA [e|n1]] eqn:EA; [discriminate|].
  apply put_staff_loop_ok in EA. destruct EA as [-> ->].
  unfold deleteBilling.
  destruct (put_billing_loop _ _ _ _ _) as [dB [e|n2]] eqn:EB; [discriminate|].
  apply put_billing_loop_ok in EB. destruct EB as [-> ->].
  unfold deleteOutbound.
  intros H. apply put_outbound_loop_ok in H. destruct H as [-> _].
  reflexivity.
Qed.

(** The two ways PUT /api/projects/:id ends. *)
Lemma put_project_cases fresh projectId body d :
  put_project fresh projectId body d
  = (put_project_result fresh projectId body d, Json 200 Success)
  \/ exists e, put_project fresh projectId body d
               = (d, Json 500 (Error (message e))).
Proof.
  unfold put_project, db_transaction.
  destruct (put_project_fn fresh projectId body d) as [d1 [e|n]] eqn:E.
  - right. now exists e.
  - left. now rewrite (put_project_fn_ok _ _ _ _ _ _ E).
Qed.

Lemma put_project_success fresh projectId body d d' :
  put_project fresh projectId body d = (d', Json 200 Success) ->
  d' = put_project_result fresh projectId body d.
Proof.
  intros H. destruct (put_project_cases fresh projectId body d) as [E|[e E]];
    rewrite E in H; [now injection H as <- | discriminate].
Qed.

Lemma staff_rows_projectId fresh projectId l :
  forall n r, In r (staff_rows fresh n projectId l) ->
              (ConstructionStaff.projectId r =? projectId) = true.
Proof.
  induction l as [|s rest IH]; intros n r; simpl; [tauto|].
  intros [<-|H]; [apply String.eqb_refl | eapply IH; eauto].
Qed.

Lemma billing_rows_projectId fresh projectId l :
  forall n r, In r (billing_rows fresh n projectId l) ->
              (BillingItem.projectId r =? projectId) = true.
Proof.
  induction l as [|s rest IH]; intros n r; simpl; [tauto|].
  intros [<-|H]; [apply String.eqb_refl | eapply IH; eauto].
Qed.

Lemma outbound_rows_projectId fresh projectId l :
  forall n r, In r (outbound_rows fresh n projectId l) ->
              (OutboundPayment.projectId r =? projectId) = true.
Proof.
  induction l as [|s rest IH]; intros n r; simpl; [tauto|].
  intros [<-|H]; [apply String.eqb_refl | eapply IH; eauto].
Qed.

(** Selecting on the column a delete was keyed on, after rows with that
    key were appended, finds the appended rows and only them. *)
Lemma select_after_replace {R} (c : R -> bool) t rows :
  (forall r, In r rows -> c r = true) ->
  select_all c (delete_where c t ++ rows) = rows.
Proof.
  intros H. unfold select_all. rewrite filter_app.
  fold (select_all c (delete_where c t)). rewrite select_delete_same.
  simpl. now apply filter_all.
Qed.

(** C2. When a full replace of a stored project with three supplied
    sequences ends in success, the staff, billing items and outbound
    payments stored for the project are the supplied sequences, in order,
    each row under its own id or, lacking one, under the identifier drawn
    for it; no row of an earlier version is left. *)
Theorem put_replaces_children :
  forall (fresh : nat -> string) (id : string) (cols : Project.fields)
         (staff : list (Req.staff (option string)))
         (billing : list (Req.bill (option string)))
         (outbound : list (Req.payment (option string)))
         (d d' : Db),
    project_exists id d = true ->
    put_project fresh id (put_body cols staff billing outbound) d
    = (d', Json 200 Success) ->
    let n1 := drawn fresh 0 (map (@Req.staff_id _) staff) in
    let n2 := drawn fresh n1 (map (@Req.bill_id _) billing) in
    staff_of id d' = staff_rows fresh 0 id staff
    /\ billing_of id d' = billing_rows fresh n1 id billing
    /\ outbound_of id d' = outbound_rows fresh n2 id outbound.
Proof.
  intros fresh id cols staff billing outbound d d' _ H n1 n2.
  apply put_project_success in H. subst d'.
  unfold staff_of, billing_of, outbound_of, put_project_result; simpl.
  repeat split; apply select_after_replace.
  - apply staff_rows_projectId.
  - apply billing_rows_projectId.
  - apply outbound_rows_projectId.
Qed.

(** *** What a failing full replace throws *)

Lemma put_staff_loop_throws fresh projectId l :
  forall n d d1 e,
    put_staff_loop fresh n projectId l d = (d1, inl e) -> In e put_errors.
Proof.
  induction l as [|s rest IH]; intros n d d1 e H; simpl in *; [discriminate|].
  destruct (or_fresh fresh n (Req.staff_id s)) as [i n'].
  unfold bind, insertStaff, throw in H. simpl in H.
  destruct (existsb _ (construction_staff d));
    [injection H as _ <-; simpl; tauto|].
  destruct (negb _); [injection H as _ <-; simpl; tauto|].
  eapply IH; eauto.
Qed.

Lemma put_billing_loop_throws fresh projectId l :
  forall n d d1 e,
    put_billing_loop fresh n projectId l d = (d1, inl e) -> In e put_errors.
Proof.
  induction l as [|s rest IH]; intros n d d1 e H; simpl in *; [discriminate|].
  destruct (or_fresh fresh n (Req.bill_id s)) as [i n'].
  unfold bind, insertBilling, throw in H. simpl in H.
  destruct (existsb _ (billing_items d));
    [injection H as _ <-; simpl; tauto|].
  destruct (negb _); [injection H as _ <-; simpl; tauto|].
  eapply IH; eauto.
Qed.

Lemma put_outbound_loop_throws fresh projectId l :
  forall n d d1 e,
    put_outbound_loop fresh n projectId l d = (d1, inl e) -> In e put_errors.
Proof.
  induction l as [|s rest IH]; intros n d d1 e H; simpl in *; [discriminate|].
  destruct (or_fresh fresh n (Req.payment_id s)) as [i n'].
  unfold bind, insertOutbound, throw in H. simpl in H.
  destruct (existsb _ (outbound_payments d));
    [injection H as _ <-; simpl; tauto|].
  destruct (negb _); [injection H as _ <-; simpl; tauto|].
  eapply IH; eauto.
Qed.

Lemma put_project_fn_throws fresh projectId body d d1 e :
  put_project_fn fresh projectId body d = (d1, inl e) -> In e put_errors.
Proof.
  unfold put_project_fn, bind, update_project, deleteStaff; cbn [fst snd].
  destruct (put_staff_loop _ _ _ _ _) as [dA [eA|n1]] eqn:EA.
  { intros H. injection H as _ <-. eapply put_staff_loop_throws; eauto. }
  unfold deleteBilling.
  destruct (put_billing_loop _ _ _ _ _) as [dB [eB|n2]] eqn:EB.
  { intros H. injection H as _ <-. eapply put_billing_loop_throws; eauto. }
  unfold deleteOutbound. apply put_outbound_loop_throws.
Qed.

(** C3, as stated, fails in its last part: the failure the caller receives
    is not a generic one in place of the internal error.  The reply of a
    failed replace carries the message of the error the store threw, word
    for word, and so two replaces that fail for different reasons are
    answered differently. *)
Lemma put_failure_reply_is_raw :
  ~ (forall (fresh : nat -> string) (id : string)
            (body : Req.project (option string)) (d d1 : Db) (e : SqliteError),
        put_project_fn fresh id body d = (d1, inl e) ->
        snd (put_project fresh id body d) <> Json 500 (Error (message e)))
  /\ ~ (exists generic : Reply,
           forall (fresh : nat -> string) (id : string)
                  (body : Req.project (option string)) (d d1 : Db) (e : SqliteError),
             put_project_fn fresh id body d = (d1, inl e) ->
             snd (put_project fresh id body d) = generic).
Proof.
  set (d := sample_db ProjectStatus.Billing).
  set (twice := put_body (sample_cols ProjectStatus.PaymentOut)
                  [ {| Req.staff_id := Some "X"; Req.staff_cols := sample_staff_cols "a" |};
                    {| Req.staff_id := Some "X"; Req.staff_cols := sample_staff_cols "b" |} ]
                  [] []).
  set (orphan := put_body (sample_cols ProjectStatus.Estimate)
                   [ {| Req.staff_id := None; Req.staff_cols := sample_staff_cols "a" |} ]
                   [] []).
  assert (put_project_fn sample_fresh "P1" twice d
          = (fst (put_project_fn sample_fresh "P1" twice d),
             inl (UniqueConstraint "construction_staff.id"))) as H1
      by (vm_compute; reflexivity).
  assert (put_project_fn sample_fresh "P404" orphan d
          = (fst (put_project_fn sample_fresh "P404" orphan d),
             inl ForeignKeyConstraint)) as H2
      by (vm_compute; reflexivity).
  split.
  - intros H. apply (H _ _ _ _ _ _ H1). vm_compute. reflexivity.
  - intros [generic H].
    pose proof (H _ _ _ _ _ _ H1) as G1. pose proof (H _ _ _ _ _ _ H2) as G2.
    rewrite <- G2 in G1. vm_compute in G1. discriminate G1.
Qed.

(** C3, amended. When a step of the full replace throws, the store is the
    one the request found, project row and children alike, and the handler
    answers 500 with the message of the error that was thrown.  A replace
    ends in no other way: whenever its reply is not the success reply, a
    step threw one of the four constraint errors, the store is unchanged
    and the reply is 500 with the message of that error. *)
Theorem put_failure_rolls_back :
  forall (fresh : nat -> string) (id : string)
         (body : Req.project (option string)) (d : Db),
    (forall (d1 : Db) (e : SqliteError),
        put_project_fn fresh id body d = (d1, inl e) ->
        put_project fresh id body d = (d, Json 500 (Error (message e))))
    /\ (snd (put_project fresh id body d) <> Json 200 Success ->
        exists (d1 : Db) (e : SqliteError),
          put_project_fn fresh id body d = (d1, inl e)
          /\ In e put_errors
          /\ put_project fresh id body d = (d, Json 500 (Error (message e)))).
Proof.
  intros fresh id body d. unfold put_project, db_transaction.
  destruct (put_project_fn fresh id body d) as [d1 [e|n]] eqn:E; split.
  - intros d1' e' H. now injection H as _ <-.
  - intros _. exists d1, e. split; [reflexivity|].
    split; [|reflexivity]. eapply put_project_fn_throws; eauto.
  - discriminate.
  - intros H. now elim H.
Qed.

(** C10. A full replace addressed to an identifier that matches no stored
    project leaves the set of stored projects as it was: no row is
    created. *)
Theorem put_is_not_upsert :
  forall (fresh : nat -> string) (id : string)
         (body : Req.project (option string)) (d : Db),
    project_exists id d = false ->
    projects (fst (put_project fresh id body d)) = projects d.
Proof.
  intros fresh id body d Hno.
  destruct (put_project_cases fresh id body d) as [E|[e E]]; rewrite E;
    [|reflexivity].
  unfold put_project_result; simpl.
  now apply update_where_none.
Qed.

(** Two staff with the same id: the second insert throws after the
    project row was overwritten, the old staff deleted and the first row
    inserted; the reply is 500 and the store is the old one. *)
Lemma put_failure_rolls_back_witness :
  let d := sample_db ProjectStatus.Billing in
  let body := put_body (sample_cols ProjectStatus.PaymentOut)
                [ {| Req.staff_id := Some "X"; Req.staff_cols := sample_staff_cols "a" |};
                  {| Req.staff_id := Some "X"; Req.staff_cols := sample_staff_cols "b" |} ]
                [] [] in
  exists d1,
    put_project_fn sample_fresh "P1" body d
    = (d1, inl (UniqueConstraint "construction_staff.id"))
    /\ staff_of "P1" d1 = [ {| ConstructionStaff.id := "X";
                                ConstructionStaff.projectId := "P1";
                                ConstructionStaff.cols := sample_staff_cols "a" |} ]
    /\ put_project sample_fresh "P1" body d
       = (d, Json 500 (Error "UNIQUE constraint failed: construction_staff.id")).
Proof.
  intros d body.
  exists (fst (put_project_fn sample_fresh "P1" body d)).
  split; [reflexivity|]. split; [reflexivity|].
  apply (proj1 (put_failure_rolls_back sample_fresh "P1" body d)
           (fst (put_project_fn sample_fresh "P1" body d))
           (UniqueConstraint "construction_staff.id")).
  reflexivity.
Defined.

(** The project has two staff, B1 and B2, and O1.  The replacement
    supplies no staff, B1 again and a new item without an id, and no
    outbound payment. *)
Lemma put_replaces_children_witness :
  let d := sample_db ProjectStatus.Billing in
  let billing :=
    [ {| Req.bill_id := Some "B1"; Req.bill_cols := sample_bill_cols;
         Req.bill_isBilled := true; Req.bill_isPaid := false |};
      {| Req.bill_id := None; Req.bill_cols := sample_bill_cols;
         Req.bill_isBilled := false; Req.bill_isPaid := false |} ] in
  let d' := fst (put_project sample_fresh "P1"
                   (put_body (sample_cols ProjectStatus.Billing) [] billing []) d) in
  staff_of "P1" d' = []
  /\ billing_of "P1" d' = [ sample_bill "B1" "P1" true false;
                            sample_bill "17000000000000.11" "P1" false false ]
  /\ outbound_of "P1" d' = [].
Proof.
  intros d billing d'.
  apply (put_replaces_children sample_fresh "P1"
           (sample_cols ProjectStatus.Billing) [] billing [] d d');
    reflexivity.
Defined.

(** No project P404 is stored: the replace answers success and the table
    of projects is what it was. *)
Lemma put_is_not_upsert_witness :
  let d := sample_db ProjectStatus.Billing in
  let body := put_body (sample_cols ProjectStatus.Estimate) [] [] [] in
  snd (put_project sample_fresh "P404" body d) = Json 200 Success
  /\ projects (fst (put_project sample_fresh "P404" body d)) = projects d.
Proof.
  intros d body. split; [reflexivity|].
  apply (put_is_not_upsert sample_fresh "P404" body d). reflexivity.
Defined.

(** With children in the body, the foreign key stops the replace. *)
Example put_missing_project_with_children :
  put_project sample_fresh "P404"
    (put_body (sample_cols ProjectStatus.Estimate)
       [ {| Req.staff_id := None; Req.staff_cols := sample_staff_cols "a" |} ] [] [])
    (sample_db ProjectStatus.Billing)
  = (sample_db ProjectStatus.Billing,
     Json 500 (Error "FOREIGN KEY constraint failed")).
Proof. reflexivity. Qed.

(** ** POST /api/projects *)

Lemma insertProject_ok r d d1 :
  insertProject r d = (d1, inr tt) ->
  d1 = with_projects (projects d ++ [r]) d.
Proof.
  unfold insertProject.
  destruct (existsb _ (projects d)); [discriminate|].
  intros H. now injection H as <-.
Qed.

Lemma for_of_insertStaff_ok {X} (mk : X -> ConstructionStaff.row) l :
  forall d d1,
    for_of l (fun x => insertStaff (mk x)) d = (d1, inr tt) ->
    d1 = with_construction_staff (construction_staff d ++ map mk l) d.
Proof.
  induction l as [|x rest IH]; intros d d1 H; simpl in *.
  - injection H as <-. rewrite app_nil_r. now destruct d.
  - unfold bind in H.
    destruct (insertStaff _ d) as [d2 [e|[]]] eqn:Ei; [discriminate|].
    apply insertStaff_ok in Ei. destruct Ei as [-> _].
    apply IH in H. subst d1. simpl. now rewrite <- app_assoc.
Qed.

(** The rows a loop of inserts appends carry ids the table did not hold. *)
Lemma for_of_insertBilling_ok {X} (mk : X -> BillingItem.row) l :
  forall d d1,
    for_of l (fun x => insertBilling (mk x)) d = (d1, inr tt) ->
    d1 = with_billing_items (billing_items d ++ map mk l) d
    /\ forall r, In r (map mk l) ->
                 existsb (fun x => BillingItem.id x =? BillingItem.id r)
                         (billing_items d) = false.
Proof.
  induction l as [|x rest IH]; intros d d1 H; simpl in *.
  - injection H as <-. rewrite app_nil_r. split; [now destruct d | tauto].
  - unfold bind in H.
    destruct (insertBilling _ d) as [d2 [e|[]]] eqn:Ei; [discriminate|].
    apply insertBilling_ok in Ei. destruct Ei as [-> Hnew].
    apply IH in H. destruct H as [-> Hrest]. simpl in *.
    split; [now rewrite <- app_assoc|].
    intros r [<-|Hr]; [exact Hnew|].
    specialize (Hrest r Hr). rewrite existsb_app in Hrest.
    now apply orb_false_iff in Hrest.
Qed.

Lemma for_of_insertOutbound_ok {X} (mk : X -> OutboundPayment.row) l :
  forall d d1,
    for_of l (fun x => insertOutbound (mk x)) d = (d1, inr tt) ->
    d1 = with_outbound_payments (outbound_payments d ++ map mk l) d
    /\ forall r, In r (map mk l) ->
                 existsb (fun x => OutboundPayment.id x =? OutboundPayment.id r)
                         (outbound_payments d) = false.
Proof.
  induction l as [|x rest IH]; intros d d1 H; simpl in *.
  - injection H as <-. rewrite app_nil_r. split; [now destruct d | tauto].
  - unfold bind in H.
    destruct (insertOutbound _ d) as [d2 [e|[]]] eqn:Ei; [discriminate|].
    apply insertOutbound_ok in Ei. destruct Ei as [-> Hnew].
    apply IH in H. destruct H as [-> Hrest]. simpl in *.
    split; [now rewrite <- app_assoc|].
    intros r [<-|Hr]; [exact Hnew|].
    specialize (Hrest r Hr). rewrite existsb_app in Hrest.
    now apply orb_false_iff in Hrest.
Qed.

(** The two ways POST /api/projects ends; on success the new billing
    items and outbound payments carry ids their tables did not hold. *)
Lemma post_projects_cases id body d :
  (post_projects id body d = (post_projects_result id body d, Json 200 Success)
   /\ (forall r, In r (map (post_bill_row id) (array_or_empty (Req.billingItems body))) ->
                 existsb (fun x => BillingItem.id x =? BillingItem.id r)
                         (billing_items d) = false)
   /\ (forall r, In r (map (post_payment_row id)
                           (array_or_empty (Req.outboundPayments body))) ->
                 existsb (fun x => OutboundPayment.id x =? OutboundPayment.id r)
                         (outbound_payments d) = false))
  \/ exists e, post_projects id body d = (d, Json 500 (Error (message e))).
Proof.
  unfold post_projects, db_transaction.
  match goal with |- context [bind ?m ?k d] => destruct (bind m k d) as [d1 [e|[]]] eqn:E end.
  - right. now exists e.
  - left. unfold bind in E.
    destruct (insertProject _ d) as [dP [e|[]]] eqn:EP; [discriminate|].
    apply insertProject_ok in EP. subst dP.
    destruct (for_of _ _ _) as [dS [e|[]]] eqn:ES in E; [discriminate|].
    apply for_of_insertStaff_ok in ES. subst dS.
    destruct (for_of _ _ _) as [dB [e|[]]] eqn:EB in E; [discriminate|].
    apply for_of_insertBilling_ok in EB. destruct EB as [-> HB].
    apply for_of_insertOutbound_ok in E. destruct E as [-> HO].
    repeat split; assumption.
Qed.

(** ** The domain of the status column *)

Lemma forallb_update_where {R} (P c : R -> bool) (f : R -> R) t :
  (forall r, P r = true -> P (f r) = true) ->
  forallb P t = true -> forallb P (update_where c f t) = true.
Proof.
  intros Hf H. rewrite forallb_forall in *. intros r' Hr'.
  unfold update_where in Hr'. apply in_map_iff in Hr'.
  destruct Hr' as (r & <- & Hr). destruct (c r); auto.
Qed.

Lemma forallb_delete_where {R} (P c : R -> bool) t :
  forallb P t = true -> forallb P (delete_where c t) = true.
Proof.
  intros H. rewrite forallb_forall in *. intros r Hr.
  apply filter_In in Hr. now apply H.
Qed.

Lemma same_core_refl d : same_core d d.
Proof. repeat split. Qed.

Lemma post_login_store email password d : fst (post_login email password d) = d.
Proof.
  unfold post_login. destruct (select_get _ _) as [u|]; [|reflexivity].
  now destruct (negb (User.isActive u)).
Qed.

Lemma get_project_store id d : fst (get_project id d) = d.
Proof. unfold get_project. now destruct (select_get _ _). Qed.

Lemma patch_outbound_payment_run id isPaid d :
  patch_outbound_payment id isPaid d
  = (with_outbound_payments
       (update_where (fun x => OutboundPayment.id x =? id)
                     (fun r => match isPaid with
                               | Some v => OutboundPayment.set_isPaid v r
                               | None => r
                               end)
                     (outbound_payments d)) d,
     Json 200 Success).
Proof.
  unfold patch_outbound_payment, reply_success, when_defined.
  destruct isPaid as [[|]|]; unfold update_outbound, ret; try reflexivity.
  rewrite update_where_id by reflexivity. now destruct d.
Qed.

(** What DELETE /api/projects/:id leaves in the three tables. *)
Lemma delete_project_core id d :
  projects (fst (delete_project id d))
  = delete_where (fun p => Project.id p =? id) (projects d)
  /\ (billing_items (fst (delete_project id d))
       = delete_where (fun x => BillingItem.projectId x =? id) (billing_items d)
      \/ billing_items (fst (delete_project id d)) = billing_items d)
  /\ (outbound_payments (fst (delete_project id d))
       = delete_where (fun x => OutboundPayment.projectId x =? id)
                      (outbound_payments d)
      \/ outbound_payments (fst (delete_project id d)) = outbound_payments d).
Proof.
  unfold delete_project, reply_success, delete_project_row.
  destruct (project_exists id d) eqn:E; simpl; [auto|].
  split; [|auto]. symmetry. now apply delete_where_none.
Qed.

Lemma post_file_core projectId file now d :
  same_core d (fst (post_file projectId file now d)).
Proof.
  unfold post_file, insertFile. destruct file as [[originalname filename]|];
    [|apply same_core_refl].
  destruct (existsb _ (files d)); [apply same_core_refl|].
  destruct (negb _); repeat split.
Qed.

Lemma delete_file_core id d : same_core d (fst (delete_file id d)).
Proof. unfold delete_file. destruct (select_get _ _); repeat split. Qed.

Lemma post_users_core body d : same_core d (fst (post_users body d)).
Proof.
  unfold post_users, insertUser.
  destruct (existsb _ (users d)); [apply same_core_refl|].
  destruct (existsb _ (users d)); repeat split.
Qed.

Lemma put_users_core id body d : same_core d (fst (put_users id body d)).
Proof.
  unfold put_users. destruct (no_updates body); [apply same_core_refl|].
  destruct (match Req.put_email body with Some _ => _ | None => _ end);
    repeat split.
Qed.

(** One request keeps the statuses in the domain when the status it
    supplies, if any, is in the domain. *)
Lemma handle_statuses_ok r d :
  request_status_ok r = true ->
  statuses_ok d = true ->
  statuses_ok (fst (handle r d)) = true.
Proof.
  intros Hr Hd. unfold statuses_ok in *.
  destruct r; simpl in *.
  - now rewrite post_login_store.
  - exact Hd.
  - destruct (post_projects_cases id body d) as [[E _]|[e E]]; rewrite E; simpl;
      [|exact Hd].
    rewrite forallb_app, Hd. simpl. now rewrite Hr.
  - now rewrite get_project_store.
  - rewrite patch_project_run. simpl.
    apply forallb_update_where; [|exact Hd].
    intros p Hp. simpl. rewrite patch_cols_status.
    destruct (Req.status body); simpl; assumption.
  - rewrite patch_billing_item_run. exact Hd.
  - rewrite patch_outbound_payment_run. exact Hd.
  - destruct (put_project_cases fresh id body d) as [E|[e E]]; rewrite E; simpl;
      [|exact Hd].
    apply forallb_update_where; [|exact Hd]. intros p _. exact Hr.
  - rewrite (proj1 (delete_project_core id d)). now apply forallb_delete_where.
  - now rewrite (proj1 (post_file_core projectId file now d)).
  - now rewrite (proj1 (delete_file_core id d)).
  - exact Hd.
  - now rewrite (proj1 (post_users_core body d)).
  - now rewrite (proj1 (put_users_core id body d)).
  - exact Hd.
Qed.

(** C7, as stated, fails: the status PATCH stores whatever string the
    request carries. *)
Lemma status_outside_domain_is_stored :
  ~ (forall (rs : list Request) (p : Project.row),
        In p (projects (serve rs initial_db)) ->
        valid_status (Project.status (Project.cols p)) = true).
Proof.
  intros H.
  specialize (H [POST_projects "P1"
                   {| Req.cols := sample_cols ProjectStatus.Estimate;
                      Req.constructionStaff := None; Req.billingItems := None;
                      Req.outboundPayments := None |};
                 PATCH_project "P1" (no_remarks (Some "done"))]
                (sample_project "P1" "done") (or_introl eq_refl)).
  vm_compute in H. discriminate H.
Qed.

(** A create whose body has no status stores NULL, which is none of the
    seven either. *)
Example post_without_status_stores_null :
  let d := serve [POST_projects "P1"
                    {| Req.cols := sample_cols_of None;
                       Req.constructionStaff := None; Req.billingItems := None;
                       Req.outboundPayments := None |}] initial_db in
  project_exists "P1" d = true
  /\ project_status "P1" d = None
  /\ statuses_ok d = false.
Proof. repeat split. Qed.

(** C7, amended. Starting from a store whose statuses are all among the
    seven values, after any sequence of requests in which every create and
    every full replace carries a status that is one of the seven, and every
    patch that carries a status carries one of the seven, the status of
    every stored project is one of the seven. *)
Theorem status_domain_preserved :
  forall (rs : list Request) (d : Db),
    statuses_ok d = true ->
    forallb request_status_ok rs = true ->
    forall p, In p (projects (serve rs d)) ->
              valid_status (Project.status (Project.cols p)) = true.
Proof.
  induction rs as [|r rest IH]; intros d Hd Hrs p Hp; simpl in *.
  - unfold statuses_ok in Hd. rewrite forallb_forall in Hd. now apply Hd.
  - apply andb_true_iff in Hrs. destruct Hrs as [Hr Hrest].
    apply (IH (fst (handle r d))); auto using handle_statuses_ok.
Qed.

Lemma status_domain_preserved_witness :
  let rs := [POST_projects "P1"
               {| Req.cols := sample_cols ProjectStatus.Estimate;
                  Req.constructionStaff := None; Req.billingItems := None;
                  Req.outboundPayments := None |};
             PATCH_project "P1" (no_remarks (Some ProjectStatus.Billing));
             PUT_project "P1" (put_body (sample_cols ProjectStatus.Cancelled) [] [] [])
                         sample_fresh] in
  statuses_ok initial_db = true
  /\ forallb request_status_ok rs = true
  /\ In (sample_project "P1" ProjectStatus.Cancelled) (projects (serve rs initial_db))
  /\ valid_status
       (Project.status (Project.cols (sample_project "P1" ProjectStatus.Cancelled)))
     = true.
Proof.
  intros rs.
  split; [reflexivity|]. split; [reflexivity|].
  split; [left; reflexivity|].
  apply (status_domain_preserved rs initial_db eq_refl eq_refl
           (sample_project "P1" ProjectStatus.Cancelled)).
  left; reflexivity.
Defined.

(** ** The primary keys of the flagged tables *)

Lemma nodup_key_unique {R} (key : R -> string) t :
  NoDup (map key t) ->
  forall a b, In a t -> In b t -> key a = key b -> a = b.
Proof.
  induction t as [|x t IH]; intros Hnd a b Ha Hb Hk; [destruct Ha|].
  simpl in Hnd. inversion Hnd as [|? ? Hx Hnd']; subst.
  destruct Ha as [<-|Ha], Hb as [<-|Hb]; auto.
  - exfalso. apply Hx. rewrite Hk. now apply in_map.
  - exfalso. apply Hx. rewrite <- Hk. now apply in_map.
Qed.


Lemma nodup_keys_snoc {R} (key : R -> string) t r :
  NoDup (map key t) ->
  existsb (fun x => key x =? key r) t = false ->
  NoDup (map key (t ++ [r])).
Proof.
  intros Hnd Hnew. rewrite map_app. apply NoDup_app; [exact Hnd| |].
  - simpl. constructor; [tauto | constructor].
  - intros a Ha [<-|[]]. apply in_map_iff in Ha. destruct Ha as (x & Hx & Hin).
    apply (existsb_false_all _ _ _ Hnew) in Hin.
    rewrite Hx, String.eqb_refl in Hin. discriminate.
Qed.

Lemma nodup_keys_delete {R} (key : R -> string) c t :
  NoDup (map key t) -> NoDup (map key (delete_where c t)).
Proof.
  unfold delete_where. induction t as [|x t IH]; intros Hnd; simpl; [constructor|].
  inversion Hnd as [|? ? Hx Hnd']; subst.
  destruct (negb (c x)); simpl; auto.
  constructor; auto. intros Hin. apply Hx.
  apply in_map_iff in Hin. destruct Hin as (y & Hy & Hin).
  apply filter_In in Hin. apply in_map_iff. exists y. tauto.
Qed.

Lemma keys_update_where {R} (key : R -> string) c g t :
  (forall r, key (g r) = key r) ->
  map key (update_where c g t) = map key t.
Proof.
  intros H. unfold update_where. rewrite map_map. apply map_ext.
  intros r. now destruct (c r).
Qed.

Lemma for_of_insertBilling_keys {X} (mk : X -> BillingItem.row) l :
  forall d d1,
    for_of l (fun x => insertBilling (mk x)) d = (d1, inr tt) ->
    NoDup (map BillingItem.id (billing_items d)) ->
    NoDup (map BillingItem.id (billing_items d1)).
Proof.
  induction l as [|x rest IH]; intros d d1 H Hnd; simpl in *.
  - now injection H as <-.
  - unfold bind in H.
    destruct (insertBilling _ d) as [d2 [e|[]]] eqn:Ei; [discriminate|].
    apply insertBilling_ok in Ei. destruct Ei as [-> Hnew].
    apply (IH _ _ H). simpl. now apply nodup_keys_snoc.
Qed.

Lemma for_of_insertOutbound_keys {X} (mk : X -> OutboundPayment.row) l :
  forall d d1,
    for_of l (fun x => insertOutbound (mk x)) d = (d1, inr tt) ->
    NoDup (map OutboundPayment.id (outbound_payments d)) ->
    NoDup (map OutboundPayment.id (outbound_payments d1)).
Proof.
  induction l as [|x rest IH]; intros d d1 H Hnd; simpl in *.
  - now injection H as <-.
  - unfold bind in H.
    destruct (insertOutbound _ d) as [d2 [e|[]]] eqn:Ei; [discriminate|].
    apply insertOutbound_ok in Ei. destruct Ei as [-> Hnew].
    apply (IH _ _ H). simpl. now apply nodup_keys_snoc.
Qed.

Lemma put_billing_loop_keys fresh projectId l :
  forall n d d1 n1,
    put_billing_loop fresh n projectId l d = (d1, inr n1) ->
    NoDup (map BillingItem.id (billing_items d)) ->
    NoDup (map BillingItem.id (billing_items d1)).
Proof.
  induction l as [|s rest IH]; intros n d d1 n1 H Hnd; simpl in *.
  - now injection H as <- _.
  - destruct (or_fresh fresh n (Req.bill_id s)) as [i n'] eqn:E.
    unfold bind in H.
    destruct (insertBilling _ d) as [d2 [e|[]]] eqn:Ei; [discriminate|].
    apply insertBilling_ok in Ei. destruct Ei as [-> Hnew].
    apply (IH _ _ _ _ H). simpl. now apply nodup_keys_snoc.
Qed.

Lemma put_outbound_loop_keys fresh projectId l :
  forall n d d1 n1,
    put_outbound_loop fresh n projectId l d = (d1, inr n1) ->
    NoDup (map OutboundPayment.id (outbound_payments d)) ->
    NoDup (map OutboundPayment.id (outbound_payments d1)).
Proof.
  induction l as [|s rest IH]; intros n d d1 n1 H Hnd; simpl in *.
  - now injection H as <- _.
  - destruct (or_fresh fresh n (Req.payment_id s)) as [i n'] eqn:E.
    unfold bind in H.
    destruct (insertOutbound _ d) as [d2 [e|[]]] eqn:Ei; [discriminate|].
    apply insertOutbound_ok in Ei. destruct Ei as [-> Hnew].
    apply (IH _ _ _ _ H). simpl. now apply nodup_keys_snoc.
Qed.

Lemma post_projects_keys id body d :
  flag_keys_unique d -> flag_keys_unique (fst (post_projects id body d)).
Proof.
  intros [HB HO]. unfold post_projects, db_transaction.
  match goal with |- context [bind ?m ?k d] => destruct (bind m k d) as [d1 [e|[]]] eqn:E end;
    [now split|].
  simpl. unfold bind in E.
  destruct (insertProject _ d) as [dP [e|[]]] eqn:EP; [discriminate|].
  apply insertProject_ok in EP. subst dP.
  destruct (for_of _ _ _) as [dS [e|[]]] eqn:ES in E; [discriminate|].
  apply for_of_insertStaff_ok in ES. subst dS.
  destruct (for_of _ _ _) as [dB [e|[]]] eqn:EB in E; [discriminate|].
  pose proof (for_of_insertBilling_keys _ _ _ _ EB HB) as HB'.
  apply for_of_insertBilling_ok in EB. destruct EB as [EB _].
  pose proof (for_of_insertOutbound_keys _ _ _ _ E) as HO'.
  apply for_of_insertOutbound_ok in E. destruct E as [-> _].
  subst dB. split; simpl in *; auto.
Qed.

Lemma put_project_keys fresh id body d :
  flag_keys_unique d -> flag_keys_unique (fst (put_project fresh id body d)).
Proof.
  intros [HB HO]. unfold put_project, db_transaction.
  destruct (put_project_fn fresh id body d) as [d1 [e|n]] eqn:E; [now split|].
  simpl. revert E.
  unfold put_project_fn, bind, update_project, deleteStaff; cbn [fst snd].
  destruct (put_staff_loop _ _ _ _ _) as [dA [e|n1]] eqn:EA; [discriminate|].
  apply put_staff_loop_ok in EA. destruct EA as [-> ->].
  unfold deleteBilling.
  destruct (put_billing_loop _ _ _ _ _) as [dB [e|n2]] eqn:EB; [discriminate|].
  pose proof (put_billing_loop_keys _ _ _ _ _ _ _ EB) as HB'.
  apply put_billing_loop_ok in EB. destruct EB as [-> ->].
  unfold deleteOutbound. intros E.
  pose proof (put_outbound_loop_keys _ _ _ _ _ _ _ E) as HO'.
  apply put_outbound_loop_ok in E. destruct E as [-> _].
  simpl in *. split.
  - apply HB'. now apply nodup_keys_delete.
  - apply HO'. now apply nodup_keys_delete.
Qed.

(** Every request keeps the primary keys of the flagged tables unique. *)
Lemma handle_keys_unique r d :
  flag_keys_unique d -> flag_keys_unique (fst (handle r d)).
Proof.
  intros Hk. pose proof Hk as [HB HO].
  assert (forall d', same_core d d' -> flag_keys_unique d') as Hsame.
  { intros d' (_ & EB & EO). unfold flag_keys_unique. now rewrite EB, EO. }
  destruct r; simpl.
  - now rewrite post_login_store.
  - exact Hk.
  - now apply post_projects_keys.
  - now rewrite get_project_store.
  - rewrite patch_project_run. exact Hk.
  - rewrite patch_billing_item_run. split; simpl; [|exact HO].
    rewrite keys_update_where; [exact HB|]. intros b. unfold patch_bill.
    now destruct (Req.isBilled body), (Req.isPaid body).
  - rewrite patch_outbound_payment_run. split; simpl; [exact HB|].
    rewrite keys_update_where; [exact HO|]. intros b. now destruct isPaid.
  - now apply put_project_keys.
  - destruct (delete_project_core id d) as (_ & [EB | EB] & [EO | EO]);
      unfold flag_keys_unique; rewrite EB, EO;
      auto using nodup_keys_delete.
  - apply Hsame, post_file_core.
  - apply Hsame, delete_file_core.
  - exact Hk.
  - apply Hsame, post_users_core.
  - apply Hsame, put_users_core.
  - exact Hk.
Qed.

(** The keys are unique in every store the server can reach. *)
Lemma reachable_keys_unique rs :
  forall d, flag_keys_unique d -> flag_keys_unique (serve rs d).
Proof.
  induction rs as [|r rest IH]; intros d Hk; simpl; auto using handle_keys_unique.
Qed.

Lemma initial_keys_unique : flag_keys_unique initial_db.
Proof. split; constructor. Qed.

(** *** The identifiers of the rows a full replace inserts *)

Lemma distinct_step {R} (key : R -> string) (t : list R) (r0 : R) (rows : list R) :
  existsb (fun x => key x =? key r0) t = false ->
  NoDup (map key rows) ->
  (forall r, In r rows -> existsb (fun x => key x =? key r) (t ++ [r0]) = false) ->
  NoDup (map key (r0 :: rows))
  /\ forall r, In r (r0 :: rows) -> existsb (fun x => key x =? key r) t = false.
Proof.
  intros Hnew Hnd Hrest. split.
  - simpl. constructor; [|exact Hnd].
    intros Hin. apply in_map_iff in Hin. destruct Hin as (r & Hk & Hr).
    specialize (Hrest r Hr). rewrite existsb_app in Hrest.
    apply orb_false_iff in Hrest. destruct Hrest as [_ Hlast].
    simpl in Hlast. rewrite Hk, String.eqb_refl in Hlast. discriminate.
  - intros r [<-|Hr]; [exact Hnew|].
    specialize (Hrest r Hr). rewrite existsb_app in Hrest.
    now apply orb_false_iff in Hrest.
Qed.

Lemma put_staff_loop_distinct fresh projectId l :
  forall n d d1 n1,
    put_staff_loop fresh n projectId l d = (d1, inr n1) ->
    NoDup (map ConstructionStaff.id (staff_rows fresh n projectId l))
    /\ forall r, In r (staff_rows fresh n projectId l) ->
                 existsb (fun x => ConstructionStaff.id x =? ConstructionStaff.id r)
                         (construction_staff d) = false.
Proof.
  induction l as [|s rest IH]; intros n d d1 n1 H; simpl in *.
  - split; [constructor | tauto].
  - destruct (or_fresh fresh n (Req.staff_id s)) as [i n'] eqn:E.
    unfold bind in H.
    destruct (insertStaff _ d) as [d2 [e|[]]] eqn:Ei; [discriminate|].
    apply insertStaff_ok in Ei. destruct Ei as [-> Hnew].
    apply IH in H. destruct H as [Hnd Hrest]. simpl in *.
    exact (distinct_step ConstructionStaff.id (construction_staff d)
             {| ConstructionStaff.id := i;
                ConstructionStaff.projectId := projectId;
                ConstructionStaff.cols := Req.staff_cols s |} _ Hnew Hnd Hrest).
Qed.

Lemma put_billing_loop_distinct fresh projectId l :
  forall n d d1 n1,
    put_billing_loop fresh n projectId l d = (d1, inr n1) ->
    NoDup (map BillingItem.id (billing_rows fresh n projectId l))
    /\ forall r, In r (billing_rows fresh n projectId l) ->
                 existsb (fun x => BillingItem.id x =? BillingItem.id r)
                         (billing_items d) = false.
Proof.
  induction l as [|s rest IH]; intros n d d1 n1 H; simpl in *.
  - split; [constructor | tauto].
  - destruct (or_fresh fresh n (Req.bill_id s)) as [i n'] eqn:E.
    unfold bind in H.
    destruct (insertBilling _ d) as [d2 [e|[]]] eqn:Ei; [discriminate|].
    apply insertBilling_ok in Ei. destruct Ei as [-> Hnew].
    apply IH in H. destruct H as [Hnd Hrest]. simpl in *.
    rewrite !bool_ite in Hrest.
    exact (distinct_step BillingItem.id (billing_items d)
             {| BillingItem.id := i; BillingItem.projectId := projectId;
                BillingItem.cols := Req.bill_cols s;
                BillingItem.isBilled := Req.bill_isBilled s;
                BillingItem.isPaid := Req.bill_isPaid s |}
             _ Hnew Hnd Hrest).
Qed.

Lemma put_outbound_loop_distinct fresh projectId l :
  forall n d d1 n1,
    put_outbound_loop fresh n projectId l d = (d1, inr n1) ->
    NoDup (map OutboundPayment.id (outbound_rows fresh n projectId l))
    /\ forall r, In r (outbound_rows fresh n projectId l) ->
                 existsb (fun x => OutboundPayment.id x =? OutboundPayment.id r)
                         (outbound_payments d) = false.
Proof.
  induction l as [|s rest IH]; intros n d d1 n1 H; simpl in *.
  - split; [constructor | tauto].
  - destruct (or_fresh fresh n (Req.payment_id s)) as [i n'] eqn:E.
    unfold bind in H.
    destruct (insertOutbound _ d) as [d2 [e|[]]] eqn:Ei; [discriminate|].
    apply insertOutbound_ok in Ei. destruct Ei as [-> Hnew].
    apply IH in H. destruct H as [Hnd Hrest]. simpl in *.
    rewrite bool_ite in Hrest.
    exact (distinct_step OutboundPayment.id (outbound_payments d)
             {| OutboundPayment.id := i; OutboundPayment.projectId := projectId;
                OutboundPayment.cols := Req.payment_cols s;
                OutboundPayment.isPaid := Req.payment_isPaid s |}
             _ Hnew Hnd Hrest).
Qed.

(** When a full replace succeeds, the children now stored for the project
    carry pairwise distinct ids: an identifier drawn for a row that lacked
    one repeats neither a supplied id nor another drawn one. *)
Lemma put_children_ids_distinct fresh id body d d' :
  put_project fresh id body d = (d', Json 200 Success) ->
  NoDup (map ConstructionStaff.id (staff_of id d'))
  /\ NoDup (map BillingItem.id (billing_of id d'))
  /\ NoDup (map OutboundPayment.id (outbound_of id d')).
Proof.
  intros H. pose proof (put_project_success _ _ _ _ _ H) as ->.
  unfold staff_of, billing_of, outbound_of, put_project_result; simpl.
  rewrite !select_after_replace
    by (apply staff_rows_projectId || apply billing_rows_projectId
        || apply outbound_rows_projectId).
  revert H. unfold put_project, db_transaction.
  destruct (put_project_fn fresh id body d) as [d1 [e|n]] eqn:E; [discriminate|].
  intros _. revert E.
  unfold put_project_fn, bind, update_project, deleteStaff; cbn [fst snd].
  destruct (put_staff_loop _ _ _ _ _) as [dA [e|n1]] eqn:EA; [discriminate|].
  pose proof (put_staff_loop_distinct _ _ _ _ _ _ _ EA) as [HS _].
  apply put_staff_loop_ok in EA. destruct EA as [-> ->].
  unfold deleteBilling.
  destruct (put_billing_loop _ _ _ _ _) as [dB [e|n2]] eqn:EB; [discriminate|].
  pose proof (put_billing_loop_distinct _ _ _ _ _ _ _ EB) as [HB _].
  apply put_billing_loop_ok in EB. destruct EB as [-> ->].
  unfold deleteOutbound. intros E.
  pose proof (put_outbound_loop_distinct _ _ _ _ _ _ _ E) as [HO _].
  auto.
Qed.

(** * Further properties of the handlers *)

(** ** What a successful transaction has checked *)

Lemma insertStaff_fk r d d1 :
  insertStaff r d = (d1, inr tt) ->
  project_exists (ConstructionStaff.projectId r) d = true.
Proof.
  unfold insertStaff.
  destruct (existsb _ (construction_staff d)); [discriminate|].
  destruct (project_exists _ d); [reflexivity | discriminate].
Qed.

Lemma insertBilling_fk r d d1 :
  insertBilling r d = (d1, inr tt) ->
  project_exists (BillingItem.projectId r) d = true.
Proof.
  unfold insertBilling.
  destruct (existsb _ (billing_items d)); [discriminate|].
  destruct (project_exists _ d); [reflexivity | discriminate].
Qed.

Lemma insertOutbound_fk r d d1 :
  insertOutbound r d = (d1, inr tt) ->
  project_exists (OutboundPayment.projectId r) d = true.
Proof.
  unfold insertOutbound.
  destruct (existsb _ (outbound_payments d)); [discriminate|].
  destruct (project_exists _ d); [reflexivity | discriminate].
Qed.

Lemma insertProject_new r d d1 :
  insertProject r d = (d1, inr tt) ->
  project_exists (Project.id r) d = false.
Proof.
  unfold insertProject, project_exists.
  destruct (existsb _ (projects d)); [discriminate | reflexivity].
Qed.

(** A put loop that returns after inserting at least one row has found the
    project stored. *)
Lemma put_staff_loop_fk fresh projectId l n d d1 n1 :
  put_staff_loop fresh n projectId l d = (d1, inr n1) ->
  l <> [] -> project_exists projectId d = true.
Proof.
  destruct l as [|s rest]; [congruence|]. intros H _. simpl in H.
  destruct (or_fresh fresh n (Req.staff_id s)) as [i n'].
  unfold bind in H.
  destruct (insertStaff _ d) as [d2 [e|[]]] eqn:Ei; [discriminate|].
  now apply insertStaff_fk in Ei.
Qed.

Lemma put_billing_loop_fk fresh projectId l n d d1 n1 :
  put_billing_loop fresh n projectId l d = (d1, inr n1) ->
  l <> [] -> project_exists projectId d = true.
Proof.
  destruct l as [|s rest]; [congruence|]. intros H _. simpl in H.
  destruct (or_fresh fresh n (Req.bill_id s)) as [i n'].
  unfold bind in H.
  destruct (insertBilling _ d) as [d2 [e|[]]] eqn:Ei; [discriminate|].
  now apply insertBilling_fk in Ei.
Qed.

Lemma put_outbound_loop_fk fresh projectId l n d d1 n1 :
  put_outbound_loop fresh n projectId l d = (d1, inr n1) ->
  l <> [] -> project_exists projectId d = true.
Proof.
  destruct l as [|s rest]; [congruence|]. intros H _. simpl in H.
  destruct (or_fresh fresh n (Req.payment_id s)) as [i n'].
  unfold bind in H.
  destruct (insertOutbound _ d) as [d2 [e|[]]] eqn:Ei; [discriminate|].
  now apply insertOutbound_fk in Ei.
Qed.

(** [UPDATE projects] keeps the ids, hence the parent keys. *)
Lemma existsb_id_update id c g ps :
  existsb (fun p => Project.id p =? id) (update_where c (Project.update_cols g) ps)
  = existsb (fun p => Project.id p =? id) ps.
Proof.
  unfold update_where. induction ps as [|p ps IH]; simpl; [reflexivity|].
  rewrite IH. now destruct (c p).
Qed.

(** Everything a full replace that returned has established: the store it
    leaves, the project found whenever a row was inserted, and the ids of
    the inserted rows distinct from one another and from the rows that
    stayed. *)
Lemma put_project_fn_facts fresh id body d d1 n :
  put_project_fn fresh id body d = (d1, inr n) ->
  let staff := array_or_empty (Req.constructionStaff body) in
  let billing := array_or_empty (Req.billingItems body) in
  let outbound := array_or_empty (Req.outboundPayments body) in
  let n1 := drawn fresh 0 (map (@Req.staff_id _) staff) in
  let n2 := drawn fresh n1 (map (@Req.bill_id _) billing) in
  d1 = put_project_result fresh id body d
  /\ (staff <> [] \/ billing <> [] \/ outbound <> [] -> project_exists id d = true)
  /\ (NoDup (map ConstructionStaff.id (staff_rows fresh 0 id staff))
      /\ forall r, In r (staff_rows fresh 0 id staff) ->
           existsb (fun x => ConstructionStaff.id x =? ConstructionStaff.id r)
             (delete_where (fun x => ConstructionStaff.projectId x =? id)
                           (construction_staff d)) = false)
  /\ (NoDup (map BillingItem.id (billing_rows fresh n1 id billing))
      /\ forall r, In r (billing_rows fresh n1 id billing) ->
           existsb (fun x => BillingItem.id x =? BillingItem.id r)
             (delete_where (fun x => BillingItem.projectId x =? id)
                           (billing_items d)) = false)
  /\ (NoDup (map OutboundPayment.id (outbound_rows fresh n2 id outbound))
      /\ forall r, In r (outbound_rows fresh n2 id outbound) ->
           existsb (fun x => OutboundPayment.id x =? OutboundPayment.id r)
             (delete_where (fun x => OutboundPayment.projectId x =? id)
                           (outbound_payments d)) = false).
Proof.
  intros H staff billing outbound n1 n2.
  split; [exact (put_project_fn_ok _ _ _ _ _ _ H)|].
  revert H.
  unfold put_project_fn, bind, update_project, deleteStaff; cbn [fst snd].
  fold staff billing outbound.
  destruct (put_staff_loop _ _ _ _ _) as [dA [e|m1]] eqn:EA; [discriminate|].
  pose proof (put_staff_loop_distinct _ _ _ _ _ _ _ EA) as HS.
  pose proof (put_staff_loop_fk _ _ _ _ _ _ _ EA) as FS.
  apply put_staff_loop_ok in EA. destruct EA as [-> ->].
  unfold deleteBilling.
  destruct (put_billing_loop _ _ _ _ _) as [dB [e|m2]] eqn:EB; [discriminate|].
  pose proof (put_billing_loop_distinct _ _ _ _ _ _ _ EB) as HB.
  pose proof (put_billing_loop_fk _ _ _ _ _ _ _ EB) as FB.
  apply put_billing_loop_ok in EB. destruct EB as [-> ->].
  unfold deleteOutbound. intros E.
  pose proof (put_outbound_loop_distinct _ _ _ _ _ _ _ E) as HO.
  pose proof (put_outbound_loop_fk _ _ _ _ _ _ _ E) as FO.
  unfold project_exists in FS, FB, FO. simpl in FS, FB, FO, HS, HB, HO.
  rewrite existsb_id_update in FS, FB, FO.
  repeat split; try (apply HS || apply HB || apply HO).
  intros [Hne|[Hne|Hne]]; auto.
Qed.

Lemma for_of_insertStaff_distinct {X} (mk : X -> ConstructionStaff.row) l :
  forall d d1,
    for_of l (fun x => insertStaff (mk x)) d = (d1, inr tt) ->
    NoDup (map ConstructionStaff.id (map mk l))
    /\ forall r, In r (map mk l) ->
                 existsb (fun x => ConstructionStaff.id x =? ConstructionStaff.id r)
                         (construction_staff d) = false.
Proof.
  induction l as [|x rest IH]; intros d d1 H; simpl in *.
  - split; [constructor | tauto].
  - unfold bind in H.
    destruct (insertStaff _ d) as [d2 [e|[]]] eqn:Ei; [discriminate|].
    apply insertStaff_ok in Ei. destruct Ei as [-> Hnew].
    apply IH in H. destruct H as [Hnd Hrest].
    exact (distinct_step ConstructionStaff.id (construction_staff d) (mk x) _
             Hnew Hnd Hrest).
Qed.

Lemma for_of_insertBilling_distinct {X} (mk : X -> BillingItem.row) l :
  forall d d1,
    for_of l (fun x => insertBilling (mk x)) d = (d1, inr tt) ->
    NoDup (map BillingItem.id (map mk l))
    /\ forall r, In r (map mk l) ->
                 existsb (fun x => BillingItem.id x =? BillingItem.id r)
                         (billing_items d) = false.
Proof.
  induction l as [|x rest IH]; intros d d1 H; simpl in *.
  - split; [constructor | tauto].
  - unfold bind in H.
    destruct (insertBilling _ d) as [d2 [e|[]]] eqn:Ei; [discriminate|].
    apply insertBilling_ok in Ei. destruct Ei as [-> Hnew].
    apply IH in H. destruct H as [Hnd Hrest].
    exact (distinct_step BillingItem.id (billing_items d) (mk x) _
             Hnew Hnd Hrest).
Qed.

Lemma for_of_insertOutbound_distinct {X} (mk : X -> OutboundPayment.row) l :
  forall d d1,
    for_of l (fun x => insertOutbound (mk x)) d = (d1, inr tt) ->
    NoDup (map OutboundPayment.id (map mk l))
    /\ forall r, In r (map mk l) ->
                 existsb (fun x => OutboundPayment.id x =? OutboundPayment.id r)
                         (outbound_payments d) = false.
Proof.
  induction l as [|x rest IH]; intros d d1 H; simpl in *.
  - split; [constructor | tauto].
  - unfold bind in H.
    destruct (insertOutbound _ d) as [d2 [e|[]]] eqn:Ei; [discriminate|].
    apply insertOutbound_ok in Ei. destruct Ei as [-> Hnew].
    apply IH in H. destruct H as [Hnd Hrest].
    exact (distinct_step OutboundPayment.id (outbound_payments d) (mk x) _
             Hnew Hnd Hrest).
Qed.

(** The two ways POST /api/projects ends, with what a success has
    checked: the id was not stored, and the ids of the new child rows are
    distinct from one another and from the rows of their tables. *)
Lemma post_projects_facts id body d :
  (post_projects id body d = (post_projects_result id body d, Json 200 Success)
   /\ project_exists id d = false
   /\ (NoDup (map ConstructionStaff.id
                (map (post_staff_row id) (array_or_empty (Req.constructionStaff body))))
       /\ forall r, In r (map (post_staff_row id)
                              (array_or_empty (Req.constructionStaff body))) ->
            existsb (fun x => ConstructionStaff.id x =? ConstructionStaff.id r)
                    (construction_staff d) = false)
   /\ (NoDup (map BillingItem.id
                (map (post_bill_row id) (array_or_empty (Req.billingItems body))))
       /\ forall r, In r (map (post_bill_row id)
                              (array_or_empty (Req.billingItems body))) ->
            existsb (fun x => BillingItem.id x =? BillingItem.id r)
                    (billing_items d) = false)
   /\ (NoDup (map OutboundPayment.id
                (map (post_payment_row id) (array_or_empty (Req.outboundPayments body))))
       /\ forall r, In r (map (post_payment_row id)
                              (array_or_empty (Req.outboundPayments body))) ->
            existsb (fun x => OutboundPayment.id x =? OutboundPayment.id r)
                    (outbound_payments d) = false))
  \/ exists e, post_projects id body d = (d, Json 500 (Error (message e))).
Proof.
  unfold post_projects, db_transaction.
  match goal with |- context [bind ?m ?k d] => destruct (bind m k d) as [d1 [e|[]]] eqn:E end.
  - right. now exists e.
  - left. unfold bind in E.
    destruct (insertProject _ d) as [dP [e|[]]] eqn:EP; [discriminate|].
    pose proof (insertProject_new _ _ _ EP) as Hnew.
    apply insertProject_ok in EP. subst dP.
    destruct (for_of _ _ _) as [dS [e|[]]] eqn:ES in E; [discriminate|].
    pose proof (for_of_insertStaff_distinct _ _ _ _ ES) as HS.
    apply for_of_insertStaff_ok in ES. subst dS.
    destruct (for_of _ _ _) as [dB [e|[]]] eqn:EB in E; [discriminate|].
    pose proof (for_of_insertBilling_distinct _ _ _ _ EB) as HB.
    apply for_of_insertBilling_ok in EB. destruct EB as [-> _].
    pose proof (for_of_insertOutbound_distinct _ _ _ _ E) as HO.
    apply for_of_insertOutbound_ok in E. destruct E as [-> _].
    simpl in *. repeat split; try (apply HS || apply HB || apply HO); assumption.
Qed.

(** ** The handlers that write one table *)


Lemma delete_file_store id d :
  fst (delete_file id d)
  = with_files (delete_where (fun x => ProjectFile.id x =? id) (files d)) d.
Proof.
  unfold delete_file.
  destruct (select_get _ (files d)) eqn:E; [reflexivity|]. simpl.
  apply select_get_none in E. rewrite delete_where_none by exact E.
  now destruct d.
Qed.

Lemma post_users_cases body d :
  post_users body d = (d, Json 400 (Error "Email already exists"))
  \/ (post_users body d
      = (with_users (users d ++ [ {| User.id := Req.id body;
                                     User.email := Req.email body;
                                     User.password := Req.password body;
                                     User.name := Req.name body;
                                     User.role := Req.role body;
                                     User.remarks := Req.remarks body;
                                     User.isActive := true |} ]) d,
         Json 200 Success)
      /\ existsb (fun u => User.id u =? Req.id body) (users d) = false
      /\ existsb (fun u => User.email u =? Req.email body) (users d) = false).
Proof.
  unfold post_users, insertUser; simpl.
  destruct (existsb (fun u => User.id u =? Req.id body) (users d)) eqn:E1;
    [now left|].
  destruct (existsb (fun u => User.email u =? Req.email body) (users d)) eqn:E2;
    [now left|].
  right. repeat split.
Qed.


(** ** The rows of a table after a delete and an update *)

Lemma in_delete_where {R} (c : R -> bool) t x :
  In x (delete_where c t) <-> In x t /\ c x = false.
Proof.
  unfold delete_where. rewrite filter_In, negb_true_iff. tauto.
Qed.

Lemma in_update_where {R} (c : R -> bool) g t x' :
  In x' (update_where c g t) ->
  exists x, In x t /\ x' = if c x then g x else x.
Proof.
  unfold update_where. intros H. apply in_map_iff in H.
  destruct H as (x & <- & Hx). eauto.
Qed.

(** ** The progress flags *)

Lemma patch_bill_keeps_id body r :
  BillingItem.id (patch_bill body r) = BillingItem.id r.
Proof.
  unfold patch_bill. now destruct (Req.isBilled body), (Req.isPaid body).
Qed.

(** Where a billing item of the store after one request comes from: it
    was there before; or it is the row the flag patch addressed, patched;
    or it is a row a full replace inserted under its project, beside every
    item of the other projects; or it has an id the table did not hold. *)
Lemma handle_billing_rows r d b' :
  In b' (billing_items (fst (handle r d))) ->
  In b' (billing_items d)
  \/ (exists id body b,
         r = PATCH_billing_item id body /\ In b (billing_items d)
         /\ BillingItem.id b = id /\ b' = patch_bill body b)
  \/ (exists id body fresh,
         r = PUT_project id body fresh /\ BillingItem.projectId b' = id
         /\ forall b, In b (billing_items d) -> BillingItem.projectId b <> id ->
                      In b (billing_items (fst (handle r d))))
  \/ existsb (fun x => BillingItem.id x =? BillingItem.id b') (billing_items d)
     = false.
Proof.
  intros H. destruct r; simpl in *.
  - rewrite post_login_store in H. auto.
  - auto.
  - destruct (post_projects_cases id body d) as [(E & HB & _)|[e E]];
      rewrite E in H; simpl in H; [|auto].
    apply in_app_or in H. destruct H as [H|H]; [auto|].
    right; right; right. now apply HB.
  - rewrite get_project_store in H. auto.
  - rewrite patch_project_run in H. auto.
  - rewrite patch_billing_item_run in H. simpl in H.
    apply in_update_where in H. destruct H as (b & Hb & ->).
    destruct (BillingItem.id b =? id) eqn:E; [|auto].
    right; left. exists id, body, b. apply String.eqb_eq in E. auto.
  - rewrite patch_outbound_payment_run in H. auto.
  - destruct (put_project_cases fresh id body d) as [E|[e E]]; rewrite E in *;
      simpl in *; [|auto].
    apply in_app_or in H. destruct H as [H|H].
    + apply in_delete_where in H. left; tauto.
    + right; right; left. exists id, body, fresh.
      split; [reflexivity|]. split.
      * apply String.eqb_eq. eapply billing_rows_projectId; eauto.
      * intros b Hb Hne. apply in_or_app. left. apply in_delete_where.
        split; [exact Hb | now apply String.eqb_neq].
  - destruct (delete_project_core id d) as (_ & [EB|EB] & _); rewrite EB in H;
      [apply in_delete_where in H; tauto | auto].
  - rewrite (proj1 (proj2 (post_file_core projectId file now d))) in H. auto.
  - rewrite (proj1 (proj2 (delete_file_core id d))) in H. auto.
  - auto.
  - rewrite (proj1 (proj2 (post_users_core body d))) in H. auto.
  - rewrite (proj1 (proj2 (put_users_core id body d))) in H. auto.
  - auto.
Qed.

(** The same for the outbound payments. *)
Lemma handle_outbound_rows r d b' :
  In b' (outbound_payments (fst (handle r d))) ->
  In b' (outbound_payments d)
  \/ (exists id isPaid b,
         r = PATCH_outbound_payment id isPaid /\ In b (outbound_payments d)
         /\ OutboundPayment.id b = id
         /\ b' = match isPaid with
                 | Some v => OutboundPayment.set_isPaid v b
                 | None => b
                 end)
  \/ (exists id body fresh,
         r = PUT_project id body fresh /\ OutboundPayment.projectId b' = id
         /\ forall b, In b (outbound_payments d) ->
                      OutboundPayment.projectId b <> id ->
                      In b (outbound_payments (fst (handle r d))))
  \/ existsb (fun x => OutboundPayment.id x =? OutboundPayment.id b')
             (outbound_payments d) = false.
Proof.
  intros H. destruct r; simpl in *.
  - rewrite post_login_store in H. auto.
  - auto.
  - destruct (post_projects_cases id body d) as [(E & _ & HO)|[e E]];
      rewrite E in H; simpl in H; [|auto].
    apply in_app_or in H. destruct H as [H|H]; [auto|].
    right; right; right. now apply HO.
  - rewrite get_project_store in H. auto.
  - rewrite patch_project_run in H. auto.
  - rewrite patch_billing_item_run in H. auto.
  - rewrite patch_outbound_payment_run in H. simpl in H.
    apply in_update_where in H. destruct H as (b & Hb & ->).
    destruct (OutboundPayment.id b =? id) eqn:E; [|auto].
    right; left. exists id, isPaid, b. apply String.eqb_eq in E. auto.
  - destruct (put_project_cases fresh id body d) as [E|[e E]]; rewrite E in *;
      simpl in *; [|auto].
    apply in_app_or in H. destruct H as [H|H].
    + apply in_delete_where in H. left; tauto.
    + right; right; left. exists id, body, fresh.
      split; [reflexivity|]. split.
      * apply String.eqb_eq. eapply outbound_rows_projectId; eauto.
      * intros b Hb Hne. apply in_or_app. left. apply in_delete_where.
        split; [exact Hb | now apply String.eqb_neq].
  - destruct (delete_project_core id d) as (_ & _ & [EO|EO]); rewrite EO in H;
      [apply in_delete_where in H; tauto | auto].
  - rewrite (proj2 (proj2 (post_file_core projectId file now d))) in H. auto.
  - rewrite (proj2 (proj2 (delete_file_core id d))) in H. auto.
  - auto.
  - rewrite (proj2 (proj2 (post_users_core body d))) in H. auto.
  - rewrite (proj2 (proj2 (put_users_core id body d))) in H. auto.
  - auto.
Qed.

(** The billing item a lookup by id finds after a request that is no full
    replace of its project: the item as it was, or the item patched. *)
Lemma billing_lookup_after r d id b b' :
  flag_keys_unique d ->
  select_get (fun x => BillingItem.id x =? id) (billing_items d) = Some b ->
  select_get (fun x => BillingItem.id x =? id) (billing_items (fst (handle r d)))
  = Some b' ->
  replaces (Some (BillingItem.projectId b)) r = false ->
  b' = b \/ exists body, r = PATCH_billing_item id body /\ b' = patch_bill body b.
Proof.
  intros Hk E E' Hrep.
  pose proof (handle_keys_unique r d Hk) as [HkB' _]. destruct Hk as [HkB _].
  apply select_get_some in E, E'.
  destruct E as [Hin Hid], E' as [Hin' Hid'].
  apply String.eqb_eq in Hid, Hid'.
  destruct (handle_billing_rows r d b' Hin')
    as [H|[(id0 & body & b0 & -> & Hin0 & Hid0 & ->)
          |[(pid & body & fresh & -> & Hp & Hsurv)|Hnew]]].
  - left. apply (nodup_key_unique BillingItem.id _ HkB); congruence.
  - right. rewrite patch_bill_keeps_id in Hid'.
    assert (b0 = b) as ->
        by (apply (nodup_key_unique BillingItem.id _ HkB); congruence).
    exists body. split; congruence.
  - simpl in Hrep. apply String.eqb_neq in Hrep. left.
    apply (nodup_key_unique BillingItem.id _ HkB'); [exact Hin' | | congruence].
    now apply Hsurv.
  - apply (existsb_false_all _ _ _ Hnew) in Hin.
    rewrite Hid, Hid', String.eqb_refl in Hin. discriminate.
Qed.

Lemma outbound_lookup_after r d id b b' :
  flag_keys_unique d ->
  select_get (fun x => OutboundPayment.id x =? id) (outbound_payments d) = Some b ->
  select_get (fun x => OutboundPayment.id x =? id)
             (outbound_payments (fst (handle r d))) = Some b' ->
  replaces (Some (OutboundPayment.projectId b)) r = false ->
  b' = b
  \/ exists isPaid, r = PATCH_outbound_payment id isPaid
                    /\ b' = match isPaid with
                            | Some v => OutboundPayment.set_isPaid v b
                            | None => b
                            end.
Proof.
  intros Hk E E' Hrep.
  pose proof (handle_keys_unique r d Hk) as [_ HkO']. destruct Hk as [_ HkO].
  apply select_get_some in E, E'.
  destruct E as [Hin Hid], E' as [Hin' Hid'].
  apply String.eqb_eq in Hid, Hid'.
  destruct (handle_outbound_rows r d b' Hin')
    as [H|[(id0 & isPaid & b0 & -> & Hin0 & Hid0 & ->)
          |[(pid & body & fresh & -> & Hp & Hsurv)|Hnew]]].
  - left. apply (nodup_key_unique OutboundPayment.id _ HkO); congruence.
  - right.
    assert (OutboundPayment.id b0 = id) as Hid0'
        by (destruct isPaid; exact Hid').
    assert (b0 = b) as ->
        by (apply (nodup_key_unique OutboundPayment.id _ HkO); congruence).
    exists isPaid. split; congruence.
  - simpl in Hrep. apply String.eqb_neq in Hrep. left.
    apply (nodup_key_unique OutboundPayment.id _ HkO');
      [exact Hin' | | congruence].
    now apply Hsurv.
  - apply (existsb_false_all _ _ _ Hnew) in Hin.
    rewrite Hid, Hid', String.eqb_refl in Hin. discriminate.
Qed.

(** C4, as stated, fails: the dedicated patch writes the boolean it is
    given, so a request carrying [isBilled: false] takes the flag of B1
    from true back to false. *)
Lemma patch_can_unset_flag :
  ~ (forall (r : Request) (d : Db) (id : string),
        billed_flag id d = Some true ->
        billed_flag id (fst (handle r d)) <> Some false).
Proof.
  intros H.
  apply (H (PATCH_billing_item "B1" {| Req.isBilled := Some false; Req.isPaid := None |})
           (sample_db ProjectStatus.Billing) "B1"); reflexivity.
Qed.

(** The full replace of the project of an item unsets a flag as well: it
    stores the item with the flags of its body. *)
Example put_can_unset_flag :
  let body := put_body (sample_cols ProjectStatus.Billing) []
                [ {| Req.bill_id := Some "B1"; Req.bill_cols := sample_bill_cols;
                     Req.bill_isBilled := false; Req.bill_isPaid := false |} ] [] in
  let d := sample_db ProjectStatus.Billing in
  billed_flag "B1" d = Some true
  /\ billed_flag "B1" (fst (handle (PUT_project "P1" body sample_fresh) d))
     = Some false.
Proof. split; reflexivity. Qed.

(** C4, amended. The dedicated patches write the boolean they are given:
    the flag of a stored item takes the value of the body where the body
    defines one and keeps its own where it does not.  With the primary
    keys of the two tables unique, a flag that is true is not false after
    any single request other than the patch addressed to that very item
    that supplies [false] for that very flag, and the full replace of the
    item's own project: this covers the billed and paid flags of billing
    items and the paid flag of outbound payments. *)
Theorem flags_stay_true :
  forall (d : Db) (id : string),
    (forall body,
        let d' := fst (handle (PATCH_billing_item id body) d) in
        billed_flag id d' = option_map (or_else (Req.isBilled body)) (billed_flag id d)
        /\ paid_flag id d' = option_map (or_else (Req.isPaid body)) (paid_flag id d))
    /\ (forall isPaid,
           outbound_paid_flag id (fst (handle (PATCH_outbound_payment id isPaid) d))
           = option_map (or_else isPaid) (outbound_paid_flag id d))
    /\ (flag_keys_unique d ->
        forall r : Request,
          (billed_flag id d = Some true -> unsets_billed id d r = false ->
           billed_flag id (fst (handle r d)) <> Some false)
          /\ (paid_flag id d = Some true -> unsets_paid id d r = false ->
              paid_flag id (fst (handle r d)) <> Some false)
          /\ (outbound_paid_flag id d = Some true ->
              unsets_outbound_paid id d r = false ->
              outbound_paid_flag id (fst (handle r d)) <> Some false)).
Proof.
  intros d id. split; [|split].
  - intros body d'. subst d'. simpl. rewrite patch_billing_item_run.
    unfold billed_flag, paid_flag. cbn [fst billing_items with_billing_items].
    rewrite select_get_update
      by (intros x; now rewrite patch_bill_keeps_id).
    destruct (select_get _ (billing_items d)) as [b|] eqn:E; simpl; [|tauto].
    apply select_get_some in E. destruct E as [_ E]. rewrite E.
    unfold patch_bill.
    now destruct (Req.isBilled body), (Req.isPaid body).
  - intros isPaid. simpl. rewrite patch_outbound_payment_run.
    unfold outbound_paid_flag. cbn [fst outbound_payments with_outbound_payments].
    rewrite select_get_update by (intros x; now destruct isPaid).
    destruct (select_get _ (outbound_payments d)) as [b|] eqn:E; simpl;
      [|reflexivity].
    apply select_get_some in E. destruct E as [_ E]. rewrite E.
    now destruct isPaid.
  - intros Hk r.
    unfold billed_flag, paid_flag, outbound_paid_flag,
      unsets_billed, unsets_paid, unsets_outbound_paid,
      billing_project, outbound_project.
    repeat split; intros Htrue Hun Hfalse.
    all: destruct (select_get _ _) as [b|] eqn:E in Htrue; [|discriminate];
         rewrite E in Hun;
         destruct (select_get _ _) as [b'|] eqn:E' in Hfalse; [|discriminate];
         simpl in Htrue, Hfalse, Hun;
         injection Htrue as Htrue; injection Hfalse as Hfalse.
    + assert (replaces (Some (BillingItem.projectId b)) r = false) as Hrep
          by (destruct r; try reflexivity; exact Hun).
      destruct (billing_lookup_after r d id b b' Hk E E' Hrep)
        as [->|(body & -> & ->)]; [congruence|].
      rewrite String.eqb_refl in Hun. unfold patch_bill in Hfalse.
      destruct (Req.isBilled body) as [[|]|], (Req.isPaid body) as [[|]|];
        simpl in *; congruence.
    + assert (replaces (Some (BillingItem.projectId b)) r = false) as Hrep
          by (destruct r; try reflexivity; exact Hun).
      destruct (billing_lookup_after r d id b b' Hk E E' Hrep)
        as [->|(body & -> & ->)]; [congruence|].
      rewrite String.eqb_refl in Hun. unfold patch_bill in Hfalse.
      destruct (Req.isBilled body) as [[|]|], (Req.isPaid body) as [[|]|];
        simpl in *; congruence.
    + assert (replaces (Some (OutboundPayment.projectId b)) r = false) as Hrep
          by (destruct r; try reflexivity; exact Hun).
      destruct (outbound_lookup_after r d id b b' Hk E E' Hrep)
        as [->|(isPaid & -> & ->)]; [congruence|].
      rewrite String.eqb_refl in Hun.
      destruct isPaid as [[|]|]; simpl in *; congruence.
Qed.

(** A patch of B2 that carries [isBilled: false], and a patch of B1 that
    unsets its paid flag, leave the billed flag of B1 set; the patch of B1
    with [isPaid: true] sets the paid flag. *)
Lemma flags_stay_true_witness :
  let d := sample_db ProjectStatus.Billing in
  let other := PATCH_billing_item "B2" {| Req.isBilled := Some false;
                                          Req.isPaid := None |} in
  let paid := {| Req.isBilled := None; Req.isPaid := Some true |} in
  flag_keys_unique d
  /\ billed_flag "B1" d = Some true
  /\ unsets_billed "B1" d other = false
  /\ billed_flag "B1" (fst (handle other d)) <> Some false
  /\ paid_flag "B1" (fst (handle (PATCH_billing_item "B1" paid) d)) = Some true.
Proof.
  intros d other paid.
  assert (flag_keys_unique d) as Hk.
  { split; simpl; repeat constructor; simpl;
      intros H; decompose [or] H; try discriminate; assumption. }
  split; [exact Hk|]. split; [reflexivity|]. split; [reflexivity|]. split.
  - apply (proj1 (proj2 (proj2 (flags_stay_true d "B1")) Hk other));
      reflexivity.
  - apply (proj2 (proj1 (flags_stay_true d "B1") paid)).
Defined.

(** ** Referential integrity *)

Lemma references_ok_iff d :
  references_ok d = true <->
  (forall x, In x (construction_staff d) ->
             project_exists (ConstructionStaff.projectId x) d = true)
  /\ (forall x, In x (billing_items d) ->
                project_exists (BillingItem.projectId x) d = true)
  /\ (forall x, In x (outbound_payments d) ->
                project_exists (OutboundPayment.projectId x) d = true)
  /\ (forall x, In x (files d) ->
                project_exists (ProjectFile.projectId x) d = true).
Proof.
  unfold references_ok. rewrite !andb_true_iff, !forallb_forall. tauto.
Qed.

Lemma delete_project_store id d :
  fst (delete_project id d)
  = if project_exists id d then
      {| users := users d;
         projects := delete_where (fun p => Project.id p =? id) (projects d);
         construction_staff :=
           delete_where (fun x => ConstructionStaff.projectId x =? id)
                        (construction_staff d);
         billing_items :=
           delete_where (fun x => BillingItem.projectId x =? id) (billing_items d);
         outbound_payments :=
           delete_where (fun x => OutboundPayment.projectId x =? id)
                        (outbound_payments d);
         files := delete_where (fun x => ProjectFile.projectId x =? id) (files d) |}
    else d.
Proof.
  unfold delete_project, reply_success, delete_project_row.
  now destruct (project_exists id d).
Qed.






(** ** Primary keys and the unique email *)





(** ** POST /api/projects *)

(** X3. POST /api/projects is all or nothing: it answers success, or it
    answers 500 with the message of the error and leaves the store exactly
    as it found it. *)
Theorem post_projects_all_or_nothing :
  forall (id : string) (body : Req.project string) (d : Db),
    post_projects id body d = (post_projects_result id body d, Json 200 Success)
    \/ exists e, post_projects id body d = (d, Json 500 (Error (message e))).
Proof.
  intros id body d.
  destruct (post_projects_facts id body d) as [(E & _)|[e E]]; [now left|].
  right. now exists e.
Qed.

(** X4. A POST whose id is already stored never overwrites: it answers
    500 with the primary-key message and the stored project, like the rest
    of the store, is untouched. *)
Theorem post_projects_existing_id :
  forall (id : string) (body : Req.project string) (d : Db),
    project_exists id d = true ->
    post_projects id body d
    = (d, Json 500 (Error "UNIQUE constraint failed: projects.id")).
Proof.
  intros id body d Hex.
  unfold post_projects, db_transaction, bind, insertProject.
  unfold project_exists in Hex. simpl. now rewrite Hex.
Qed.

Lemma post_projects_existing_id_witness :
  let body := {| Req.cols := sample_cols ProjectStatus.Estimate;
                 Req.constructionStaff := None; Req.billingItems := None;
                 Req.outboundPayments := None |} in
  project_exists "P1" (sample_db ProjectStatus.Billing) = true
  /\ post_projects "P1" body (sample_db ProjectStatus.Billing)
     = (sample_db ProjectStatus.Billing,
        Json 500 (Error "UNIQUE constraint failed: projects.id")).
Proof.
  intros body. split; [reflexivity|].
  apply (post_projects_existing_id "P1" body (sample_db ProjectStatus.Billing)).
  reflexivity.
Defined.

Lemma select_get_app_new {R} (c : R -> bool) t r :
  existsb c t = false -> c r = true -> select_get c (t ++ [r]) = Some r.
Proof.
  intros Hnone Hr. unfold select_get. rewrite filter_app.
  rewrite (filter_none _ c t (existsb_false_all _ _ _ Hnone)). simpl. now rewrite Hr.
Qed.

Lemma select_all_app_new {R} (c : R -> bool) t rows :
  (forall x, In x t -> c x = false) ->
  (forall x, In x rows -> c x = true) ->
  select_all c (t ++ rows) = rows.
Proof.
  intros Hold Hnew. unfold select_all. rewrite filter_app.
  rewrite (filter_none _ c t Hold). simpl. now apply filter_all.
Qed.

(** No child row names a project that is not stored. *)
Lemma no_children_of_missing id d :
  references_ok d = true ->
  project_exists id d = false ->
  (forall x, In x (construction_staff d) ->
             (ConstructionStaff.projectId x =? id) = false)
  /\ (forall x, In x (billing_items d) -> (BillingItem.projectId x =? id) = false)
  /\ (forall x, In x (outbound_payments d) ->
                (OutboundPayment.projectId x =? id) = false)
  /\ (forall x, In x (files d) -> (ProjectFile.projectId x =? id) = false).
Proof.
  intros Hrefs Hno. apply references_ok_iff in Hrefs.
  destruct Hrefs as (HS & HB & HO & HF).
  repeat split; intros x Hx; apply String.eqb_neq; intros E;
    [apply HS in Hx | apply HB in Hx | apply HO in Hx | apply HF in Hx];
    rewrite E in Hx; congruence.
Qed.

(** X5. Create, then fetch: after a POST that answered success on a store
    without orphan rows, GET /api/projects/:id answers 200 with the columns
    of the body, the children of the body in order, every billed and paid
    flag false whatever the body said, and no file. *)
Theorem post_then_get :
  forall (id : string) (body : Req.project string) (d d' : Db),
    references_ok d = true ->
    post_projects id body d = (d', Json 200 Success) ->
    snd (get_project id d')
    = Json 200 (ProjectBody
        {| json_project := {| Project.id := id; Project.cols := Req.cols body;
                              Project.paymentMethod := None |};
           json_constructionStaff :=
             map (post_staff_row id) (array_or_empty (Req.constructionStaff body));
           json_billingItems :=
             map (post_bill_row id) (array_or_empty (Req.billingItems body));
           json_outboundPayments :=
             map (post_payment_row id) (array_or_empty (Req.outboundPayments body));
           json_files := Some [] |}).
Proof.
  intros id body d d' Hrefs H.
  destruct (post_projects_facts id body d) as [(E & Hnew & _)|[e E]];
    rewrite E in H; [|discriminate].
  injection H as <-.
  destruct (no_children_of_missing id d Hrefs Hnew) as (HS & HB & HO & HF).
  unfold get_project, post_projects_result; simpl.
  rewrite select_get_app_new;
    [|exact Hnew | apply String.eqb_refl].
  unfold staff_of, billing_of, outbound_of, files_of; simpl.
  rewrite !select_all_app_new; auto;
    try (intros x Hx; apply in_map_iff in Hx; destruct Hx as (y & <- & _);
         apply String.eqb_refl).
  unfold select_all. now rewrite (filter_none _ _ _ HF).
Qed.

Lemma post_then_get_witness :
  let body := {| Req.cols := sample_cols ProjectStatus.Estimate;
                 Req.constructionStaff := None;
                 Req.billingItems :=
                   Some [ {| Req.bill_id := "B7"; Req.bill_cols := sample_bill_cols;
                             Req.bill_isBilled := true; Req.bill_isPaid := true |} ];
                 Req.outboundPayments := None |} in
  let d' := fst (post_projects "P2" body (sample_db ProjectStatus.Billing)) in
  references_ok (sample_db ProjectStatus.Billing) = true
  /\ snd (get_project "P2" d')
     = Json 200 (ProjectBody
         {| json_project := sample_project "P2" ProjectStatus.Estimate;
            json_constructionStaff := [];
            json_billingItems := [sample_bill "B7" "P2" false false];
            json_outboundPayments := [];
            json_files := Some [] |}).
Proof.
  intros body d'. split; [reflexivity|].
  apply (post_then_get "P2" body (sample_db ProjectStatus.Billing) d');
    reflexivity.
Defined.

(** ** What a write leaves alone *)

Lemma select_other_delete {R} (key : R -> string) id id' t :
  id' <> id ->
  select_all (fun x => key x =? id') (delete_where (fun x => key x =? id) t)
  = select_all (fun x => key x =? id') t.
Proof.
  intros Hne. unfold select_all, delete_where.
  induction t as [|x t IH]; simpl; [reflexivity|].
  destruct (key x =? id) eqn:E; simpl; rewrite IH; [|reflexivity].
  apply String.eqb_eq in E. rewrite E.
  apply String.eqb_neq in Hne. rewrite String.eqb_sym in Hne. now rewrite Hne.
Qed.

Lemma select_get_other_delete {R} (key : R -> string) id id' t :
  id' <> id ->
  select_get (fun x => key x =? id') (delete_where (fun x => key x =? id) t)
  = select_get (fun x => key x =? id') t.
Proof.
  intros Hne. unfold select_get.
  fold (select_all (fun x => key x =? id') (delete_where (fun x => key x =? id) t)).
  now rewrite select_other_delete.
Qed.

(** An UPDATE keyed on one id leaves the row of another id as it is. *)
Lemma select_get_other_update id id' g ps :
  id' <> id ->
  select_get (fun p => Project.id p =? id')
             (update_where (fun p => Project.id p =? id) (Project.update_cols g) ps)
  = select_get (fun p => Project.id p =? id') ps.
Proof.
  intros Hne. rewrite select_get_update by reflexivity.
  destruct (select_get _ ps) as [p|] eqn:E; [|reflexivity]. simpl.
  apply select_get_some in E. destruct E as [_ E]. apply String.eqb_eq in E.
  rewrite E. apply String.eqb_neq in Hne. now rewrite Hne.
Qed.

Lemma select_other_app {R} (key : R -> string) id id' t rows :
  id' <> id ->
  (forall x, In x rows -> (key x =? id) = true) ->
  select_all (fun x => key x =? id') (t ++ rows)
  = select_all (fun x => key x =? id') t.
Proof.
  intros Hne Hrows. unfold select_all. rewrite filter_app.
  rewrite (filter_none _ _ rows); [apply app_nil_r|].
  intros x Hx. apply Hrows in Hx. apply String.eqb_eq in Hx. rewrite Hx.
  apply String.eqb_neq. congruence.
Qed.

(** A fetch answers from the project row, the three child selections and
    the file selection. *)
Lemma get_project_same id d d' :
  select_get (fun p => Project.id p =? id) (projects d')
  = select_get (fun p => Project.id p =? id) (projects d) ->
  staff_of id d' = staff_of id d ->
  billing_of id d' = billing_of id d ->
  outbound_of id d' = outbound_of id d ->
  files_of id d' = files_of id d ->
  snd (get_project id d') = snd (get_project id d).
Proof.
  intros Hp Hs Hb Ho Hf. unfold get_project. rewrite Hp, Hs, Hb, Ho, Hf.
  now destruct (select_get _ (projects d)).
Qed.

(** X6. A full replace of one project, whether it succeeds or fails,
    leaves every other project as a fetch shows it (row, children and
    files) and leaves the users alone. *)
Theorem put_leaves_other_projects :
  forall (fresh : nat -> string) (id id' : string)
         (body : Req.project (option string)) (d : Db),
    id' <> id ->
    snd (get_project id' (fst (put_project fresh id body d)))
    = snd (get_project id' d)
    /\ users (fst (put_project fresh id body d)) = users d.
Proof.
  intros fresh id id' body d Hne.
  destruct (put_project_cases fresh id body d) as [E|[e E]]; rewrite E;
    [|now split].
  split; [|reflexivity]. cbn [fst].
  apply get_project_same; unfold staff_of, billing_of, outbound_of, files_of,
    put_project_result; simpl.
  - now apply select_get_other_update.
  - rewrite (select_other_app ConstructionStaff.projectId id id');
      [now apply select_other_delete | exact Hne | apply staff_rows_projectId].
  - rewrite (select_other_app BillingItem.projectId id id');
      [now apply select_other_delete | exact Hne | apply billing_rows_projectId].
  - rewrite (select_other_app OutboundPayment.projectId id id');
      [now apply select_other_delete | exact Hne | apply outbound_rows_projectId].
  - reflexivity.
Qed.

Lemma put_leaves_other_projects_witness :
  let d := fst (post_projects "P2"
                  {| Req.cols := sample_cols ProjectStatus.Order;
                     Req.constructionStaff := None; Req.billingItems := None;
                     Req.outboundPayments := None |}
                  (sample_db ProjectStatus.Billing)) in
  let body := put_body (sample_cols ProjectStatus.Cancelled) [] [] [] in
  "P1" <> "P2"
  /\ snd (get_project "P1" (fst (put_project sample_fresh "P2" body d)))
     = snd (get_project "P1" d).
Proof.
  intros d body. split; [discriminate|].
  apply (put_leaves_other_projects sample_fresh "P2" "P1" body d). discriminate.
Defined.

(** X7. Replace, then fetch: after a full replace of a stored project
    that answered success, GET /api/projects/:id answers 200 with the
    columns of the body under the same id, the [paymentMethod] the row had,
    the children of the body, and the files the project had. *)
Theorem put_then_get :
  forall (fresh : nat -> string) (id : string)
         (body : Req.project (option string)) (d d' : Db) (p : Project.row),
    project_row id d = Some p ->
    put_project fresh id body d = (d', Json 200 Success) ->
    let staff := array_or_empty (Req.constructionStaff body) in
    let billing := array_or_empty (Req.billingItems body) in
    let outbound := array_or_empty (Req.outboundPayments body) in
    let n1 := drawn fresh 0 (map (@Req.staff_id _) staff) in
    let n2 := drawn fresh n1 (map (@Req.bill_id _) billing) in
    snd (get_project id d')
    = Json 200 (ProjectBody
        {| json_project := {| Project.id := id; Project.cols := Req.cols body;
                              Project.paymentMethod := Project.paymentMethod p |};
           json_constructionStaff := staff_rows fresh 0 id staff;
           json_billingItems := billing_rows fresh n1 id billing;
           json_outboundPayments := outbound_rows fresh n2 id outbound;
           json_files := Some (files_of id d) |}).
Proof.
  intros fresh id body d d' p Hp H staff billing outbound n1 n2.
  apply put_project_success in H. subst d'.
  unfold project_row in Hp.
  unfold get_project, put_project_result; simpl.
  rewrite select_get_update by reflexivity. rewrite Hp. simpl.
  pose proof (select_get_some _ _ _ _ Hp) as [_ Hid]. rewrite Hid.
  apply String.eqb_eq in Hid.
  unfold staff_of, billing_of, outbound_of, files_of; simpl.
  rewrite !select_after_replace
    by (apply staff_rows_projectId || apply billing_rows_projectId
        || apply outbound_rows_projectId).
  unfold Project.update_cols. now rewrite Hid.
Qed.

Lemma put_then_get_witness :
  let d := sample_db ProjectStatus.Billing in
  let body := put_body (sample_cols ProjectStatus.PaymentIn) [] [] [] in
  project_row "P1" d = Some (sample_project "P1" ProjectStatus.Billing)
  /\ snd (get_project "P1" (fst (put_project sample_fresh "P1" body d)))
     = Json 200 (ProjectBody
         {| json_project := sample_project "P1" ProjectStatus.PaymentIn;
            json_constructionStaff := []; json_billingItems := [];
            json_outboundPayments := [];
            json_files := Some (files_of "P1" d) |}).
Proof.
  intros d body. split; [reflexivity|].
  apply (put_then_get sample_fresh "P1" body d
           (fst (put_project sample_fresh "P1" body d))
           (sample_project "P1" ProjectStatus.Billing)); reflexivity.
Defined.

(** ** DELETE /api/projects/:id *)

(** X8. Deleting an identifier that names no stored project changes
    nothing and still answers success. *)
Theorem delete_missing_project :
  forall (id : string) (d : Db),
    project_exists id d = false ->
    delete_project id d = (d, Json 200 Success).
Proof.
  intros id d Hno. unfold delete_project, reply_success, delete_project_row.
  now rewrite Hno.
Qed.

Lemma delete_missing_project_witness :
  project_exists "P404" (sample_db ProjectStatus.Billing) = false
  /\ delete_project "P404" (sample_db ProjectStatus.Billing)
     = (sample_db ProjectStatus.Billing, Json 200 Success).
Proof.
  split; [reflexivity|].
  apply (delete_missing_project "P404" (sample_db ProjectStatus.Billing)).
  reflexivity.
Defined.

(** X9. Deleting one project leaves every other project as a fetch shows
    it (row, children and files) and leaves the users alone: the cascade
    takes the rows of the deleted project only. *)
Theorem delete_leaves_other_projects :
  forall (id id' : string) (d : Db),
    id' <> id ->
    snd (get_project id' (fst (delete_project id d))) = snd (get_project id' d)
    /\ users (fst (delete_project id d)) = users d.
Proof.
  intros id id' d Hne. rewrite delete_project_store.
  destruct (project_exists id d); [|now split].
  split; [|reflexivity].
  apply get_project_same; unfold staff_of, billing_of, outbound_of, files_of; simpl.
  - now apply (select_get_other_delete Project.id).
  - now apply (select_other_delete ConstructionStaff.projectId).
  - now apply (select_other_delete BillingItem.projectId).
  - now apply (select_other_delete OutboundPayment.projectId).
  - now apply (select_other_delete ProjectFile.projectId).
Qed.

Lemma delete_leaves_other_projects_witness :
  let d := fst (post_projects "P2"
                  {| Req.cols := sample_cols ProjectStatus.Order;
                     Req.constructionStaff := None; Req.billingItems := None;
                     Req.outboundPayments := None |}
                  (sample_db ProjectStatus.Billing)) in
  "P1" <> "P2"
  /\ snd (get_project "P1" (fst (delete_project "P2" d))) = snd (get_project "P1" d).
Proof.
  intros d. split; [discriminate|].
  apply (delete_leaves_other_projects "P2" "P1" d). discriminate.
Defined.

(** ** PATCH /api/projects/:id *)

(** X10. A patch writes the project row it addresses and nothing else:
    every other project is as a fetch shows it, and the child tables, the
    files and the users are untouched. *)
Theorem patch_project_touches_one_row :
  forall (id : string) (body : Req.project_patch) (d : Db),
    let d' := fst (patch_project id body d) in
    (forall id', id' <> id -> snd (get_project id' d') = snd (get_project id' d))
    /\ construction_staff d' = construction_staff d
    /\ billing_items d' = billing_items d
    /\ outbound_payments d' = outbound_payments d
    /\ files d' = files d
    /\ users d' = users d.
Proof.
  intros id body d d'. subst d'. rewrite patch_project_run. cbn [fst].
  split; [|repeat split].
  intros id' Hne. apply get_project_same; try reflexivity.
  unfold update_project; simpl. now apply select_get_other_update.
Qed.

(** X11. What a patch does to the row it addresses: the status and the
    six remark columns take the value of the body where the body defines
    one and keep theirs where it does not; the id, the dates, the title,
    the property name, the customer columns and [paymentMethod] are kept. *)
Theorem patch_project_columns :
  forall (id : string) (body : Req.project_patch) (d : Db) (p : Project.row),
    project_row id d = Some p ->
    let c := Project.cols p in
    project_row id (fst (patch_project id body d))
    = Some {| Project.id := Project.id p;
              Project.paymentMethod := Project.paymentMethod p;
              Project.cols :=
                {| Project.status :=
                     match Req.status body with
                     | Some v => Some v
                     | None => Project.status c
                     end;
                   Project.estimateDate := Project.estimateDate c;
                   Project.orderDate := Project.orderDate c;
                   Project.constructionStartDate := Project.constructionStartDate c;
                   Project.completionDate := Project.completionDate c;
                   Project.paymentDate := Project.paymentDate c;
                   Project.title := Project.title c;
                   Project.propertyName := Project.propertyName c;
                   Project.estimateRemarks :=
                     match Req.estimateRemarks body with
                     | Some v => Some v
                     | None => Project.estimateRemarks c
                     end;
                   Project.orderRemarks :=
                     match Req.orderRemarks body with
                     | Some v => Some v
                     | None => Project.orderRemarks c
                     end;
                   Project.constructionRemarks :=
                     match Req.constructionRemarks body with
                     | Some v => Some v
                     | None => Project.constructionRemarks c
                     end;
                   Project.billingRemarks :=
                     match Req.billingRemarks body with
                     | Some v => Some v
                     | None => Project.billingRemarks c
                     end;
                   Project.paymentRemarks :=
                     match Req.paymentRemarks body with
                     | Some v => Some v
                     | None => Project.paymentRemarks c
                     end;
                   Project.outboundPaymentRemarks :=
                     match Req.outboundPaymentRemarks body with
                     | Some v => Some v
                     | None => Project.outboundPaymentRemarks c
                     end;
                   Project.customerName := Project.customerName c;
                   Project.customerZipCode := Project.customerZipCode c;
                   Project.customerAddress := Project.customerAddress c;
                   Project.customerTel := Project.customerTel c;
                   Project.customerEmail := Project.customerEmail c |} |}.
Proof.
  intros id body d p Hp c. subst c. unfold project_row in *.
  rewrite patch_project_run. unfold update_project; cbn [fst projects with_projects].
  rewrite select_get_update by reflexivity. rewrite Hp. simpl.
  apply select_get_some in Hp. destruct Hp as [_ Hid]. rewrite Hid.
  unfold Project.update_cols, patch_cols. f_equal. f_equal.
  destruct p as [pid [] pm]; simpl.
  destruct (Req.status body), (Req.estimateRemarks body), (Req.orderRemarks body),
    (Req.constructionRemarks body), (Req.billingRemarks body),
    (Req.paymentRemarks body), (Req.outboundPaymentRemarks body); reflexivity.
Qed.

Lemma patch_project_columns_witness :
  let body := {| Req.status := None; Req.estimateRemarks := None;
                 Req.orderRemarks := Some "ordered by phone";
                 Req.constructionRemarks := None; Req.billingRemarks := None;
                 Req.paymentRemarks := None; Req.outboundPaymentRemarks := None |} in
  let d := sample_db ProjectStatus.Order in
  project_row "P1" d = Some (sample_project "P1" ProjectStatus.Order)
  /\ project_row "P1" (fst (patch_project "P1" body d))
     = Some {| Project.id := "P1"; Project.paymentMethod := None;
               Project.cols :=
                 Project.set_orderRemarks "ordered by phone"
                   (sample_cols ProjectStatus.Order) |}.
Proof.
  intros body d. split; [reflexivity|].
  apply (patch_project_columns "P1" body d
           (sample_project "P1" ProjectStatus.Order) eq_refl).
Defined.

(** P1 and P2 are stored; the patch moves P1 from Billing to Payment-In,
    and the fetch of P2 answers what it answered before. *)
Lemma patch_project_touches_one_row_witness :
  let d := fst (post_projects "P2"
                  {| Req.cols := sample_cols ProjectStatus.Order;
                     Req.constructionStaff := None; Req.billingItems := None;
                     Req.outboundPayments := None |}
                  (sample_db ProjectStatus.Billing)) in
  let d' := fst (patch_project "P1" (no_remarks (Some ProjectStatus.PaymentIn)) d) in
  project_status "P1" d = Some ProjectStatus.Billing
  /\ project_status "P1" d' = Some ProjectStatus.PaymentIn
  /\ project_status "P2" d = Some ProjectStatus.Order
  /\ "P2" <> "P1"
  /\ snd (get_project "P2" d') = snd (get_project "P2" d).
Proof.
  intros d d'.
  split; [reflexivity|]. split; [reflexivity|]. split; [reflexivity|].
  split; [discriminate|].
  apply (proj1 (patch_project_touches_one_row "P1"
                  (no_remarks (Some ProjectStatus.PaymentIn)) d) "P2").
  discriminate.
Defined.

(** ** The flag patches *)

Lemma select_get_other_update_key {R} (key : R -> string) id id' (g : R -> R) t :
  id' <> id ->
  (forall r, key (g r) = key r) ->
  select_get (fun x => key x =? id') (update_where (fun x => key x =? id) g t)
  = select_get (fun x => key x =? id') t.
Proof.
  intros Hne Hg. rewrite select_get_update by (intros r; now rewrite Hg).
  destruct (select_get _ t) as [p|] eqn:E; [|reflexivity]. simpl.
  apply select_get_some in E. destruct E as [_ E]. apply String.eqb_eq in E.
  rewrite E. apply String.eqb_neq in Hne. now rewrite Hne.
Qed.

(** X12. PATCH /api/billing_items/:id changes the two flags of the item
    it addresses and nothing else: each flag takes the value of the body
    where the body defines one; the item keeps its id, project, name,
    amount and date; every other item is found as before; and the other
    tables are untouched.  Nothing ties the paid flag to the billed one. *)
Theorem patch_billing_item_effect :
  forall (id : string) (body : Req.bill_patch) (d : Db),
    let d' := fst (patch_billing_item id body d) in
    let find i t := select_get (fun b => BillingItem.id b =? i) t in
    (forall b, find id (billing_items d) = Some b ->
               find id (billing_items d')
               = Some {| BillingItem.id := BillingItem.id b;
                         BillingItem.projectId := BillingItem.projectId b;
                         BillingItem.cols := BillingItem.cols b;
                         BillingItem.isBilled :=
                           or_else (Req.isBilled body) (BillingItem.isBilled b);
                         BillingItem.isPaid :=
                           or_else (Req.isPaid body) (BillingItem.isPaid b) |})
    /\ (forall id', id' <> id ->
                    find id' (billing_items d') = find id' (billing_items d))
    /\ projects d' = projects d
    /\ construction_staff d' = construction_staff d
    /\ outbound_payments d' = outbound_payments d
    /\ files d' = files d
    /\ users d' = users d.
Proof.
  intros id body d d' find. subst d' find. rewrite patch_billing_item_run.
  cbn [fst]. simpl. split; [|split; [|repeat split]].
  - intros b Hb. rewrite select_get_update
      by (intros r; now rewrite patch_bill_keeps_id).
    rewrite Hb. simpl. apply select_get_some in Hb. destruct Hb as [_ Hid].
    rewrite Hid. unfold patch_bill. destruct b.
    now destruct (Req.isBilled body), (Req.isPaid body).
  - intros id' Hne.
    apply (select_get_other_update_key BillingItem.id); [exact Hne|].
    apply patch_bill_keeps_id.
Qed.

(** X13. PATCH /api/outbound_payments/:id changes the paid flag of the
    payment it addresses and nothing else. *)
Theorem patch_outbound_payment_effect :
  forall (id : string) (isPaid : option bool) (d : Db),
    let d' := fst (patch_outbound_payment id isPaid d) in
    let find i t := select_get (fun b => OutboundPayment.id b =? i) t in
    (forall b, find id (outbound_payments d) = Some b ->
               find id (outbound_payments d')
               = Some {| OutboundPayment.id := OutboundPayment.id b;
                         OutboundPayment.projectId := OutboundPayment.projectId b;
                         OutboundPayment.cols := OutboundPayment.cols b;
                         OutboundPayment.isPaid :=
                           or_else isPaid (OutboundPayment.isPaid b) |})
    /\ (forall id', id' <> id ->
                    find id' (outbound_payments d') = find id' (outbound_payments d))
    /\ projects d' = projects d
    /\ construction_staff d' = construction_staff d
    /\ billing_items d' = billing_items d
    /\ files d' = files d
    /\ users d' = users d.
Proof.
  intros id isPaid d d' find. subst d' find. rewrite patch_outbound_payment_run.
  cbn [fst]. simpl. split; [|split; [|repeat split]].
  - intros b Hb. rewrite select_get_update by (intros r; now destruct isPaid).
    rewrite Hb. simpl. apply select_get_some in Hb. destruct Hb as [_ Hid].
    rewrite Hid. destruct b. now destruct isPaid.
  - intros id' Hne.
    apply (select_get_other_update_key OutboundPayment.id); [exact Hne|].
    intros r. now destruct isPaid.
Qed.

(** Paid before billed: the server takes it. *)
Lemma patch_billing_item_effect_witness :
  let body := {| Req.isBilled := None; Req.isPaid := Some true |} in
  let d := sample_db ProjectStatus.Billing in
  select_get (fun b => BillingItem.id b =? "B2") (billing_items d)
  = Some (sample_bill "B2" "P1" false false)
  /\ select_get (fun b => BillingItem.id b =? "B2")
                (billing_items (fst (patch_billing_item "B2" body d)))
     = Some (sample_bill "B2" "P1" false true).
Proof.
  intros body d. split; [reflexivity|].
  apply (proj1 (patch_billing_item_effect "B2" body d)
           (sample_bill "B2" "P1" false false)).
  reflexivity.
Defined.

Lemma patch_outbound_payment_effect_witness :
  let d := sample_db ProjectStatus.Billing in
  select_get (fun b => OutboundPayment.id b =? "O1") (outbound_payments d)
  = Some (sample_payment "O1" "P1" true)
  /\ select_get (fun b => OutboundPayment.id b =? "O1")
                (outbound_payments (fst (patch_outbound_payment "O1" (Some false) d)))
     = Some (sample_payment "O1" "P1" false).
Proof.
  intros d. split; [reflexivity|].
  apply (proj1 (patch_outbound_payment_effect "O1" (Some false) d)
           (sample_payment "O1" "P1" true)).
  reflexivity.
Defined.

(** ** [handleBillingItemUpdate]: when the status does not move *)

Lemma handleBillingItemUpdate_cases off_route projectId itemId updates d :
  plain_id projectId = true ->
  plain_id itemId = true ->
  let d1 := fst (patch_billing_item itemId updates d) in
  handleBillingItemUpdate off_route projectId itemId updates d = d1
  \/ (handleBillingItemUpdate off_route projectId itemId updates d
      = fst (patch_project projectId (status_body ProjectStatus.PaymentIn) d1)
      /\ Req.isBilled updates <> None
      /\ forallb BillingItem.isBilled (billing_of projectId d1) = true
      /\ project_status projectId d = Some ProjectStatus.Billing).
Proof.
  intros Hpp Hpi d1. subst d1.
  unfold handleBillingItemUpdate, handleStatusUpdate, fetch, handle.
  rewrite Hpp, Hpi.
  rewrite patch_billing_item_run. cbn [fst ok Nat.leb andb].
  unfold get_project, project_status. cbn [projects with_billing_items].
  destruct (select_get (fun p => Project.id p =? projectId) (projects d))
    as [p|] eqn:Hp; cbn [ok Nat.leb andb json_billingItems json_project];
    [|now left].
  destruct (Req.isBilled updates) as [v|] eqn:Hb; [|now left].
  destruct (forallb BillingItem.isBilled _) eqn:Hall; [|now left].
  cbn [andb].
  destruct (Project.status (Project.cols p)) as [s|] eqn:Hst; [|now left].
  cbn [status_is].
  destruct (s =? ProjectStatus.Billing) eqn:Hs; [|now left].
  right. apply String.eqb_eq in Hs. rewrite Hs.
  repeat split; congruence.
Qed.

(** X14. Called with ids that a path carries as they are, the only status
    [handleBillingItemUpdate] ever writes is Payment-In, on its own
    project, when that project is in Billing and the update carries
    [isBilled]: the status of every project is what it was, or the project
    is the handler's, was in Billing and is now in Payment-In.  An update
    that carries only [isPaid] moves no status. *)
Theorem billing_update_status_effect :
  forall (off_route : string -> Request -> Db -> Db * Reply)
         (projectId itemId id : string) (updates : Req.bill_patch) (d : Db),
    plain_id projectId = true ->
    plain_id itemId = true ->
    let d' := handleBillingItemUpdate off_route projectId itemId updates d in
    project_status id d' = project_status id d
    \/ (id = projectId
        /\ Req.isBilled updates <> None
        /\ project_status id d = Some ProjectStatus.Billing
        /\ project_status id d' = Some ProjectStatus.PaymentIn).
Proof.
  intros off_route projectId itemId id updates d Hpp Hpi d'. subst d'.
  destruct (handleBillingItemUpdate_cases off_route projectId itemId updates d
              Hpp Hpi)
    as [E|(E & Hb & _ & Hs)]; rewrite E.
  - left. rewrite patch_billing_item_run. reflexivity.
  - rewrite patch_project_run. cbn [fst]. rewrite project_status_update.
    rewrite patch_billing_item_run. cbn [fst projects with_billing_items].
    destruct (String.eqb_spec id projectId) as [->|Hne].
    + right. unfold project_status in *.
      destruct (select_get (fun p => Project.id p =? projectId) (projects d))
        as [p|] eqn:Hp; [|discriminate].
      apply select_get_some in Hp. destruct Hp as [_ Hp]. rewrite Hp.
      repeat split; auto.
    + left. unfold project_status.
      destruct (select_get (fun p => Project.id p =? id) (projects d))
        as [p|] eqn:Hp; [|reflexivity].
      apply select_get_some in Hp. destruct Hp as [_ Hp].
      apply String.eqb_eq in Hp. rewrite Hp.
      apply String.eqb_neq in Hne. now rewrite Hne.
Qed.

(** An update of B2 that carries only [isPaid] leaves P1 in Billing,
    though B1 is billed already. *)
Lemma billing_update_status_effect_witness :
  let d := sample_db ProjectStatus.Billing in
  let d' := handleBillingItemUpdate not_found "P1" "B2"
              {| Req.isBilled := None; Req.isPaid := Some true |} d in
  plain_id "P1" = true
  /\ plain_id "B2" = true
  /\ paid_flag "B2" d' = Some true
  /\ (project_status "P1" d' = project_status "P1" d
      \/ ("P1" = "P1"
          /\ Req.isBilled {| Req.isBilled := None; Req.isPaid := Some true |} <> None
          /\ project_status "P1" d = Some ProjectStatus.Billing
          /\ project_status "P1" d' = Some ProjectStatus.PaymentIn)).
Proof.
  intros d d'.
  split; [reflexivity|]. split; [reflexivity|]. split; [reflexivity|].
  apply (billing_update_status_effect not_found "P1" "B2" "P1"
           {| Req.isBilled := None; Req.isPaid := Some true |} d
           eq_refl eq_refl).
Defined.

(** X15. No premature advance: while another item of the project is
    still unbilled, [handleBillingItemUpdate], called with ids that a path
    carries as they are, leaves the table of projects as it was, whatever
    the update and whatever the status. *)
Theorem billing_update_waits_for_all :
  forall (off_route : string -> Request -> Db -> Db * Reply)
         (projectId itemId : string) (updates : Req.bill_patch) (d : Db)
         (other : BillingItem.row),
    plain_id projectId = true ->
    plain_id itemId = true ->
    In other (billing_items d) ->
    BillingItem.projectId other = projectId ->
    BillingItem.id other <> itemId ->
    BillingItem.isBilled other = false ->
    projects (handleBillingItemUpdate off_route projectId itemId updates d)
    = projects d.
Proof.
  intros off_route projectId itemId updates d other Hpp Hpi Hin Hpid Hid Hunbilled.
  destruct (handleBillingItemUpdate_cases off_route projectId itemId updates d
              Hpp Hpi)
    as [E|(_ & _ & Hall & _)].
  - rewrite E, patch_billing_item_run. reflexivity.
  - exfalso. rewrite patch_billing_item_run in Hall. cbn [fst] in Hall.
    unfold billing_of, select_all in Hall; simpl in Hall.
    rewrite forallb_forall in Hall.
    specialize (Hall other). rewrite Hunbilled in Hall.
    assert (false = true); [|discriminate]. apply Hall.
    apply filter_In. split; [|rewrite Hpid; apply String.eqb_refl].
    unfold update_where. apply in_map_iff. exists other. split; [|exact Hin].
    apply String.eqb_neq in Hid. now rewrite Hid.
Qed.

Lemma billing_update_waits_for_all_witness :
  let d := fst (patch_billing_item "B1"
                  {| Req.isBilled := Some false; Req.isPaid := None |}
                  (sample_db ProjectStatus.Billing)) in
  plain_id "P1" = true
  /\ plain_id "B1" = true
  /\ In (sample_bill "B2" "P1" false false) (billing_items d)
  /\ "B2" <> "B1"
  /\ projects (handleBillingItemUpdate not_found "P1" "B1"
                 {| Req.isBilled := Some true; Req.isPaid := None |} d)
     = projects d.
Proof.
  intros d.
  assert (In (sample_bill "B2" "P1" false false) (billing_items d)) as Hin
      by (right; left; reflexivity).
  split; [reflexivity|]. split; [reflexivity|].
  split; [exact Hin|]. split; [discriminate|].
  apply (billing_update_waits_for_all not_found "P1" "B1" _ d
           (sample_bill "B2" "P1" false false) eq_refl eq_refl Hin eq_refl);
    [discriminate | reflexivity].
Defined.

(** ** Login and the users *)

(** With emails unique, the lookup of the login finds the user of that
    email when the password is hers, and nobody otherwise. *)
Lemma login_lookup us u password :
  NoDup (map User.email us) ->
  In u us ->
  select_get (fun x => (User.email x =? User.email u) && (User.password x =? password)) us
  = if User.password u =? password then Some u else None.
Proof.
  intros Hnd Hin.
  assert (forall x, In x us -> (User.email x =? User.email u) = true -> x = u) as Huniq.
  { intros x Hx He. apply String.eqb_eq in He.
    now apply (nodup_key_unique User.email us Hnd). }
  destruct (select_get _ us) as [x|] eqn:E.
  - apply select_get_some in E. destruct E as [Hx Hc].
    apply andb_true_iff in Hc. destruct Hc as [He Hp].
    rewrite (Huniq x Hx He) in *. now rewrite Hp.
  - apply select_get_none in E.
    apply (existsb_false_all _ _ _ E) in Hin.
    rewrite String.eqb_refl in Hin. simpl in Hin. now rewrite Hin.
Qed.

Lemma post_login_known d u password :
  NoDup (map User.email (users d)) ->
  In u (users d) ->
  post_login (User.email u) password d = (d, login_reply u password).
Proof.
  intros Hnd Hin. unfold post_login, login_reply.
  rewrite (login_lookup _ _ password Hnd Hin).
  destruct (User.password u =? password); [|reflexivity]. simpl.
  now destruct (User.isActive u).
Qed.

(** X16. With emails unique, the login of a stored user answers 401 on a
    wrong password, 403 on the right password of a deactivated account,
    and 200 with id, email, name and role (never the password) on the right
    password of an active one; an email that no user has answers 401.  The
    store is never changed. *)
Theorem login_outcome :
  forall (d : Db),
    NoDup (map User.email (users d)) ->
    (forall u password, In u (users d) ->
        post_login (User.email u) password d = (d, login_reply u password))
    /\ (forall email password,
          existsb (fun u => User.email u =? email) (users d) = false ->
          post_login email password d = (d, Json 401 (Error "Invalid credentials"))).
Proof.
  intros d Hnd. split.
  - intros u password Hin. now apply post_login_known.
  - intros email password Hno. unfold post_login.
    destruct (select_get _ (users d)) as [x|] eqn:E; [|reflexivity].
    apply select_get_some in E. destruct E as [Hx Hc].
    apply andb_true_iff in Hc. destruct Hc as [He _].
    apply (existsb_false_all _ _ _ Hno) in Hx. congruence.
Qed.

Lemma login_outcome_witness :
  NoDup (map User.email (users initial_db))
  /\ post_login "admin@example.com" "password123" initial_db
     = (initial_db, Json 200 (LoginBody "1" "admin@example.com" "管理者" "admin"))
  /\ post_login "nobody@example.com" "password123" initial_db
     = (initial_db, Json 401 (Error "Invalid credentials")).
Proof.
  assert (NoDup (map User.email (users initial_db))) as Hnd
      by (simpl; repeat constructor; simpl; tauto).
  split; [exact Hnd|]. split.
  - apply (proj1 (login_outcome initial_db Hnd)
             {| User.id := "1"; User.email := "admin@example.com";
                User.password := "password123"; User.name := "管理者";
                User.role := "admin"; User.remarks := None;
                User.isActive := true |} "password123").
    left; reflexivity.
  - apply (proj2 (login_outcome initial_db Hnd) "nobody@example.com" "password123").
    reflexivity.
Defined.

(** X17. Deactivate, then log in: after [handleToggleActive] on an active
    user whose id a path carries as it is, the login with that user's own
    email and password is refused with 403. *)
Theorem deactivated_user_cannot_login :
  forall (off_route : string -> Request -> Db -> Db * Reply)
         (d : Db) (u : User.row),
    plain_id (User.id u) = true ->
    NoDup (map User.email (users d)) ->
    In u (users d) ->
    User.isActive u = true ->
    snd (post_login (User.email u) (User.password u)
                    (handleToggleActive off_route (User.id u) (User.isActive u) d))
    = Json 403 (Error "Account is deactivated").
Proof.
  intros off_route d u Hplain Hnd Hin Hact.
  unfold handleToggleActive, fetch, handle, put_users. rewrite Hplain, Hact. simpl.
  set (u' := apply_user_put (active_body false) u).
  set (us' := update_where (fun x => User.id x =? User.id u)
                           (apply_user_put (active_body false)) (users d)).
  assert (In u' us') as Hin'.
  { unfold us', update_where. apply in_map_iff. exists u.
    now rewrite String.eqb_refl. }
  assert (NoDup (map User.email us')) as Hnd'.
  { unfold us'. now rewrite keys_update_where. }
  change (User.email u) with (User.email u').
  rewrite (post_login_known (with_users us' d) u' (User.password u) Hnd' Hin').
  unfold login_reply. simpl. now rewrite String.eqb_refl.
Qed.

Lemma deactivated_user_cannot_login_witness :
  let u := {| User.id := "1"; User.email := "admin@example.com";
              User.password := "password123"; User.name := "管理者";
              User.role := "admin"; User.remarks := None;
              User.isActive := true |} in
  plain_id (User.id u) = true
  /\ In u (users initial_db)
  /\ snd (post_login "admin@example.com" "password123"
            (handleToggleActive not_found "1" true initial_db))
     = Json 403 (Error "Account is deactivated").
Proof.
  intros u. split; [reflexivity|]. split; [left; reflexivity|].
  apply (deactivated_user_cannot_login not_found initial_db u);
    [reflexivity | simpl; repeat constructor; simpl; tauto
     | left; reflexivity | reflexivity].
Defined.

(** X18. Create a user, then log in: after a POST /api/users that
    answered success, the login with the email and password of the body
    answers 200 with the id, name and role of the body: a new account is
    active. *)
Theorem created_user_can_login :
  forall (body : Req.user) (d d' : Db),
    post_users body d = (d', Json 200 Success) ->
    post_login (Req.email body) (Req.password body) d'
    = (d', Json 200 (LoginBody (Req.id body) (Req.email body)
                               (Req.name body) (Req.role body))).
Proof.
  intros body d d' H.
  destruct (post_users_cases body d) as [E|(E & _ & Hemail)]; rewrite E in H;
    [discriminate|].
  injection H as <-. unfold post_login; simpl.
  rewrite select_get_app_new; [reflexivity| |].
  - match goal with |- ?e = false => destruct e eqn:Ex end; [|reflexivity].
    apply existsb_exists in Ex. destruct Ex as (x & Hx & Hc).
    apply andb_true_iff in Hc. destruct Hc as [He _].
    apply (existsb_false_all _ _ _ Hemail) in Hx. congruence.
  - simpl. now rewrite !String.eqb_refl.
Qed.

Lemma created_user_can_login_witness :
  let body := {| Req.id := "2"; Req.email := "staff@example.com";
                 Req.password := "s3cret"; Req.name := "Tanaka";
                 Req.role := "staff"; Req.remarks := None |} in
  let d' := fst (post_users body initial_db) in
  post_login "staff@example.com" "s3cret" d'
  = (d', Json 200 (LoginBody "2" "staff@example.com" "Tanaka" "staff")).
Proof.
  intros body d'.
  apply (created_user_can_login body initial_db d' eq_refl).
Defined.

(** X19. Delete a user, then log in: with emails unique, once DELETE
    /api/users/:id has removed a user, no password opens their account. *)
Theorem deleted_user_cannot_login :
  forall (d : Db) (u : User.row) (password : string),
    NoDup (map User.email (users d)) ->
    In u (users d) ->
    snd (post_login (User.email u) password (fst (delete_users (User.id u) d)))
    = Json 401 (Error "Invalid credentials").
Proof.
  intros d u password Hnd Hin. unfold delete_users, post_login; simpl.
  destruct (select_get _ _) as [x|] eqn:E; [|reflexivity].
  apply select_get_some in E. destruct E as [Hx Hc].
  apply in_delete_where in Hx. destruct Hx as [Hx Hid].
  apply andb_true_iff in Hc. destruct Hc as [He _]. apply String.eqb_eq in He.
  rewrite (nodup_key_unique User.email (users d) Hnd x u Hx Hin He) in Hid.
  rewrite String.eqb_refl in Hid. discriminate.
Qed.

Lemma deleted_user_cannot_login_witness :
  let u := {| User.id := "1"; User.email := "admin@example.com";
              User.password := "password123"; User.name := "管理者";
              User.role := "admin"; User.remarks := None;
              User.isActive := true |} in
  In u (users initial_db)
  /\ snd (post_login "admin@example.com" "password123"
            (fst (delete_users "1" initial_db)))
     = Json 401 (Error "Invalid credentials").
Proof.
  intros u. split; [left; reflexivity|].
  apply (deleted_user_cannot_login initial_db u "password123");
    [simpl; repeat constructor; simpl; tauto | left; reflexivity].
Defined.

(** ** The file registry *)

Lemma post_file_ok projectId file now d b :
  snd (post_file projectId file now d) = Json 200 b ->
  exists originalname filename,
    file = Some (originalname, filename)
    /\ b = FileBody now originalname ("/uploads/" ++ filename)
    /\ fst (post_file projectId file now d)
       = with_files (files d ++ [ {| ProjectFile.id := now;
                                     ProjectFile.projectId := projectId;
                                     ProjectFile.name := originalname;
                                     ProjectFile.url := "/uploads/" ++ filename |} ]) d
    /\ existsb (fun x => ProjectFile.id x =? now) (files d) = false
    /\ project_exists projectId d = true.
Proof.
  unfold post_file, insertFile. destruct file as [[originalname filename]|];
    [|discriminate]. simpl.
  destruct (existsb (fun x => ProjectFile.id x =? now) (files d)) eqn:E1;
    [discriminate|].
  destruct (project_exists projectId d) eqn:E2; simpl; [|discriminate].
  intros H. injection H as <-. exists originalname, filename. auto.
Qed.

(** X20. Upload, fetch, delete: after an upload that answered 200, the
    fetch of the project lists the files it had followed by the new one,
    under the id and URL the reply carries; deleting that id afterwards
    gives back the store the upload found. *)
Theorem upload_then_delete :
  forall (projectId : string) (file : option (string * string)) (now : string)
         (d : Db) (id name url : string),
    snd (post_file projectId file now d) = Json 200 (FileBody id name url) ->
    let d' := fst (post_file projectId file now d) in
    files_of projectId d'
    = (files_of projectId d
       ++ [ {| ProjectFile.id := id; ProjectFile.projectId := projectId;
               ProjectFile.name := name; ProjectFile.url := url |} ])%list
    /\ delete_file id d' = (d, Json 200 Success).
Proof.
  intros projectId file now d id name url H d'. subst d'.
  apply post_file_ok in H.
  destruct H as (originalname & filename & -> & Hb & E & Hnew & _).
  injection Hb as -> -> ->. rewrite E. split.
  - unfold files_of, select_all; simpl. rewrite filter_app. simpl.
    now rewrite String.eqb_refl.
  - unfold delete_file; simpl.
    rewrite select_get_app_new; [|exact Hnew | apply String.eqb_refl].
    unfold delete_where. rewrite filter_app. simpl.
    rewrite String.eqb_refl. simpl. rewrite app_nil_r.
    fold (delete_where (fun x => ProjectFile.id x =? now) (files d)).
    rewrite delete_where_none by exact Hnew. now destruct d.
Qed.

Lemma upload_then_delete_witness :
  let d := sample_db ProjectStatus.Billing in
  let d' := fst (post_file "P1" (Some ("b.pdf", "2-b.pdf")) "1700000000002" d) in
  snd (post_file "P1" (Some ("b.pdf", "2-b.pdf")) "1700000000002" d)
  = Json 200 (FileBody "1700000000002" "b.pdf" "/uploads/2-b.pdf")
  /\ delete_file "1700000000002" d' = (d, Json 200 Success).
Proof.
  intros d d'. split; [reflexivity|].
  apply (upload_then_delete "P1" (Some ("b.pdf", "2-b.pdf")) "1700000000002" d
           "1700000000002" "b.pdf" "/uploads/2-b.pdf" eq_refl).
Defined.

(** X21. An upload addressed to a project that is not stored registers
    nothing: the store is unchanged and the request does not end in a
    success reply (400 without a file, an uncaught constraint error with
    one). *)
Theorem upload_to_missing_project :
  forall (projectId : string) (file : option (string * string)) (now : string)
         (d : Db),
    project_exists projectId d = false ->
    fst (post_file projectId file now d) = d
    /\ ok (snd (post_file projectId file now d)) = false.
Proof.
  intros projectId file now d Hno. unfold post_file, insertFile.
  destruct file as [[originalname filename]|]; [|now split]. simpl.
  destruct (existsb _ (files d)); [now split|].
  rewrite Hno. now split.
Qed.

Lemma upload_to_missing_project_witness :
  let d := sample_db ProjectStatus.Billing in
  project_exists "P404" d = false
  /\ post_file "P404" (Some ("b.pdf", "2-b.pdf")) "1700000000002" d
     = (d, Uncaught ForeignKeyConstraint).
Proof.
  intros d. split; [reflexivity|].
  pose proof (upload_to_missing_project "P404" (Some ("b.pdf", "2-b.pdf"))
                "1700000000002" d eq_refl) as [Hstore _].
  rewrite (surjective_pairing (post_file _ _ _ _)), Hstore. reflexivity.
Defined.

(** X22. DELETE /api/files/:id always answers success; afterwards no file
    of that id is registered, every other file is found as before, and the
    other tables are untouched. *)
Theorem delete_file_effect :
  forall (id : string) (d : Db),
    let d' := fst (delete_file id d) in
    let find i t := select_get (fun x => ProjectFile.id x =? i) t in
    snd (delete_file id d) = Json 200 Success
    /\ find id (files d') = None
    /\ (forall id', id' <> id -> find id' (files d') = find id' (files d))
    /\ users d' = users d /\ projects d' = projects d
    /\ construction_staff d' = construction_staff d
    /\ billing_items d' = billing_items d
    /\ outbound_payments d' = outbound_payments d.
Proof.
  intros id d d' find. subst d' find. rewrite delete_file_store. cbn [fst].
  split; [unfold delete_file; now destruct (select_get _ _)|].
  simpl. split; [|split; [|repeat split]].
  - unfold select_get.
    fold (select_all (fun x => ProjectFile.id x =? id)
            (delete_where (fun x => ProjectFile.id x =? id) (files d))).
    now rewrite select_delete_same.
  - intros id' Hne. now apply (select_get_other_delete ProjectFile.id).
Qed.

(** F1 and F2 are registered; F1 is deleted, and F2 is found as before. *)
Lemma delete_file_effect_witness :
  let d := fst (post_file "P1" (Some ("site.jpg", "2-site.jpg")) "F2"
                          (sample_db ProjectStatus.Billing)) in
  let find i t := select_get (fun x => ProjectFile.id x =? i) t in
  find "F1" (files d) <> None
  /\ find "F2" (files d) <> None
  /\ find "F1" (files (fst (delete_file "F1" d))) = None
  /\ "F2" <> "F1"
  /\ find "F2" (files (fst (delete_file "F1" d))) = find "F2" (files d).
Proof.
  intros d find.
  split; [discriminate|]. split; [discriminate|].
  split; [exact (proj1 (proj2 (delete_file_effect "F1" d)))|].
  split; [discriminate|].
  apply (proj1 (proj2 (proj2 (delete_file_effect "F1" d))) "F2").
  discriminate.
Defined.

(** ** The list and the detail *)



(** ** The SharePoint folder of a project *)

Lemma sanitized_chars s c :
  In c (chars (sanitizedFolderName s)) -> forbidden c = false.
Proof.
  induction s as [|a s IH]; simpl; [tauto|].
  intros [<-|H]; [|now apply IH].
  destruct (forbidden a) eqn:E; [reflexivity | exact E].
Qed.

Lemma sanitized_clean s :
  forallb (fun c => negb (forbidden c)) (chars s) = true ->
  sanitizedFolderName s = s.
Proof.
  induction s as [|a s IH]; simpl; [reflexivity|].
  intros H. apply andb_true_iff in H. destruct H as [Ha Hs].
  apply negb_true_iff in Ha. rewrite Ha. now rewrite IH.
Qed.

(** X24. The folder name [createSharePointFolder] derives from a title
    holds none of the nine characters of the class, the two path
    separators among them; it is as long as the title; sanitising it again
    changes nothing; and a title free of the nine characters is used as it
    is. *)
Theorem sanitized_folder_name :
  forall (folderName : string),
    (forall c, In c (chars (sanitizedFolderName folderName)) -> forbidden c = false)
    /\ String.length (sanitizedFolderName folderName) = String.length folderName
    /\ sanitizedFolderName (sanitizedFolderName folderName)
       = sanitizedFolderName folderName
    /\ (forallb (fun c => negb (forbidden c)) (chars folderName) = true ->
        sanitizedFolderName folderName = folderName).
Proof.
  intros s. split; [intros c; apply sanitized_chars|].
  split; [|split; [|apply sanitized_clean]].
  - induction s as [|a s IH]; simpl; congruence.
  - apply sanitized_clean. apply forallb_forall. intros c Hc.
    apply negb_true_iff. now apply (sanitized_chars s).
Qed.

Lemma sanitized_folder_name_witness :
  In "_"%char (chars (sanitizedFolderName "A/B:C"))
  /\ forbidden "_"%char = false
  /\ sanitizedFolderName "A/B:C" = "A_B_C"
  /\ sanitizedFolderName "Kitchen 2024" = "Kitchen 2024".
Proof.
  split; [right; left; reflexivity|].
  split; [apply (proj1 (sanitized_folder_name "A/B:C")); right; left; reflexivity|].
  split; [reflexivity|].
  apply (proj2 (proj2 (proj2 (sanitized_folder_name "Kitchen 2024")))).
  reflexivity.
Defined.

(** ** [formatNumber] *)

Lemma strip_insert_commas s :
  forall before, strip_commas (insert_commas before s) = strip_commas s.
Proof.
  induction s as [|c rest IH]; intros before; [reflexivity|].
  cbn [insert_commas].
  destruct (non_boundary before (Some c) && lookahead (String c rest));
    cbn [strip_commas]; rewrite ?Ascii.eqb_refl;
    destruct (Ascii.eqb c ","%char); now rewrite IH.
Qed.

Lemma strip_commas_twice s : strip_commas (strip_commas s) = strip_commas s.
Proof.
  induction s as [|c rest IH]; [reflexivity|]. simpl.
  destruct (Ascii.eqb c ","%char) eqn:E; [exact IH|].
  simpl. now rewrite E, IH.
Qed.

(** X25. The separators [formatNumber] puts in are display only: once the
    commas are stripped, as [handleSubmit] strips them, the formatted value
    and the typed value are the same string; and formatting a formatted
    value changes nothing.  Both hold whatever strings the engine counts as
    numbers. *)
Theorem formatNumber_keeps_value :
  forall (is_nan : string -> bool) (val : string),
    strip_commas (formatNumber is_nan val) = strip_commas val
    /\ formatNumber is_nan (formatNumber is_nan val) = formatNumber is_nan val.
Proof.
  intros is_nan val. unfold formatNumber.
  destruct (is_nan (strip_commas val)) eqn:E.
  - split; [reflexivity|]. now rewrite E.
  - rewrite strip_insert_commas, strip_commas_twice. split; [reflexivity|].
    now rewrite E.
Qed.

Lemma is_digit_word c : is_digit c = true -> is_word c = true.
Proof. intros H. unfold is_word. now rewrite H. Qed.

Lemma digit_run_all s :
  all_digits s = true -> digit_run s = String.length s.
Proof.
  unfold all_digits. induction s as [|c rest IH]; simpl; [reflexivity|].
  intros H. apply andb_true_iff in H. destruct H as [Hc Hrest].
  rewrite Hc. now rewrite IH.
Qed.

Lemma strip_commas_digits s : all_digits s = true -> strip_commas s = s.
Proof.
  unfold all_digits. induction s as [|c rest IH]; simpl; [reflexivity|].
  intros H. apply andb_true_iff in H. destruct H as [Hc Hrest].
  destruct (Ascii.eqb c ","%char) eqn:E.
  - apply Ascii.eqb_eq in E. subst c. discriminate Hc.
  - now rewrite IH.
Qed.

Lemma insert_commas_digits s :
  forall c0,
    is_digit c0 = true -> all_digits s = true ->
    insert_commas (Some c0) s
    = if (0 <? String.length s)%nat && (String.length s mod 3 =? 0)%nat
      then String ","%char (group3 s) else group3 s.
Proof.
  induction s as [|c rest IH]; intros c0 H0 Hs; [reflexivity|].
  pose proof (digit_run_all _ Hs) as Hrun.
  unfold all_digits in Hs. simpl in Hs. apply andb_true_iff in Hs.
  destruct Hs as [Hc Hrest].
  cbn [insert_commas group3].
  unfold lookahead. rewrite Hrun.
  unfold non_boundary. rewrite (is_digit_word _ H0), (is_digit_word _ Hc).
  cbn [Bool.eqb andb].
  rewrite (IH c Hc Hrest).
  destruct ((0 <? String.length (String c rest))%nat
            && (String.length (String c rest) mod 3 =? 0)%nat);
    destruct ((0 <? String.length rest)%nat && (String.length rest mod 3 =? 0)%nat);
    reflexivity.
Qed.

(** X26. On a string of digits that the engine counts as a number,
    [formatNumber] groups the digits in threes from the right: a comma
    stands after a digit exactly when the number of digits that follow is a
    positive multiple of three, and nowhere else. *)
Theorem formatNumber_groups_digits :
  forall (is_nan : string -> bool) (val : string),
    all_digits val = true ->
    is_nan val = false ->
    formatNumber is_nan val = group3 val.
Proof.
  intros is_nan val Hd Hn. unfold formatNumber.
  rewrite (strip_commas_digits _ Hd), Hn.
  destruct val as [|c rest]; [reflexivity|].
  pose proof Hd as Hd'. unfold all_digits in Hd'. simpl in Hd'.
  apply andb_true_iff in Hd'. destruct Hd' as [Hc Hrest].
  cbn [insert_commas group3]. unfold non_boundary.
  rewrite (is_digit_word _ Hc). cbn [Bool.eqb andb].
  rewrite (insert_commas_digits rest c Hc Hrest).
  now destruct ((0 <? String.length rest)%nat && (String.length rest mod 3 =? 0)%nat).
Qed.

Lemma formatNumber_groups_digits_witness :
  all_digits "1234567" = true
  /\ formatNumber (fun _ => false) "1234567" = "1,234,567".
Proof.
  split; [reflexivity|].
  apply (formatNumber_groups_digits (fun _ => false) "1234567"); reflexivity.
Defined.

(** ** The tabs of the project list *)

(** A status that may be NULL is among the strings of [l]. *)
Lemma indicator_sum (v : option string) (l : list string) :
  NoDup l ->
  list_sum (map (fun s => if status_is v s then 1 else 0) l)
  = if match v with
       | Some x => existsb (String.eqb x) l
       | None => false
       end then 1 else 0.
Proof.
  destruct v as [v|]; simpl.
  - induction l as [|s l IH]; intros Hnd; simpl; [reflexivity|].
    inversion Hnd as [|? ? Hs Hnd']; subst. rewrite (IH Hnd').
    destruct (v =? s) eqn:E; simpl; [|reflexivity].
    apply String.eqb_eq in E. subst v.
    destruct (existsb (String.eqb s) l) eqn:Ex; [|reflexivity].
    apply existsb_exists in Ex. destruct Ex as (x & Hx & Hsx).
    apply String.eqb_eq in Hsx. subst x. contradiction.
  - intros _. induction l as [|s l IH]; simpl; auto.
Qed.

Lemma tab_count_cons (s : string) p ps :
  (s =? tab_all) = false ->
  tab_count s (p :: ps)
  = (if status_is (Project.status (Project.cols p)) s then 1 else 0)
    + tab_count s ps.
Proof.
  intros Hs. unfold tab_count. rewrite Hs. simpl.
  now destruct (status_is (Project.status (Project.cols p)) s).
Qed.

Lemma tab_counts_sum (l : list string) ps :
  NoDup l ->
  (forall s, In s l -> (s =? tab_all) = false) ->
  list_sum (map (fun s => tab_count s ps) l)
  = List.length (filter (fun p => match Project.status (Project.cols p) with
                                  | Some x => existsb (String.eqb x) l
                                  | None => false
                                  end) ps).
Proof.
  intros Hnd Hl. induction ps as [|p ps IH].
  - simpl. induction l as [|s l IHl]; simpl; [reflexivity|].
    unfold tab_count at 1. rewrite (Hl s (or_introl eq_refl)). simpl.
    apply IHl; [now inversion Hnd | intros x Hx; apply Hl; now right].
  - assert (list_sum (map (fun s => tab_count s (p :: ps)) l)
            = list_sum (map (fun s => if status_is (Project.status (Project.cols p)) s
                                      then 1 else 0) l)
              + list_sum (map (fun s => tab_count s ps) l)) as ->.
    { clear IH Hnd. induction l as [|s l IHl]; simpl; [reflexivity|].
      rewrite tab_count_cons by (apply Hl; now left).
      rewrite IHl by (intros x Hx; apply Hl; now right). lia. }
    rewrite indicator_sum by exact Hnd. rewrite IH. simpl.
    now destruct (match Project.status (Project.cols p) with
                  | Some x => existsb (String.eqb x) l
                  | None => false
                  end).
Qed.

Lemma statuses_distinct :
  NoDup ProjectStatus.all
  /\ forall s, In s ProjectStatus.all -> (s =? tab_all) = false.
Proof.
  split.
  - unfold ProjectStatus.all. repeat constructor; simpl;
      intros H; decompose [or] H; try discriminate; assumption.
  - intros s Hs. unfold ProjectStatus.all in Hs. simpl in Hs.
    decompose [or] Hs; subst; try reflexivity. contradiction.
Qed.

(** X27. The seven status tabs of the project list split the projects
    whose status is one of the seven: their counts add up to the number of
    such projects, hence to the count of the tab of all projects when every
    status is valid; a project whose status is none of the seven, NULL
    included, is listed under no status tab. *)
Theorem status_tabs_partition :
  forall (projects : list Project.row),
    list_sum (map (fun s => tab_count s projects) ProjectStatus.all)
    = List.length (filter (fun p => valid_status (Project.status (Project.cols p)))
                          projects)
    /\ (forallb (fun p => valid_status (Project.status (Project.cols p)))
                projects = true ->
        list_sum (map (fun s => tab_count s projects) ProjectStatus.all)
        = tab_count tab_all projects)
    /\ (forall p tab,
          In tab ProjectStatus.all ->
          valid_status (Project.status (Project.cols p)) = false ->
          ~ In p (filteredProjects tab projects)).
Proof.
  intros ps. destruct statuses_distinct as [Hnd Hall].
  assert (list_sum (map (fun s => tab_count s ps) ProjectStatus.all)
          = List.length (filter (fun p => valid_status
                                            (Project.status (Project.cols p))) ps))
    as Hsum by (apply tab_counts_sum; assumption).
  split; [exact Hsum|]. split.
  - intros Hvalid. rewrite Hsum.
    rewrite filter_all by (now apply forallb_forall). reflexivity.
  - intros p tab Htab Hbad Hin. unfold filteredProjects in Hin.
    rewrite (Hall tab Htab) in Hin. apply filter_In in Hin.
    destruct Hin as [_ Hst].
    destruct (Project.status (Project.cols p)) as [v|]; [|discriminate].
    simpl in Hst, Hbad. apply String.eqb_eq in Hst.
    unfold ProjectStatus.is_status in Hbad.
    assert (existsb (String.eqb v) ProjectStatus.all = true); [|congruence].
    apply existsb_exists. exists tab. split; [exact Htab|].
    rewrite Hst. apply String.eqb_refl.
Qed.

Lemma status_tabs_partition_witness :
  let ps := [sample_project "P1" ProjectStatus.Billing;
             sample_project "P2" ProjectStatus.Estimate;
             sample_project "P3" ProjectStatus.Billing] in
  forallb (fun p => valid_status (Project.status (Project.cols p))) ps = true
  /\ list_sum (map (fun s => tab_count s ps) ProjectStatus.all) = tab_count tab_all ps.
Proof.
  intros ps. split; [reflexivity|].
  apply (proj1 (proj2 (status_tabs_partition ps))). reflexivity.
Defined.

(** ** The staff rows of the project form *)

(** X28. [removeStaff] leaves no row of the id it is given and keeps the
    other rows in their order: a row of another id stays between what is
    kept of the rows before it and what is kept of the rows after it, a
    row of the id leaves those two parts side by side, and a list with no
    row of the id is returned as it is.  A row added under an id no row
    had is gone again after the removal, the list being what it was; and
    two rows added in the same millisecond, which share an id, go
    together. *)
Theorem removeStaff_addStaff :
  forall (id : string) (l : list (Req.staff string)),
    (forall s, In s (removeStaff id l) <-> In s l /\ Req.staff_id s <> id)
    /\ (forall l1 s l2,
           Req.staff_id s <> id ->
           removeStaff id (l1 ++ s :: l2)
           = (removeStaff id l1 ++ s :: removeStaff id l2)%list)
    /\ (forall l1 s l2,
           Req.staff_id s = id ->
           removeStaff id (l1 ++ s :: l2)
           = (removeStaff id l1 ++ removeStaff id l2)%list)
    /\ removeStaff id [] = []
    /\ (existsb (fun s => Req.staff_id s =? id) l = false -> removeStaff id l = l)
    /\ (existsb (fun s => Req.staff_id s =? id) l = false ->
        removeStaff id (addStaff id l) = l)
    /\ removeStaff id (addStaff id (addStaff id l)) = removeStaff id l.
Proof.
  intros id l.
  assert (forall l', removeStaff id (addStaff id l') = removeStaff id l') as Hadd.
  { intros l'. unfold removeStaff, addStaff. rewrite filter_app. simpl.
    rewrite String.eqb_refl. apply app_nil_r. }
  assert (existsb (fun s => Req.staff_id s =? id) l = false -> removeStaff id l = l)
    as Hkeep.
  { intros Hnew. unfold removeStaff. apply filter_all.
    intros s Hs. apply (existsb_false_all _ _ _ Hnew) in Hs. now rewrite Hs. }
  split; [|split; [|split; [|split; [|split; [|split]]]]].
  - intros s. unfold removeStaff. rewrite filter_In, negb_true_iff, String.eqb_neq.
    tauto.
  - intros l1 s l2 Hs. unfold removeStaff. rewrite filter_app. simpl.
    apply String.eqb_neq in Hs. now rewrite Hs.
  - intros l1 s l2 Hs. unfold removeStaff. rewrite filter_app. simpl.
    apply String.eqb_eq in Hs. now rewrite Hs.
  - reflexivity.
  - exact Hkeep.
  - intros Hnew. rewrite Hadd. now apply Hkeep.
  - now rewrite !Hadd.
Qed.

(** Of three rows the middle one is removed: the first and the last stay,
    in that order. *)
Lemma removeStaff_addStaff_witness :
  let row i := {| Req.staff_id := i; Req.staff_cols := sample_staff_cols i |} in
  let l := [ row "1700000000001" ] in
  existsb (fun s => Req.staff_id s =? "1700000000002") l = false
  /\ removeStaff "1700000000002" (addStaff "1700000000002" l) = l
  /\ removeStaff "1700000000002"
       [ row "1700000000001"; row "1700000000002"; row "1700000000003" ]
     = [ row "1700000000001"; row "1700000000003" ].
Proof.
  intros row l. split; [reflexivity|]. split.
  - apply (proj1 (proj2 (proj2 (proj2 (proj2 (proj2
             (removeStaff_addStaff "1700000000002" l))))))).
    reflexivity.
  - reflexivity.
Defined.

(** ** Full replace: two edges *)

Lemma billing_rows_has_id fresh projectId l :
  forall n b s,
    In b l -> Req.bill_id b = Some s -> s <> "" ->
    exists r, In r (billing_rows fresh n projectId l) /\ BillingItem.id r = s.
Proof.
  induction l as [|x rest IH]; intros n b s Hin Hid Hs; [destruct Hin|].
  simpl. destruct Hin as [->|Hin].
  - eexists. split; [left; reflexivity|]. simpl. rewrite Hid. simpl.
    apply String.eqb_neq in Hs. now rewrite Hs.
  - destruct (IH (snd (or_fresh fresh n (Req.bill_id x))) b s Hin Hid Hs)
      as (r & Hr & Hrid).
    exists r. split; [now right | exact Hrid].
Qed.

(** X29. The primary key of a billing item is global to the table: a full
    replace that supplies, for one project, the id of a billing item of
    another project fails as a whole; the store is unchanged and the reply
    is a 500. *)
Theorem put_rejects_id_of_other_project :
  forall (fresh : nat -> string) (id : string)
         (body : Req.project (option string)) (d : Db)
         (b : Req.bill (option string)) (x : BillingItem.row),
    In x (billing_items d) ->
    BillingItem.projectId x <> id ->
    BillingItem.id x <> "" ->
    In b (array_or_empty (Req.billingItems body)) ->
    Req.bill_id b = Some (BillingItem.id x) ->
    exists e, put_project fresh id body d = (d, Json 500 (Error (message e))).
Proof.
  intros fresh id body d b x Hx Hpid Hne Hb Hbid.
  unfold put_project, db_transaction.
  destruct (put_project_fn fresh id body d) as [d1 [e|n]] eqn:E; [now exists e|].
  exfalso.
  destruct (put_project_fn_facts _ _ _ _ _ _ E) as (_ & _ & _ & [_ Hfresh] & _).
  destruct (billing_rows_has_id fresh id _
              (drawn fresh 0 (map (@Req.staff_id _)
                                  (array_or_empty (Req.constructionStaff body))))
              b _ Hb Hbid Hne) as (r & Hr & Hrid).
  specialize (Hfresh r Hr).
  assert (In x (delete_where (fun y => BillingItem.projectId y =? id)
                             (billing_items d))) as Hkept.
  { apply in_delete_where. split; [exact Hx | now apply String.eqb_neq]. }
  apply (existsb_false_all _ _ _ Hfresh) in Hkept.
  rewrite Hrid, String.eqb_refl in Hkept. discriminate.
Qed.

Lemma put_rejects_id_of_other_project_witness :
  let d := fst (post_projects "P2"
                  {| Req.cols := sample_cols ProjectStatus.Order;
                     Req.constructionStaff := None; Req.billingItems := None;
                     Req.outboundPayments := None |}
                  (sample_db ProjectStatus.Billing)) in
  let b := {| Req.bill_id := Some "B1"; Req.bill_cols := sample_bill_cols;
              Req.bill_isBilled := false; Req.bill_isPaid := false |} in
  let body := put_body (sample_cols ProjectStatus.Order) [] [b] [] in
  In (sample_bill "B1" "P1" true false) (billing_items d)
  /\ "P1" <> "P2"
  /\ exists e, put_project sample_fresh "P2" body d
               = (d, Json 500 (Error (message e))).
Proof.
  intros d b body.
  assert (In (sample_bill "B1" "P1" true false) (billing_items d)) as Hin
      by (left; reflexivity).
  split; [exact Hin|]. split; [discriminate|].
  apply (put_rejects_id_of_other_project sample_fresh "P2" body d b
           (sample_bill "B1" "P1" true false) Hin);
    [discriminate | discriminate | left; reflexivity | reflexivity].
Defined.

(** X30. A full replace whose three collections are empty or missing
    cannot fail: it answers success, whether or not the project is stored,
    and afterwards the project has no staff, no billing item and no
    outbound payment. *)
Theorem put_without_children_succeeds :
  forall (fresh : nat -> string) (id : string)
         (body : Req.project (option string)) (d : Db),
    array_or_empty (Req.constructionStaff body) = [] ->
    array_or_empty (Req.billingItems body) = [] ->
    array_or_empty (Req.outboundPayments body) = [] ->
    let d' := fst (put_project fresh id body d) in
    snd (put_project fresh id body d) = Json 200 Success
    /\ staff_of id d' = [] /\ billing_of id d' = [] /\ outbound_of id d' = [].
Proof.
  intros fresh id body d HS HB HO d'. subst d'.
  unfold put_project, db_transaction, put_project_fn, bind.
  rewrite HS, HB, HO. simpl.
  unfold staff_of, billing_of, outbound_of; simpl.
  now rewrite !select_delete_same.
Qed.

Lemma put_without_children_succeeds_witness :
  let body := put_body (sample_cols ProjectStatus.Billing) [] [] [] in
  let d := sample_db ProjectStatus.Billing in
  snd (put_project sample_fresh "P1" body d) = Json 200 Success
  /\ staff_of "P1" (fst (put_project sample_fresh "P1" body d)) = [].
Proof.
  intros body d.
  pose proof (put_without_children_succeeds sample_fresh "P1" body d
                eq_refl eq_refl eq_refl) as H.
  split; apply H.
Defined.
